(** * A shallow embedding of the backtesting and optimisation core

    The development follows the Python sources module by module:
    - [backtester/position.py]      -> [Module Position]
    - [backtester/portfolio.py]     -> [Module Portfolio]
    - [backtester.py]               -> [Module Backtester]
    - [backtester/performance.py]   -> [Module Performance]
    - [backtester/costs.py]         -> [Module Costs]
    - [backtester/engine.py] and
      [backtester/vector_engine.py] -> [Module Engine]
    - [optimizer/base.py] and
      [optimizer/grid_search.py]    -> [Module Optimizer]
    - [optimizer.py] (the handler of [_evaluate_parameters])
                                    -> [Module StrategyOptimizer]
    [Module Scenario] holds the concrete inputs; the properties come last.

    Conventions.
    - Python floats are modelled by exact rationals [Q]; equalities between
      computed amounts are stated with [==] (Qeq).  Where the source relies on
      the IEEE special values (pandas / numpy division by zero), the extended
      type [npfloat] below is used.
    - A Python [dict] keyed by strings is a [gmap string _]; sums over its
      values do not depend on the order of the keys, the amounts being exact.
    - A method that mutates [self] becomes a function returning the new
      object state (together with the returned value, when there is one).
    - A statement that can [raise] returns a [result]. *)

From Stdlib Require Import QArith Qabs Qround Lqa ZArith List Bool.
From stdpp Require Import gmap strings list fin_maps.
Import ListNotations.

Open Scope Q_scope.

(** ** Exceptions *)

(** A raised exception: the class name and the message. *)
Record exn := Exn { exn_class : string; exn_msg : string }.

Inductive result (A : Type) : Type :=
| Ok (a : A)
| Raise (e : exn).
Arguments Ok {A} a.
Arguments Raise {A} e.

#[global] Instance result_ret : MRet result := fun _ a => Ok a.
#[global] Instance result_bind : MBind result := fun _ _ k r =>
  match r with
  | Ok a => k a
  | Raise e => Raise e
  end.

#[global] Instance result_fmap : FMap result := fun _ _ f r =>
  match r with
  | Ok a => Ok (f a)
  | Raise e => Raise e
  end.

(** ** Comparisons on rationals, as booleans *)

Definition Qltb (a b : Q) : bool := negb (Qle_bool b a).
Definition Qgeb (a b : Q) : bool := Qle_bool b a.

(** ** backtester/position.py *)

Module Position.

(** The attributes set by [Position.__init__]; timestamps are instants on
    an integer clock that counts seconds. *)
Record t := mk {
  symbol : string;
  direction : string;          (* 'long' or 'short' *)
  entry_price : Q;
  size : Q;
  timestamp : Z;
  exit_price : option Q;
  exit_timestamp : option Z;
  pnl : option Q
}.

Definition init (symbol direction : string) (entry_price size : Q)
    (timestamp : Z) : t :=
  mk symbol direction entry_price size timestamp None None None.

Definition set_pnl (self : t) (v : Q) : t :=
  mk (symbol self) (direction self) (entry_price self) (size self)
     (timestamp self) (exit_price self) (exit_timestamp self) (Some v).

(** The value both assigned to [self.pnl] and returned. *)
Definition pnl_value (self : t) (current_price : Q) : Q :=
  if String.eqb (direction self) "long"
  then (current_price - entry_price self) * size self
  else (entry_price self - current_price) * size self.

(** [calculate_pnl]: the new state of [self] and the returned value. *)
Definition calculate_pnl (self : t) (current_price : Q) : t * Q :=
  let v := pnl_value self current_price in
  (set_pnl self v, v).

(** [close] has no [raise] statement; it is typed as a [result] so that
    the absence of a failure can be stated. *)
Definition close (self : t) (exit_price : Q) (timestamp : Z) : result t :=
  let self1 :=
    mk (symbol self) (direction self) (entry_price self) (size self)
       (Position.timestamp self) (Some exit_price) (exit_timestamp self)
       (pnl self) in
  let self2 :=
    mk (symbol self1) (direction self1) (entry_price self1) (size self1)
       (Position.timestamp self1) (Position.exit_price self1)
       (Some timestamp) (pnl self1) in
  Ok (fst (calculate_pnl self2 exit_price)).

Definition get_value (self : t) (current_price : Q) : Q :=
  size self * current_price.

Definition get_unrealized_pnl (self : t) (current_price : Q) : t * Q :=
  calculate_pnl self current_price.

(** The position once it has been marked at its own entry price, as
    [Portfolio.update_equity] leaves every open position. *)
Definition marked_at_entry (self : t) : t :=
  fst (get_unrealized_pnl self (entry_price self)).

End Position.

(** ** backtester/portfolio.py *)

(** Python's [sum]: a left fold that starts from 0. *)
Definition py_sum (l : list Q) : Q := fold_left Qplus l 0.

Module Portfolio.

(** One entry of [trade_history], the dict built by [_record_trade]. *)
Record trade := mk_trade {
  tr_timestamp : Z;
  tr_symbol : string;
  tr_action : string;
  tr_direction : string;
  tr_price : option Q;
  tr_size : Q;
  tr_pnl : option Q;
  tr_cash : Q;
  tr_equity : Q
}.

Record t := mk {
  initial_capital : Q;
  cash : Q;
  equity : Q;
  positions : gmap string Position.t;
  closed_positions : list Position.t;
  trade_history : list trade
}.

Definition init (initial_capital : Q) : t :=
  mk initial_capital initial_capital initial_capital ∅ [] [].

Definition has_sufficient_funds (self : t) (required_margin : Q) : bool :=
  Qgeb (cash self) required_margin.

(** The generator summed by [update_equity]: every open position is asked
    for its unrealized P&L at its own [entry_price]. *)
Definition unrealized_terms (ps : gmap string Position.t) : list Q :=
  map (fun kv => snd (Position.get_unrealized_pnl kv.2 (Position.entry_price kv.2)))
      (map_to_list ps).

(** [update_equity].  [get_unrealized_pnl] goes through [calculate_pnl],
    which stores its result in the position, so every open position is
    rewritten as well.  [closed_positions] is kept by value, as each
    position was when it was logged: when a logged object is added again
    the code rewrites it in the log too, so of a call that changes the
    portfolio the properties state the number of the earlier entries of
    that list, not their contents. *)
Definition update_equity (self : t) : t :=
  let unrealized_pnl := py_sum (unrealized_terms (positions self)) in
  let positions' :=
    (fun pos => fst (Position.get_unrealized_pnl pos (Position.entry_price pos)))
      <$> positions self in
  mk (initial_capital self) (cash self) (cash self + unrealized_pnl)
     positions' (closed_positions self) (trade_history self).

Definition _record_trade (self : t) (position : Position.t) (action : string) : t :=
  let trade :=
    mk_trade (Position.timestamp position) (Position.symbol position) action
      (Position.direction position)
      (if String.eqb action "open" then Some (Position.entry_price position)
       else Position.exit_price position)
      (Position.size position)
      (if String.eqb action "close" then Position.pnl position else None)
      (cash self) (equity self) in
  mk (initial_capital self) (cash self) (equity self) (positions self)
     (closed_positions self) (trade_history self ++ [trade]).

(** The state of the argument object after a call that stored it in the
    map: the map holds the object itself, so what [update_equity] wrote
    into it is seen by the caller too. *)
Definition stored (self : t) (position : Position.t) : Position.t :=
  default position (positions self !! Position.symbol position).

(** [add_position]: the new portfolio and the state of [position]. *)
Definition add_position (self : t) (position : Position.t)
    : result (t * Position.t) :=
  let margin := Position.get_value position (Position.entry_price position) in
  if negb (has_sufficient_funds self margin)
  then Raise (Exn "ValueError" "Insufficient funds to open position")
  else
    let self1 :=
      mk (initial_capital self) (cash self - margin) (equity self)
         (<[Position.symbol position := position]> (positions self))
         (closed_positions self) (trade_history self) in
    let self2 := update_equity self1 in
    let position' := stored self2 position in
    Ok (_record_trade self2 position' "open", position').

(** [remove_position]; [now] is the value of [datetime.now()]. *)
Definition remove_position (self : t) (position : Position.t)
    (exit_price : Q) (now : Z) : result (t * Position.t) :=
  match positions self !! Position.symbol position with
  | None => Ok (self, position)
  | Some _ =>
      position' ← Position.close position exit_price now;
      let self1 :=
        mk (initial_capital self)
           (cash self + Position.get_value position' exit_price)
           (equity self)
           (delete (Position.symbol position') (positions self))
           (closed_positions self ++ [position'])
           (trade_history self) in
      let self2 := update_equity self1 in
      Ok (_record_trade self2 position' "close", position')
  end.

Definition get_position (self : t) (symbol : string) : option Position.t :=
  positions self !! symbol.

Definition get_total_value (self : t) : Q := equity self.

(** The mutating operations, as a caller issues them. *)
Inductive op :=
| AddPosition (position : Position.t)
| RemovePosition (position : Position.t) (exit_price : Q) (now : Z)
| UpdateEquity.

Definition call (self : t) (o : op) : result t :=
  match o with
  | AddPosition position => fst <$> add_position self position
  | RemovePosition position exit_price now =>
      fst <$> remove_position self position exit_price now
  | UpdateEquity => Ok (update_equity self)
  end.

(** A call that raises does so before it has assigned anything, so the
    object is left as it was. *)
Definition after (self : t) (o : op) : t :=
  match call self o with
  | Ok self' => self'
  | Raise _ => self
  end.

(** The states of the portfolio after each call of a sequence. *)
Fixpoint states (self : t) (ops : list op) : list t :=
  match ops with
  | [] => []
  | o :: ops' => after self o :: states (after self o) ops'
  end.

(** Equity marked at the latest prices: cash plus the P&L of every open
    position at the latest price of its symbol. *)
Definition marked_to_market (latest : string -> Q) (self : t) : Q :=
  cash self +
  py_sum (map (fun kv => Position.pnl_value kv.2 (latest kv.1))
              (map_to_list (positions self))).

(** [get_position_value]: the notional at the entry price, 0.0 without a
    position. *)
Definition get_position_value (self : t) (symbol : string) : Q :=
  match get_position self symbol with
  | None => 0
  | Some position => Position.get_value position (Position.entry_price position)
  end.

End Portfolio.

(** ** Floats with the IEEE special values

    pandas and numpy do not raise on a division by zero: the quotient is an
    infinity, or NaN for 0/0.  Finite values stay exact rationals. *)

Inductive npfloat :=
| Fin (q : Q)
| PInf
| NInf
| NaN.

(** Division of two finite floats as numpy performs it. *)
Definition np_div (a b : Q) : npfloat :=
  if Qeq_bool b 0 then
    (if Qeq_bool a 0 then NaN else if Qltb 0 a then PInf else NInf)
  else Fin (a / b).

Definition np_abs (x : npfloat) : npfloat :=
  match x with
  | Fin q => Fin (Qabs q)
  | PInf | NInf => PInf
  | NaN => NaN
  end.

Definition np_is_nan (x : npfloat) : bool :=
  match x with NaN => true | _ => false end.

(** [a < b]; every comparison with NaN is false. *)
Definition np_lt (a b : npfloat) : bool :=
  match a, b with
  | NaN, _ | _, NaN => false
  | _, NInf => false
  | NInf, _ => true
  | PInf, _ => false
  | Fin _, PInf => true
  | Fin x, Fin y => Qltb x y
  end.

(** [Series.min()]: NaN entries are skipped; NaN when nothing is left. *)
Definition series_min (s : list npfloat) : npfloat :=
  match filter (fun x => np_is_nan x = false) s with
  | [] => NaN
  | x :: xs => fold_left (fun m y => if np_lt y m then y else m) xs x
  end.

(** [Series.cummax()] and [Series.expanding().max()]: the prefix maxima. *)
Fixpoint cummax_from (m : Q) (s : list Q) : list Q :=
  match s with
  | [] => []
  | x :: s' =>
      let m' := if Qltb m x then x else m in
      m' :: cummax_from m' s'
  end.

Definition cummax (s : list Q) : list Q :=
  match s with
  | [] => []
  | x :: s' => x :: cummax_from x s'
  end.

(** [(series - peaks) / peaks], element by element. *)
Definition drawdown_series (s : list Q) : list npfloat :=
  map (fun xm => np_div (xm.1 - xm.2) xm.2) (combine s (cummax s)).

(** ** backtester.py *)

(** Python's [round(x, 2)] on an exact value: to the nearest hundredth,
    ties to the even neighbour. *)
Definition round_half_even (x : Q) : Z :=
  let f := Qfloor x in
  let r := x - inject_Z f in
  if Qltb r (1 # 2) then f
  else if Qltb (1 # 2) r then (f + 1)%Z
  else if Z.even f then f else (f + 1)%Z.

Definition py_round2 (x : Q) : Q := inject_Z (round_half_even (x * 100)) / 100.

Module Backtester.

Inductive side := Long | Short.

Definition side_eqb (a b : side) : bool :=
  match a, b with
  | Long, Long | Short, Short => true
  | _, _ => false
  end.

(** The configuration keys the class reads.  A configuration is taken to
    carry them all; the KeyError of a dict that lacks one is outside this
    record. *)
Record config := mk_config {
  commission_per_lot : Q;          (* risk_management.commission_per_lot *)
  allow_consecutive_trades : bool; (* trading.allow_consecutive_trades *)
  sizing_type : string;            (* risk_management.position_sizing.type *)
  fixed_volume : Q;                (* risk_management.position_sizing.fixed_volume *)
  risk_percentage : Q;             (* risk_management.risk_percentage *)
  stop_loss_multiplier : Q;        (* risk_management.stop_loss_multiplier *)
  sl_type : string;                (* trading.exit_rules.stop_loss.type *)
  sl_value : Q;                    (* trading.exit_rules.stop_loss.value *)
  tp_type : string;                (* trading.exit_rules.take_profit.type *)
  tp_value : Q                     (* trading.exit_rules.take_profit.value *)
}.

(** A row of the data frame: its index and the columns that are read.
    The frame is taken to have these columns; the KeyError of a frame that
    lacks one is outside this record. *)
Record row := mk_row {
  index : Z;
  close : Q;
  high : Q;
  low : Q;
  ATR : Q;
  long_signal : bool;
  short_signal : bool
}.

(** An entry of [self.trades]. *)
Record trade := mk_trade {
  t_type : side;
  t_entry : Q;
  t_exit : Q;
  t_volume : Q;
  t_pnl : Q;
  t_commission : Q;
  t_time : Z
}.

(** The mutable attributes of the object. *)
Record t := mk {
  balance : Q;
  equity_curve : list Q;
  trades : list trade;
  last_trade_type : option side
}.

Definition init (initial_balance : Q) : t := mk initial_balance [] [] None.

(** The local variables of [run_backtest]. *)
Record locals := mk_locals {
  position : option side;
  entry_price : Q;
  volume : Q;
  stop_loss : Q;
  take_profit : Q
}.

Definition locals0 : locals := mk_locals None 0 0 0 0.

Section WithConfig.
Variable cfg : config.

(** The risk-based size divides by [stop_loss_pips * pip_value]; Python's
    [/] raises on a zero divisor. *)
Definition calculate_position_size (self : t) (price atr : Q) : result Q :=
  if String.eqb (sizing_type cfg) "fixed" then Ok (fixed_volume cfg)
  else
    let risk_amount := balance self * risk_percentage cfg in
    let stop_loss_pips := atr * stop_loss_multiplier cfg in
    let pip_value := 10 in
    if Qeq_bool (stop_loss_pips * pip_value) 0
    then Raise (Exn "ZeroDivisionError" "float division by zero")
    else Ok (py_round2 (risk_amount / (stop_loss_pips * pip_value))).

(** A level is bound only when its rule is of type 'fixed'; returning an
    unbound local raises. *)
Definition calculate_exit_prices (entry_price atr : Q) (position_type : side)
    : result (Q * Q) :=
  let stop_loss :=
    if String.eqb (sl_type cfg) "fixed" then
      Some (match position_type with
            | Long => entry_price - atr * sl_value cfg
            | Short => entry_price + atr * sl_value cfg
            end)
    else None in
  let take_profit :=
    if String.eqb (tp_type cfg) "fixed" then
      Some (match position_type with
            | Long => entry_price + atr * tp_value cfg
            | Short => entry_price - atr * tp_value cfg
            end)
    else None in
  match stop_loss, take_profit with
  | Some sl, Some tp => Ok (sl, tp)
  | None, _ => Raise (Exn "UnboundLocalError" "stop_loss")
  | Some _, None => Raise (Exn "UnboundLocalError" "take_profit")
  end.

Definition calculate_commission (volume : Q) : Q :=
  volume * commission_per_lot cfg.

(** Closing the open position at [exit_price] on row [r]. *)
Definition exit_at (self : t) (l : locals) (s : side) (exit_price : Q)
    (r : row) : t * locals :=
  let pnl :=
    match s with
    | Long => (exit_price - entry_price l) * volume l * 100000
    | Short => (entry_price l - exit_price) * volume l * 100000
    end in
  let commission := calculate_commission (volume l) in
  (mk (balance self + (pnl - commission)) (equity_curve self)
      (trades self ++
         [mk_trade s (entry_price l) exit_price (volume l) pnl commission (index r)])
      (Some s),
   mk_locals None (entry_price l) (volume l) (stop_loss l) (take_profit l)).

(** First half of the loop body: the equity sample and the test of the
    stop-loss and take-profit levels. *)
Definition check_exit (self : t) (l : locals) (r : row) : t * locals :=
  match position l with
  | None => (self, l)
  | Some s =>
      let unrealized_pnl :=
        match s with
        | Long => (close r - entry_price l) * volume l * 100000
        | Short => (entry_price l - close r) * volume l * 100000
        end in
      let current_equity := balance self + unrealized_pnl in
      let self1 :=
        mk (balance self) (equity_curve self ++ [current_equity])
           (trades self) (last_trade_type self) in
      match s with
      | Long =>
          if Qle_bool (low r) (stop_loss l) || Qgeb (high r) (take_profit l)
          then
            let exit_price :=
              if Qle_bool (low r) (stop_loss l) then stop_loss l
              else take_profit l in
            exit_at self1 l Long exit_price r
          else (self1, l)
      | Short =>
          if Qgeb (high r) (stop_loss l) || Qle_bool (low r) (take_profit l)
          then
            let exit_price :=
              if Qgeb (high r) (stop_loss l) then stop_loss l
              else take_profit l in
            exit_at self1 l Short exit_price r
          else (self1, l)
      end
  end.

Definition last_is (self : t) (s : side) : bool :=
  match last_trade_type self with
  | Some s' => side_eqb s' s
  | None => false
  end.

Definition open_position (self : t) (r : row) (s : side) : result locals :=
  volume ← calculate_position_size self (close r) (ATR r);
  let entry_price := close r in
  levels ← calculate_exit_prices entry_price (ATR r) s;
  Ok (mk_locals (Some s) entry_price volume levels.1 levels.2).

(** Second half of the loop body: a new position is opened only when
    none is held. *)
Definition handle_signals (self : t) (l : locals) (r : row) : result locals :=
  match position l with
  | Some _ => Ok l
  | None =>
      let can_open_long :=
        long_signal r && (allow_consecutive_trades cfg || negb (last_is self Long)) in
      let can_open_short :=
        short_signal r && (allow_consecutive_trades cfg || negb (last_is self Short)) in
      if can_open_long then open_position self r Long
      else if can_open_short then open_position self r Short
      else Ok l
  end.

Definition step (st : t * locals) (r : row) : result (t * locals) :=
  let st1 := check_exit st.1 st.2 r in
  l2 ← handle_signals st1.1 st1.2 r;
  Ok (st1.1, l2).

Fixpoint run_rows (st : t * locals) (data : list row) : result (t * locals) :=
  match data with
  | [] => Ok st
  | r :: data' => st' ← step st r; run_rows st' data'
  end.

Definition run_backtest (self : t) (data : list row) : result t :=
  fst <$> run_rows (self, locals0) data.

End WithConfig.

(** [calculate_max_drawdown]: the minimum of the drawdown series, with its
    sign. *)
Definition calculate_max_drawdown (self : t) : npfloat :=
  series_min (drawdown_series (equity_curve self)).

(** A float times a finite factor. *)
Definition np_times (x : npfloat) (k : Q) : npfloat :=
  match x with
  | Fin q => Fin (q * k)
  | PInf => if Qeq_bool k 0 then NaN else if Qltb 0 k then PInf else NInf
  | NInf => if Qeq_bool k 0 then NaN else if Qltb 0 k then NInf else PInf
  | NaN => NaN
  end.

(** The dict returned by [generate_report]. *)
Record report := mk_report {
  rp_initial_balance : Q;
  rp_final_balance : Q;
  rp_net_profit : Q;
  rp_total_commission : Q;
  rp_win_rate : Q;                 (* 'Win Rate (%)' *)
  rp_max_drawdown : npfloat;       (* 'Max Drawdown (%)' *)
  rp_number_of_trades : nat;
  rp_average_profit : Q;           (* 'Average Profit per Trade' *)
  rp_profit_factor : npfloat
}.

Definition winners (ts : list trade) : list trade :=
  filter (fun tr => Qltb 0 (t_pnl tr) = true) ts.

Definition losers (ts : list trade) : list trade :=
  filter (fun tr => Qltb (t_pnl tr) 0 = true) ts.

(** [generate_report]; [initial_balance] is the attribute set by the
    constructor, and None is returned when there is no trade. *)
Definition generate_report (initial_balance : Q) (self : t) : option report :=
  match trades self with
  | [] => None
  | _ =>
      let n := length (trades self) in
      let total_profit := py_sum (map t_pnl (trades self)) in
      let total_commission := py_sum (map t_commission (trades self)) in
      let net_profit := total_profit - total_commission in
      let win_rate :=
        inject_Z (Z.of_nat (length (winners (trades self))))
        / inject_Z (Z.of_nat n) * 100 in
      let max_drawdown := calculate_max_drawdown self in
      Some (mk_report initial_balance (balance self) net_profit total_commission
              win_rate (np_times max_drawdown 100) n
              (if (0 <? n)%nat then net_profit / inject_Z (Z.of_nat n) else 0)
              (if (0 <? length (losers (trades self)))%nat
               then np_abs (np_div (py_sum (map t_pnl (winners (trades self))))
                                   (py_sum (map t_pnl (losers (trades self)))))
               else PInf))
  end.

(** Adjacent trades of a list are of different sides. *)
Fixpoint alternating (ts : list trade) : Prop :=
  match ts with
  | a :: ts' =>
      match ts' with
      | b :: _ => t_type a <> t_type b
      | [] => True
      end /\ alternating ts'
  | [] => True
  end.

End Backtester.

(** ** backtester/performance.py *)

Module Performance.

(** A row of the history handed to the analyzer (the dict built by the
    engine's [_record_trade]).  [pnl] is None on an 'open' row; in the
    data frame that is a missing value, for which [> 0] and [< 0] are both
    false. *)
Record record := mk_record {
  timestamp : Z;
  symbol : string;
  direction : string;
  action : string;
  price : option Q;
  size : Q;
  pnl : option Q;
  equity : Q
}.

Definition is_close (r : record) : bool := String.eqb (action r) "close".

Definition is_open (r : record) : bool := String.eqb (action r) "open".

(** The value of the [pnl] column is missing on the row. *)
Definition pnl_missing (r : record) : bool :=
  match pnl r with Some _ => false | None => true end.

Definition pnl_pos (r : record) : bool :=
  match pnl r with Some v => Qltb 0 v | None => false end.

Definition pnl_neg (r : record) : bool :=
  match pnl r with Some v => Qltb v 0 | None => false end.

(** The [pnl] column restricted to a mask that is false on missing
    values. *)
Definition pnl_where (mask : record -> bool) (trades : list record) : list Q :=
  omap (fun r => if mask r then pnl r else None) trades.

Definition _calculate_max_drawdown (equity_curve : list Q) : npfloat :=
  np_abs (series_min (drawdown_series equity_curve)).

(** [np.mean] of a list of floats: NaN, with a warning, for the empty
    list. *)
Definition np_mean (l : list Q) : npfloat :=
  match l with
  | [] => NaN
  | _ :: _ => Fin (py_sum l / inject_Z (Z.of_nat (length l)))
  end.

(** The loop of [_calculate_avg_trade_duration] over the rows that are
    left; [opens] is the frame restricted to the 'open' rows, whose first
    row [iloc[0]] reads: an IndexError when there is none.  Timestamps count
    seconds, so the hours are the difference divided by 3600. *)
Fixpoint trade_durations (opens rows : list record) : result (list Q) :=
  match rows with
  | [] => Ok []
  | trade :: rest =>
      if is_close trade then
        match opens with
        | [] => Raise (Exn "IndexError" "single positional indexer is out-of-bounds")
        | first :: _ =>
            let duration := (timestamp trade - timestamp first)%Z in
            durations ← trade_durations opens rest;
            Ok (inject_Z duration / 3600 :: durations)
        end
      else trade_durations opens rest
  end.

Definition _calculate_avg_trade_duration (trades : list record) : result npfloat :=
  np_mean <$> trade_durations (filter (fun r => is_open r = true) trades) trades.

(** [_calculate_profit_factor].  A [pnl] column in which every value is
    None keeps the dtype object: its selections are empty, their sums are
    the integer 0 and the quotient is Python's, which raises.  As soon as a
    row carries a number the column is a float column, None is NaN, and the
    quotient is numpy's.  The frame of an empty history has no column at
    all. *)
Definition _calculate_profit_factor (trades : list record) : result npfloat :=
  let profits := pnl_where pnl_pos trades in
  let losses := pnl_where pnl_neg trades in
  match trades with
  | [] => Raise (Exn "KeyError" "pnl")
  | _ :: _ =>
      if forallb pnl_missing trades
      then Raise (Exn "ZeroDivisionError" "division by zero")
      else Ok (np_div (py_sum profits) (py_sum (map Qabs losses)))
  end.

(** The metrics of the report that are exact or sentinel valued.  The
    Sharpe, Sortino and Calmar ratios need square roots and standard
    deviations and are left out of the record; none of them raises. *)
Record metrics := mk_metrics {
  total_trades : nat;
  winning_trades : nat;
  losing_trades : nat;
  win_rate : Q;
  gross_profit : Q;
  gross_loss : Q;
  net_profit : Q;
  profit_factor : npfloat;
  max_drawdown : npfloat;
  final_equity : Q;
  average_trade_duration : npfloat
}.

Definition count (mask : record -> bool) (trades : list record) : nat :=
  length (filter (fun r => mask r = true) trades).

(** [calculate]; None is the empty dict returned for an empty history.
    The profit factor of the report is the one of
    [_calculate_profit_factor], which overwrites the guarded quotient
    computed first. *)
Definition calculate (trade_history : list record) (final_equity : Q)
    : result (option metrics) :=
  match trade_history with
  | [] => Ok None
  | _ =>
      let total_trades := count is_close trade_history in
      let winning_trades := count (fun r => is_close r && pnl_pos r) trade_history in
      let losing_trades := count (fun r => is_close r && pnl_neg r) trade_history in
      let gross_profit := py_sum (pnl_where pnl_pos trade_history) in
      let gross_loss := Qabs (py_sum (pnl_where pnl_neg trade_history)) in
      let net_profit := gross_profit - gross_loss in
      let win_rate :=
        if (0 <? total_trades)%nat
        then inject_Z (Z.of_nat winning_trades) / inject_Z (Z.of_nat total_trades)
        else 0 in
      let equity_curve := map equity trade_history in
      let max_drawdown := _calculate_max_drawdown equity_curve in
      avg_trade_duration ← _calculate_avg_trade_duration trade_history;
      profit_factor ← _calculate_profit_factor trade_history;
      Ok (Some (mk_metrics total_trades winning_trades losing_trades win_rate
                  gross_profit gross_loss net_profit profit_factor max_drawdown
                  final_equity avg_trade_duration))
  end.

(** The drawdown as the specification words it: the largest, over time, of
    [(running_peak - equity) / running_peak], the running peak at a time
    being the largest of the samples up to that time. *)
Definition largest (d : Q) (ds : list Q) : Q :=
  fold_left (fun m y => if Qltb m y then y else m) ds d.

Definition running_peak (equity_curve : list Q) (i : nat) : Q :=
  match firstn (S i) equity_curve with
  | [] => 0
  | x :: prefix => largest x prefix
  end.

Definition spec_drawdowns (equity_curve : list Q) : list Q :=
  map (fun i =>
         (running_peak equity_curve i - nth i equity_curve 0)
         / running_peak equity_curve i)
      (seq 0 (length equity_curve)).

Definition spec_max_drawdown (equity_curve : list Q) : Q :=
  match spec_drawdowns equity_curve with
  | [] => 0
  | d :: ds => largest d ds
  end.

(** A series that never decreases from one sample to the next. *)
Fixpoint nondecreasing (s : list Q) : Prop :=
  match s with
  | x :: s' =>
      match s' with
      | y :: _ => x <= y
      | [] => True
      end /\ nondecreasing s'
  | [] => True
  end.

(** The finite drawdowns of a series that continues after a peak [m], and
    the smallest of a non-empty list of rationals; both serve to state
    what [drawdown_series] and [series_min] compute on positive series. *)
Fixpoint drawdowns_from (m : Q) (s : list Q) : list Q :=
  match s with
  | [] => []
  | x :: s' =>
      let m' := if Qltb m x then x else m in
      (x - m') / m' :: drawdowns_from m' s'
  end.

Definition smallest (d : Q) (ds : list Q) : Q :=
  fold_left (fun m y => if Qltb y m then y else m) ds d.

End Performance.

(** ** Dictionary access *)

(** [d[key]] raises KeyError on a missing key. *)
Definition getitem {V} (d : gmap string V) (key : string) : result V :=
  match d !! key with
  | Some v => Ok v
  | None => Raise (Exn "KeyError" key)
  end.

(** [d.get(key, dflt)]. *)
Definition get_default {V} (d : gmap string V) (key : string) (dflt : V) : V :=
  default dflt (d !! key).

(** [d.update(other)]: the keys of [other] win. *)
Definition dict_update {V} (d other : gmap string V) : gmap string V := other ∪ d.

(** ** backtester/costs.py *)

Module Costs.

Inductive cost :=
| CommissionCost (rate : Q)
| SpreadCost (spread_points point_value : Q)
| SlippageCost (slippage_pips : Q).

Definition calculate (c : cost) (trade_value : Q) : Q :=
  match c with
  | CommissionCost rate => trade_value * rate
  | SpreadCost spread_points point_value => spread_points * point_value
  | SlippageCost slippage_pips => trade_value * (slippage_pips / 10000)
  end.

(** [TradingCostManager._initialize_costs] *)
Definition _initialize_costs (config : gmap string Q) : list cost :=
  match config !! "commission_rate" with
  | Some r => [CommissionCost r]
  | None => []
  end ++
  match config !! "spread_points", config !! "point_value" with
  | Some s, Some v => [SpreadCost s v]
  | _, _ => []
  end ++
  match config !! "slippage_pips" with
  | Some s => [SlippageCost s]
  | None => []
  end.

Definition calculate_total_cost (costs : list cost) (trade_value : Q) : Q :=
  py_sum (map (fun c => calculate c trade_value) costs).

End Costs.

(** ** backtester/engine.py and backtester/vector_engine.py *)

Module Engine.

(** The nested configuration dict, one map per section that is read. *)
Record config := mk_config {
  risk_management : gmap string Q;
  indicators : gmap string Q;
  trading_costs : gmap string Q
}.

(** A bar of the price data frame. *)
Record row := mk_row {
  index : Z;
  open : Q;
  high : Q;
  low : Q;
  close : Q
}.

(** The signal dict of a strategy; a missing key is None, and the dict
    with no key at all is the falsy one. *)
Record signals := mk_signals {
  s_symbol : option string;
  s_direction : option string;
  s_price : option Q;
  s_volume : option Q
}.

Definition no_signals : signals := mk_signals None None None None.

Definition truthy (s : signals) : bool :=
  match s with
  | mk_signals None None None None => false
  | _ => true
  end.

Definition sig_item {A} (field : option A) (key : string) : result A :=
  match field with
  | Some v => Ok v
  | None => Raise (Exn "KeyError" key)
  end.

(** The three methods of [IStrategy] that the engine calls, over the
    attributes [state] of the strategy object; [new] is the object that
    the constructor returns. *)
Record strategy_class := mk_strategy {
  state : Type;
  new : state;
  initialize : state -> config -> result state;
  on_data : state -> list row -> result state;
  generate_signals : state -> result (state * signals)
}.

(** The attributes of the engine.  [positions] holds the open Position
    objects; each is paired with its identity, the rank of its creation,
    because [list.remove] compares objects by identity.  The portfolio's map
    holds the same objects: the values kept here can differ from them in
    [pnl] only, a field that every method writes before it reads it.
    [now_calls] counts the readings of the wall clock. *)
Record t := mk {
  cfg : config;
  portfolio : Portfolio.t;
  positions : list (nat * Position.t);
  history : list Performance.record;
  cost_manager : list Costs.cost;
  next_id : nat;
  now_calls : nat
}.

Definition init (c : config) : t :=
  mk c (Portfolio.init (get_default (risk_management c) "initial_capital" 10000))
     [] [] (Costs._initialize_costs (trading_costs c)) 0 0.

Definition set_cfg (self : t) (c : config) : t :=
  mk c (portfolio self) (positions self) (history self) (cost_manager self)
     (next_id self) (now_calls self).

Section WithClock.
(** Successive readings of [datetime.now()]. *)
Variable wall_clock : nat -> Z.

Definition _record_trade (self : t) (position : Position.t) (action : string)
    (exit_price pnl : option Q) : t :=
  let trade_record :=
    Performance.mk_record (Position.timestamp position)
      (Position.symbol position) (Position.direction position) action
      (if String.eqb action "open" then Some (Position.entry_price position)
       else exit_price)
      (Position.size position)
      (if String.eqb action "close" then pnl else None)
      (Portfolio.equity (portfolio self)) in
  mk (cfg self) (portfolio self) (positions self)
     (history self ++ [trade_record]) (cost_manager self)
     (next_id self) (now_calls self).

Definition _calculate_trading_costs (self : t) (trade_value : Q) : Q :=
  Costs.calculate_total_cost (cost_manager self) trade_value.

Definition _can_open_position (self : t) (s : signals) : result bool :=
  price ← sig_item (s_price s) "price";
  volume ← sig_item (s_volume s) "volume";
  if negb (Portfolio.has_sufficient_funds (portfolio self) (price * volume))
  then Ok false
  else
    let max_positions :=
      get_default (risk_management (cfg self)) "max_open_trades" 5 in
    if Qgeb (inject_Z (Z.of_nat (length (positions self)))) max_positions
    then Ok false
    else Ok true.

(** Python's [min(a, b)]: [b] only when it is strictly smaller. *)
Definition py_min (a b : Q) : Q := if Qltb b a then b else a.

Definition _calculate_position_size (self : t) (s : signals) : result Q :=
  risk_percentage ← getitem (risk_management (cfg self)) "risk_percentage";
  let risk_per_trade := Portfolio.equity (portfolio self) * risk_percentage in
  volume ← sig_item (s_volume s) "volume";
  price ← sig_item (s_price s) "price";
  stop_loss_multiplier ← getitem (risk_management (cfg self)) "stop_loss_multiplier";
  if Qeq_bool (price * stop_loss_multiplier) 0
  then Raise (Exn "ZeroDivisionError" "float division by zero")
  else Ok (py_min volume (risk_per_trade / (price * stop_loss_multiplier))).

Definition process_signals (self : t) (s : signals) (timestamp : Z) : result t :=
  if negb (truthy s) then Ok self
  else
    can_open ← _can_open_position self s;
    if negb can_open then Ok self
    else
      position_size ← _calculate_position_size self s;
      if Qle_bool position_size 0 then Ok self
      else
        price ← sig_item (s_price s) "price";
        let trade_value := price * position_size in
        let costs := _calculate_trading_costs self trade_value in
        if negb (Portfolio.has_sufficient_funds (portfolio self) (trade_value + costs))
        then Ok self
        else
          symbol ← sig_item (s_symbol s) "symbol";
          direction ← sig_item (s_direction s) "direction";
          price ← sig_item (s_price s) "price";
          let position := Position.init symbol direction price position_size timestamp in
          added ← Portfolio.add_position (portfolio self) position;
          let self1 :=
            mk (cfg self) added.1 (positions self ++ [(next_id self, added.2)])
               (history self) (cost_manager self) (S (next_id self))
               (now_calls self) in
          Ok (_record_trade self1 added.2 "open" None None).

Definition _should_close_position (self : t) (position : Position.t) (r : row)
    : result bool :=
  stop_loss_multiplier ← getitem (risk_management (cfg self)) "stop_loss_multiplier";
  take_profit_multiplier ← getitem (risk_management (cfg self)) "take_profit_multiplier";
  if String.eqb (Position.direction position) "long" then
    let stop_loss := Position.entry_price position * (1 - stop_loss_multiplier) in
    let take_profit := Position.entry_price position * (1 + take_profit_multiplier) in
    Ok (Qle_bool (low r) stop_loss || Qgeb (high r) take_profit)
  else
    let stop_loss := Position.entry_price position * (1 + stop_loss_multiplier) in
    let take_profit := Position.entry_price position * (1 - take_profit_multiplier) in
    Ok (Qgeb (high r) stop_loss || Qle_bool (low r) take_profit).

(** [self.positions.remove(position)]: the object itself is taken out,
    and a ValueError is raised when it is not in the list. *)
Fixpoint remove_object (id : nat) (l : list (nat * Position.t))
    : result (list (nat * Position.t)) :=
  match l with
  | [] => Raise (Exn "ValueError" "list.remove(x): x not in list")
  | x :: l' =>
      if Nat.eqb x.1 id then Ok l'
      else l'' ← remove_object id l'; Ok (x :: l'')
  end.

Definition _close_position (self : t) (obj : nat * Position.t) (r : row)
    : result t :=
  let exit_price := close r in
  let marked := Position.calculate_pnl obj.2 exit_price in
  let pnl := marked.2 in
  let opened := is_Some_dec (Portfolio.positions (portfolio self)
                               !! Position.symbol marked.1) in
  removed ← Portfolio.remove_position (portfolio self) marked.1 exit_price
              (wall_clock (now_calls self));
  positions' ← remove_object obj.1 (positions self);
  let self1 :=
    mk (cfg self) removed.1 positions'
       (history self) (cost_manager self) (next_id self)
       (if opened then S (now_calls self) else now_calls self) in
  Ok (_record_trade self1 removed.2 "close" (Some exit_price) (Some pnl)).

(** [update_positions]: the loop runs over a copy of the list. *)
Fixpoint update_loop (self : t) (snapshot : list (nat * Position.t)) (r : row)
    : result t :=
  match snapshot with
  | [] => Ok self
  | obj :: rest =>
      should_close ← _should_close_position self (snd obj) r;
      self1 ← (if should_close : bool then _close_position self obj r
               else Ok self);
      update_loop self1 rest r
  end.

Definition update_positions (self : t) (r : row) : result t :=
  update_loop self (positions self) r.

Section Run.
Variable strategy : strategy_class.

(** The body of the loop of [VectorizedBacktestEngine.run], on the
    bar [r] whose prefix of the data is [seen]. *)
Definition run_bar (st : t * state strategy) (seen : list row) (r : row)
    : result (t * state strategy) :=
  sd ← on_data strategy st.2 seen;
  self1 ← update_positions st.1 r;
  gs ← generate_signals strategy sd;
  self2 ← (if truthy gs.2 then process_signals self1 gs.2 (index r)
           else Ok self1);
  Ok (self2, gs.1).

Fixpoint run_bars (st : t * state strategy) (seen rest : list row)
    : result (t * state strategy) :=
  match rest with
  | [] => Ok st
  | r :: rest' =>
      st' ← run_bar st (seen ++ [r]) r;
      run_bars st' (seen ++ [r]) rest'
  end.

(** [VectorizedBacktestEngine.run]: the engine afterwards, and the
    report. *)
Definition run (self : t) (data : list row)
    : result (t * option Performance.metrics) :=
  s0 ← initialize strategy (new strategy) (cfg self);
  st ← run_bars (self, s0) [] data;
  results ← Performance.calculate (history st.1)
              (Portfolio.equity (portfolio st.1));
  Ok (st.1, results).

End Run.
End WithClock.

End Engine.

(** ** optimizer/base.py and optimizer/grid_search.py *)

(** [itertools.product] over the lists: the rightmost one runs fastest. *)
Fixpoint product (lists : list (list Q)) : list (list Q) :=
  match lists with
  | [] => [[]]
  | l :: lists' => flat_map (fun x => map (cons x) (product lists')) l
  end.

(** [dict(zip(names, values))]: a later pair overrides an earlier one. *)
Definition dict_zip (names : list string) (values : list Q) : gmap string Q :=
  fold_left (fun d kv => <[kv.1 := kv.2]> d) (combine names values) ∅.

Module Optimizer.

(** An entry of [self.results]. *)
Record entry := mk_entry {
  params : gmap string Q;
  metrics : option Performance.metrics;
  score : npfloat
}.

(** The mutable attributes: the engine object handed to the constructor
    and the list of results. *)
Record t := mk {
  engine : Engine.t;
  results : list entry
}.

Section WithArguments.
Variable wall_clock : nat -> Z.
Variable strategy_class : Engine.strategy_class.
(** [param_space]: the candidate values of each name, in the order of
    the dict. *)
Variable param_space : list (string * list Q).
Variable data : list Engine.row.
Variable objective_func : option Performance.metrics -> result npfloat.

Definition init (engine : Engine.t) : t := mk engine [].

(** [evaluate_params].  [config] is a shallow copy of the engine's
    configuration, so [config['indicators']] is the engine's own
    sub-dict and [update] writes into it.  The strategy object is new;
    the engine is [self.engine]. *)
Definition evaluate_params (self : t) (params : gmap string Q)
    : result (t * npfloat) :=
  let config := Engine.cfg (engine self) in
  let indicators' := dict_update (Engine.indicators config) params in
  let engine1 :=
    Engine.set_cfg (engine self)
      (Engine.mk_config (Engine.risk_management config) indicators'
         (Engine.trading_costs config)) in
  ran ← Engine.run wall_clock strategy_class engine1 data;
  score1 ← objective_func ran.2;
  let self1 := mk ran.1 (results self ++ [mk_entry params ran.2 score1]) in
  score2 ← objective_func ran.2;
  Ok (self1, score2).

(** [max(self.results, key=...)]: the first of the largest. *)
Definition best_entry (e : entry) (es : list entry) : entry :=
  fold_left (fun best x => if np_lt (score best) (score x) then x else best) es e.

Definition get_best_params (self : t) : gmap string Q :=
  match results self with
  | [] => ∅
  | e :: es => params (best_entry e es)
  end.

Fixpoint evaluate_all (self : t) (combos : list (gmap string Q)) : result t :=
  match combos with
  | [] => Ok self
  | params :: combos' =>
      ev ← evaluate_params self params;
      evaluate_all ev.1 combos'
  end.

Definition combinations : list (gmap string Q) :=
  let param_names := map fst param_space in
  let param_values := map snd param_space in
  map (dict_zip param_names) (product param_values).

(** [GridSearchOptimizer.optimize]: the optimizer afterwards and the
    returned parameters. *)
Definition optimize (self : t) : result (t * gmap string Q) :=
  self' ← evaluate_all self combinations;
  Ok (self', get_best_params self').

End WithArguments.

End Optimizer.

(** ** optimizer.py *)

Module StrategyOptimizer.

Section TryExcept.
(** The statements of the [try] block of [_evaluate_parameters], which
    end in [return params, score]: their outcome on a parameter set. *)
Variable try_block : gmap string Q -> result npfloat.

(** [except Exception] returns the parameters with [float('-inf')]. *)
Definition _evaluate_parameters (params : gmap string Q)
    : gmap string Q * npfloat :=
  match try_block params with
  | Ok score => (params, score)
  | Raise _ => (params, NInf)
  end.

End TryExcept.

(** [define_parameters]: every combination of the candidate values, as a
    dict per combination. *)
Definition define_parameters (param_ranges : list (string * list Q))
    : list (gmap string Q) :=
  let keys := map fst param_ranges in
  let values := map snd param_ranges in
  let combinations := product values in
  map (fun combo => dict_zip keys combo) combinations.

End StrategyOptimizer.

(** ** optimizer/genetic.py *)

Module Genetic.

(** The random generator: [g k] is the outcome of its [k]-th use; a
    computation that draws carries the number of uses so far. *)
Definition rng := nat -> nat.

(** [random.choice(seq)]: IndexError on an empty sequence, otherwise the
    element that the draw selects. *)
Definition choice {A} (seq : list A) (g : rng) (used : nat) : result (A * nat) :=
  match seq !! (g used mod length seq)%nat with
  | Some x => Ok (x, S used)
  | None => Raise (Exn "IndexError" "Cannot choose from an empty sequence")
  end.

(** [param_space[name]], the dict being given by its items in order. *)
Fixpoint candidates (param_space : list (string * list Q)) (name : string)
    : result (list Q) :=
  match param_space with
  | [] => Raise (Exn "KeyError" name)
  | item :: rest =>
      if String.eqb item.1 name then Ok item.2 else candidates rest name
  end.

(** The loop of [_crossover] over the names that are left. *)
Fixpoint crossover_loop (names : list string) (parent1 parent2 child : gmap string Q)
    (g : rng) (used : nat) : result (gmap string Q * nat) :=
  match names with
  | [] => Ok (child, used)
  | param_name :: names' =>
      v1 ← getitem parent1 param_name;
      v2 ← getitem parent2 param_name;
      c ← choice [v1; v2] g used;
      crossover_loop names' parent1 parent2 (<[param_name := c.1]> child) g c.2
  end.

Definition _crossover (param_space : list (string * list Q))
    (parent1 parent2 : gmap string Q) (g : rng) (used : nat)
    : result (gmap string Q * nat) :=
  crossover_loop (map fst param_space) parent1 parent2 ∅ g used.

Definition _mutate (param_space : list (string * list Q))
    (params : gmap string Q) (g : rng) (used : nat)
    : result (gmap string Q * nat) :=
  let mutated := params in
  n ← choice (map fst param_space) g used;
  values ← candidates param_space n.1;
  v ← choice values g n.2;
  Ok (<[n.1 := v.1]> mutated, v.2).

(** One individual of [_initialize_population]. *)
Fixpoint random_params (items : list (string * list Q)) (params : gmap string Q)
    (g : rng) (used : nat) : result (gmap string Q * nat) :=
  match items with
  | [] => Ok (params, used)
  | item :: items' =>
      v ← choice item.2 g used;
      random_params items' (<[item.1 := v.1]> params) g v.2
  end.

Fixpoint _initialize_population (param_space : list (string * list Q))
    (population_size : nat) (g : rng) (used : nat)
    : result (list (gmap string Q) * nat) :=
  match population_size with
  | O => Ok ([], used)
  | S n =>
      p ← random_params param_space ∅ g used;
      rest ← _initialize_population param_space n g p.2;
      Ok (p.1 :: rest.1, rest.2)
  end.

End Genetic.

(** ** Concrete inputs *)

Module Scenario.

Definition t0 : Z := 0%Z.

(** A long position in X entered at 100 with size 1. *)
Definition long_X : Position.t := Position.init "X" "long" 100 1 t0.

(** A short position in the same symbol. *)
Definition short_X : Position.t := Position.init "X" "short" 50 2 1%Z.

(** A portfolio of 1000 that holds [long_X]. *)
Definition held_long : Portfolio.t :=
  Portfolio.after (Portfolio.init 1000) (Portfolio.AddPosition long_X).

(** The latest price of every symbol is 110. *)
Definition latest_110 (symbol : string) : Q := 110.

(** Fixed lot of 1, stop at 1.5 ATR, target at 2 ATR, no commission. *)
Definition bt_config : Backtester.config :=
  Backtester.mk_config 0 false "fixed" 1 (1 # 50) (3 # 2)
    "fixed" (3 # 2) "fixed" 2.

(** The entry bar (close 100, ATR 2, long signal) and a bar that spans
    both levels (low 96, high 105, close 101). *)
Definition bt_entry_bar : Backtester.row :=
  Backtester.mk_row 0 100 100 100 2 true false.
Definition bt_wide_bar : Backtester.row :=
  Backtester.mk_row 1 101 105 96 2 false false.

(** The object and the locals once the entry bar has been processed. *)
Definition bt_entered : Backtester.t := Backtester.init 10000.
Definition bt_entered_locals : Backtester.locals :=
  Backtester.mk_locals (Some Backtester.Long) 100 1 97 104.

(** What the table of trades shows of a run: side, entry, exit and P&L
    of each trade, in lowest terms. *)
Definition bt_trades (r : result Backtester.t)
    : result (list (Backtester.side * Q * Q * Q)) :=
  (fun self =>
     map (fun tr => (Backtester.t_type tr, Qred (Backtester.t_entry tr),
                     Qred (Backtester.t_exit tr), Qred (Backtester.t_pnl tr)))
         (Backtester.trades self)) <$> r.

(** A history with one trade that closed exactly flat. *)
Definition flat_history : list Performance.record :=
  [Performance.mk_record 0 "X" "long" "open" (Some 100) 1 None 900;
   Performance.mk_record 0 "X" "long" "close" (Some 100) 1 (Some 0) 1000].

(** A history with a winner of 10 and a loser of 5, and one with the
    winner only. *)
Definition mixed_history : list Performance.record :=
  [Performance.mk_record 0 "X" "long" "open" (Some 100) 1 None 900;
   Performance.mk_record 0 "X" "long" "close" (Some 110) 1 (Some 10) 1010;
   Performance.mk_record 1 "X" "long" "open" (Some 110) 1 None 900;
   Performance.mk_record 1 "X" "long" "close" (Some 105) 1 (Some (-5)) 1005].
Definition winning_history : list Performance.record := firstn 2 mixed_history.

(** A strategy that keeps the indicator parameters and the data it was
    shown, and asks on every bar for a long position in X at the last
    close, with the volume given by the parameter 'volume'. *)
Definition always_long : Engine.strategy_class :=
  Engine.mk_strategy
    (gmap string Q * list Engine.row)
    (∅, [])
    (fun st config => Ok (Engine.indicators config, st.2))
    (fun st seen => Ok (st.1, seen))
    (fun st =>
       match last st.2 with
       | None => Ok (st, Engine.no_signals)
       | Some r =>
           volume ← getitem st.1 "volume";
           Ok (st, Engine.mk_signals (Some "X") (Some "long")
                     (Some (Engine.close r)) (Some volume))
       end).

(** Two bars: a flat one at 100, then one that dips to 90 and closes at
    95. *)
Definition bars : list Engine.row :=
  [Engine.mk_row 1 100 100 100 100; Engine.mk_row 2 100 100 90 95].

(** Risk all the equity, stop at 5%, target at 10%; the capital and the
    cap on open trades are the defaults. *)
Definition engine_config : Engine.config :=
  Engine.mk_config
    (<["risk_percentage" := 1]>
       (<["stop_loss_multiplier" := 1 # 20]>
          (<["take_profit_multiplier" := 1 # 10]> ∅)))
    ∅ ∅.

(** The same without the take-profit multiplier. *)
Definition engine_config_no_tp : Engine.config :=
  Engine.mk_config
    (<["risk_percentage" := 1]> (<["stop_loss_multiplier" := 1 # 20]> ∅))
    ∅ ∅.

(** [results.get('Final Equity', float('-inf'))] *)
Definition final_equity_objective (results : option Performance.metrics)
    : result npfloat :=
  match results with
  | Some m => Ok (Fin (Performance.final_equity m))
  | None => Ok NInf
  end.

Definition wall_clock (n : nat) : Z := Z.of_nat n.

(** A grid search over the candidate volumes [vs], on a new engine. *)
Definition grid_search (c : Engine.config) (vs : list Q)
    : result (Optimizer.t * gmap string Q) :=
  Optimizer.optimize wall_clock always_long [("volume", vs)] bars
    final_equity_objective (Optimizer.init (Engine.init c)).

Definition has_volume (v : Q) (e : Optimizer.entry) : bool :=
  match Optimizer.params e !! "volume" with
  | Some w => Qeq_bool w v
  | None => false
  end.

(** One evaluation of [{'volume': v}] by a new optimizer on a new engine. *)
Definition first_evaluation (c : Engine.config) (v : Q)
    : result (Optimizer.t * npfloat) :=
  Optimizer.evaluate_params wall_clock always_long bars final_equity_objective
    (Optimizer.init (Engine.init c)) (dict_zip ["volume"] [v]).

(** What an evaluation leaves in the engine: the length of the history,
    the number of open position objects and the cash. *)
Definition carried_over (r : result (Optimizer.t * npfloat))
    : result (nat * nat * Q) :=
  (fun out : Optimizer.t * npfloat =>
     let e := Optimizer.engine out.1 in
     (length (Engine.history e), length (Engine.positions e),
      Qred (Portfolio.cash (Engine.portfolio e)))) <$> r.

(** The score recorded for the parameter set [{'volume': v}]. *)
Definition recorded_score (v : Q) (r : result (Optimizer.t * gmap string Q))
    : option Q :=
  match r with
  | Raise _ => None
  | Ok out =>
      match filter (fun e => has_volume v e = true) (Optimizer.results out.1) with
      | e :: _ =>
          match Optimizer.score e with
          | Fin q => Some (Qred q)
          | _ => None
          end
      | [] => None
      end
  end.

End Scenario.

(** ** More concrete inputs *)

Module Examples.


(** The engine of the scenario once it has opened [long_X]: the object
    of rank 0 is in [positions], and the portfolio holds it. *)
Definition engine_holding_X : Engine.t :=
  match Engine.process_signals (Engine.init Scenario.engine_config)
          (Engine.mk_signals (Some "X") (Some "long") (Some 100) (Some 1)) 0 with
  | Ok self => self
  | Raise _ => Engine.init Scenario.engine_config
  end.

(** A new engine that charges a commission of 1% and a slippage of 2
    pips; its capital is the default 10000. *)
Definition engine_with_costs : Engine.t :=
  Engine.init
    (Engine.mk_config (Engine.risk_management Scenario.engine_config) ∅
       (<["commission_rate" := 1 # 100]> (<["slippage_pips" := 2]> ∅))).

(** Four bars for the backtester of the scenario: a long entry at 100; a
    bar that stops the long out and signals both sides; a bar on which the
    short reaches its target and a long is signalled; a bar on which that
    long reaches its target. *)
Definition bt_three_trades : list Backtester.row :=
  [Backtester.mk_row 0 100 100 100 2 true false;
   Backtester.mk_row 1 101 105 96 2 true true;
   Backtester.mk_row 2 100 100 96 2 true false;
   Backtester.mk_row 3 104 105 99 2 false false].

End Examples.

(** * Properties *)

(** ** Rationals and sums *)

Lemma Qltb_lt a b : Qltb a b = true <-> a < b.
Proof.
  unfold Qltb. rewrite negb_true_iff.
  split; intros H.
  - apply Qnot_le_lt. intros Hle. apply Qle_bool_iff in Hle. congruence.
  - destruct (Qle_bool b a) eqn:E; [|reflexivity].
    apply Qle_bool_iff in E. lra.
Qed.

Lemma Qltb_ge a b : Qltb a b = false <-> b <= a.
Proof.
  unfold Qltb. rewrite negb_false_iff. apply Qle_bool_iff.
Qed.

Lemma Qgeb_ge a b : Qgeb a b = true <-> b <= a.
Proof. unfold Qgeb. apply Qle_bool_iff. Qed.

Lemma fold_left_Qplus_acc (l : list Q) (a : Q) :
  fold_left Qplus l a == a + fold_left Qplus l 0.
Proof.
  revert a. induction l as [|x l IH]; intros a; simpl.
  - ring.
  - rewrite (IH (a + x)), (IH (0 + x)). ring.
Qed.

Lemma py_sum_nil : py_sum [] == 0.
Proof. reflexivity. Qed.

Lemma py_sum_cons (x : Q) (l : list Q) : py_sum (x :: l) == x + py_sum l.
Proof.
  unfold py_sum. simpl. rewrite fold_left_Qplus_acc. ring.
Qed.

Lemma py_sum_all_zero (l : list Q) :
  Forall (fun x => x == 0) l -> py_sum l == 0.
Proof.
  induction 1 as [|x l Hx _ IH].
  - reflexivity.
  - rewrite py_sum_cons, Hx, IH. ring.
Qed.

Lemma py_sum_nonneg (l : list Q) :
  Forall (fun x => 0 <= x) l -> 0 <= py_sum l.
Proof.
  induction 1 as [|x l Hx _ IH].
  - rewrite py_sum_nil. lra.
  - rewrite py_sum_cons. lra.
Qed.

Lemma py_sum_pos (l : list Q) :
  l <> [] -> Forall (fun x => 0 < x) l -> 0 < py_sum l.
Proof.
  intros Hne Hall. destruct Hall as [|x l Hx Hl]; [congruence|].
  rewrite py_sum_cons.
  assert (0 <= py_sum l).
  { apply py_sum_nonneg. eapply Forall_impl; [exact Hl|]. simpl. intros. lra. }
  lra.
Qed.

(** ** Position *)

Lemma pnl_value_at_entry (self : Position.t) :
  Position.pnl_value self (Position.entry_price self) == 0.
Proof.
  unfold Position.pnl_value.
  destruct (String.eqb _ _); ring.
Qed.

(** C7 fails as stated: marking an open position to market writes the
    [pnl] field, which is then no longer None although [close] was never
    called. *)
Lemma calculate_pnl_mutates_pnl :
  Position.pnl Scenario.long_X = None /\
  Position.exit_price (fst (Position.calculate_pnl Scenario.long_X 110)) = None /\
  Position.pnl (fst (Position.calculate_pnl Scenario.long_X 110)) = Some 10.
Proof. repeat split. Qed.

(** C7, amended: [pnl] is None on a new position; [calculate_pnl] returns
    the directional P&L at the given price and stores it in [pnl], leaving
    every other field as it was; the returned value does not depend on what
    earlier calls stored, and a second call at the same price changes
    nothing more. *)
Theorem calculate_pnl_frame :
  forall (self : Position.t) (p p' : Q),
    let marked := Position.calculate_pnl self p in
    Position.symbol marked.1 = Position.symbol self /\
    Position.direction marked.1 = Position.direction self /\
    Position.entry_price marked.1 = Position.entry_price self /\
    Position.size marked.1 = Position.size self /\
    Position.timestamp marked.1 = Position.timestamp self /\
    Position.exit_price marked.1 = Position.exit_price self /\
    Position.exit_timestamp marked.1 = Position.exit_timestamp self /\
    Position.pnl marked.1 = Some marked.2 /\
    marked.2 = Position.pnl_value self p /\
    Position.calculate_pnl marked.1 p' = Position.calculate_pnl self p' /\
    (forall symbol direction entry_price size timestamp,
        Position.pnl (Position.init symbol direction entry_price size timestamp)
        = None).
Proof.
  intros self p p'. cbn.
  repeat split.
Qed.

(** C2 fails as stated: closing a closed position again succeeds and
    overwrites the exit price, the exit timestamp and the P&L. *)
Lemma close_twice_overwrites :
  Position.close Scenario.long_X 110 1
  = Ok (Position.mk "X" "long" 100 1 0 (Some 110) (Some 1%Z) (Some 10)) /\
  (closed ← Position.close Scenario.long_X 110 1; Position.close closed 90 2)
  = Ok (Position.mk "X" "long" 100 1 0 (Some 90) (Some 2%Z) (Some (-10))).
Proof. split; reflexivity. Qed.

(** C2, amended: a second [close] never fails; it leaves the position as a
    single [close] with the second exit price and timestamp would have, the
    P&L being the directional formula at the second exit price. *)
Theorem close_twice_is_last_close :
  forall (self : Position.t) (x1 x2 : Q) (t1 t2 : Z),
    (closed ← Position.close self x1 t1; Position.close closed x2 t2)
    = Ok (Position.mk (Position.symbol self) (Position.direction self)
            (Position.entry_price self) (Position.size self)
            (Position.timestamp self) (Some x2) (Some t2)
            (Some (Position.pnl_value self x2))).
Proof. intros. reflexivity. Qed.

(** ** Portfolio *)

Lemma unrealized_terms_zero (ps : gmap string Position.t) :
  Forall (fun x => x == 0) (Portfolio.unrealized_terms ps).
Proof.
  unfold Portfolio.unrealized_terms.
  induction (map_to_list ps) as [|kv l IH]; simpl; constructor; auto.
  apply pnl_value_at_entry.
Qed.

Lemma update_equity_is_cash (self : Portfolio.t) :
  Portfolio.equity (Portfolio.update_equity self)
  == Portfolio.cash (Portfolio.update_equity self).
Proof.
  simpl. rewrite (py_sum_all_zero _ (unrealized_terms_zero _)). ring.
Qed.

Lemma call_equity_is_cash (self self' : Portfolio.t) (o : Portfolio.op) :
  Portfolio.equity self == Portfolio.cash self ->
  Portfolio.call self o = Ok self' ->
  Portfolio.equity self' == Portfolio.cash self'.
Proof.
  intros Hinv Hcall. destruct o as [position|position exit_price now|]; simpl in Hcall.
  - unfold Portfolio.add_position in Hcall.
    destruct (negb _); simpl in Hcall; [discriminate|].
    injection Hcall as <-. apply update_equity_is_cash.
  - unfold Portfolio.remove_position in Hcall.
    destruct (Portfolio.positions self !! Position.symbol position); simpl in Hcall.
    + injection Hcall as <-. apply update_equity_is_cash.
    + injection Hcall as <-. exact Hinv.
  - injection Hcall as <-. apply update_equity_is_cash.
Qed.

Lemma after_equity_is_cash (self : Portfolio.t) (o : Portfolio.op) :
  Portfolio.equity self == Portfolio.cash self ->
  Portfolio.equity (Portfolio.after self o) == Portfolio.cash (Portfolio.after self o).
Proof.
  intros Hinv. unfold Portfolio.after.
  destruct (Portfolio.call self o) eqn:E; [|exact Hinv].
  eapply call_equity_is_cash; eauto.
Qed.

Lemma states_equity_is_cash (ops : list Portfolio.op) (self : Portfolio.t) :
  Portfolio.equity self == Portfolio.cash self ->
  Forall (fun p => Portfolio.equity p == Portfolio.cash p) (Portfolio.states self ops).
Proof.
  revert self. induction ops as [|o ops IH]; intros self Hinv; simpl; constructor.
  - by apply after_equity_is_cash.
  - apply IH. by apply after_equity_is_cash.
Qed.

(** C10: on a portfolio made by the constructor, whatever the sequence of
    [add_position], [remove_position] and [update_equity] calls, equity
    equals cash after each of them; the unrealized P&L terms that
    [update_equity] adds up are all zero, each position being marked at its
    own entry price. *)
Theorem equity_is_cash :
  forall (initial_capital : Q) (ops : list Portfolio.op),
    Forall (fun p => Portfolio.equity p == Portfolio.cash p)
           (Portfolio.states (Portfolio.init initial_capital) ops) /\
    Forall (fun p => Forall (fun x => x == 0)
                       (Portfolio.unrealized_terms (Portfolio.positions p)))
           (Portfolio.states (Portfolio.init initial_capital) ops).
Proof.
  intros initial_capital ops. split.
  - apply states_equity_is_cash. reflexivity.
  - apply Forall_forall. intros p _. apply unrealized_terms_zero.
Qed.

(** C1 on a portfolio of 1000 that opened a long position of size 1 at 100,
    when the latest price is 110: [add_position] has recomputed the equity
    as 900, the cash, whereas cash plus the P&L at the latest price is
    910. *)
Theorem equity_ignores_latest_price :
  Portfolio.equity Scenario.held_long == 900 /\
  Portfolio.cash Scenario.held_long == 900 /\
  Portfolio.marked_to_market Scenario.latest_110 Scenario.held_long == 910 /\
  ~ Portfolio.equity Scenario.held_long
    == Portfolio.marked_to_market Scenario.latest_110 Scenario.held_long.
Proof.
  repeat split; try (vm_compute; reflexivity).
  intros H. vm_compute in H. discriminate.
Qed.

(** C3 fails as stated: adding a short position in X to a portfolio that
    holds a long one in X succeeds, debits the cash once more and replaces
    the entry of X. *)
Lemma add_position_replaces :
  Portfolio.positions Scenario.held_long !! "X"
  = Some (Position.set_pnl Scenario.long_X 0) /\
  (fun out : Portfolio.t * Position.t =>
     (Portfolio.positions out.1 !! "X", Qred (Portfolio.cash out.1)))
    <$> Portfolio.add_position Scenario.held_long Scenario.short_X
  = Ok (Some (Position.set_pnl Scenario.short_X 0), 800).
Proof. split; vm_compute; reflexivity. Qed.

(** C3, amended: when the symbol of the new position is already in the map,
    [add_position] with enough cash succeeds: the margin is debited and the
    entry of that symbol is replaced by the new position, the set of symbols
    being unchanged; without enough cash it raises ValueError.  After any
    operation the map holds at most one position per symbol. *)
Theorem add_position_occupied :
  forall (self : Portfolio.t) (position : Position.t),
    is_Some (Portfolio.positions self !! Position.symbol position) ->
    let margin := Position.get_value position (Position.entry_price position) in
    let marked :=
      Position.set_pnl position
        (Position.pnl_value position (Position.entry_price position)) in
    (margin <= Portfolio.cash self ->
     exists self',
       Portfolio.add_position self position = Ok (self', marked) /\
       Portfolio.positions self' !! Position.symbol position = Some marked /\
       Portfolio.cash self' = Portfolio.cash self - margin /\
       dom (Portfolio.positions self') = dom (Portfolio.positions self)) /\
    (Portfolio.cash self < margin ->
     Portfolio.add_position self position
     = Raise (Exn "ValueError" "Insufficient funds to open position")) /\
    (forall o : Portfolio.op,
        NoDup (map_to_list (Portfolio.positions (Portfolio.after self o))).*1).
Proof.
  intros self position Hocc margin marked.
  assert (Hlook :
    ((fun pos => (Position.get_unrealized_pnl pos (Position.entry_price pos)).1)
       <$> <[Position.symbol position := position]> (Portfolio.positions self))
      !! Position.symbol position = Some marked).
  { rewrite lookup_fmap, lookup_insert_eq. reflexivity. }
  split; [|split].
  - intros Hfunds. unfold Portfolio.add_position.
    fold margin. unfold Portfolio.has_sufficient_funds.
    apply Qgeb_ge in Hfunds. rewrite Hfunds. simpl negb. cbv iota.
    unfold Portfolio.stored. cbn [Portfolio.update_equity Portfolio.positions].
    rewrite Hlook. cbn [default from_option].
    eexists. split; [reflexivity|].
    cbn [Portfolio._record_trade Portfolio.positions Portfolio.cash].
    split; [exact Hlook|]. split; [reflexivity|].
    unfold Portfolio.update_equity. cbn [Portfolio.positions].
    rewrite dom_fmap_L, dom_insert_L.
    apply elem_of_dom in Hocc. apply subseteq_union_1_L.
    by apply singleton_subseteq_l.
  - intros Hshort. unfold Portfolio.add_position.
    fold margin. unfold Portfolio.has_sufficient_funds.
    assert (Qgeb (Portfolio.cash self) margin = false) as ->; [|reflexivity].
    destruct (Qgeb _ _) eqn:E; [|reflexivity].
    apply Qgeb_ge in E. lra.
  - intros o. apply NoDup_fst_map_to_list.
Qed.

Lemma add_position_occupied_witness :
  is_Some (Portfolio.positions Scenario.held_long
             !! Position.symbol Scenario.short_X) /\
  (Position.get_value Scenario.short_X (Position.entry_price Scenario.short_X)
   <= Portfolio.cash Scenario.held_long) /\
  exists self',
    Portfolio.add_position Scenario.held_long Scenario.short_X
    = Ok (self', Position.set_pnl Scenario.short_X
                   (Position.pnl_value Scenario.short_X
                      (Position.entry_price Scenario.short_X))) /\
    Portfolio.positions self' !! Position.symbol Scenario.short_X
    = Some (Position.set_pnl Scenario.short_X
              (Position.pnl_value Scenario.short_X
                 (Position.entry_price Scenario.short_X))) /\
    Portfolio.cash self'
    = Portfolio.cash Scenario.held_long
      - Position.get_value Scenario.short_X (Position.entry_price Scenario.short_X) /\
    dom (Portfolio.positions self') = dom (Portfolio.positions Scenario.held_long).
Proof.
  assert (Hocc : is_Some (Portfolio.positions Scenario.held_long
                            !! Position.symbol Scenario.short_X)).
  { eexists. vm_compute. reflexivity. }
  assert (Hfunds :
    Position.get_value Scenario.short_X (Position.entry_price Scenario.short_X)
    <= Portfolio.cash Scenario.held_long).
  { vm_compute. discriminate. }
  split; [exact Hocc|]. split; [exact Hfunds|].
  exact (proj1 (add_position_occupied Scenario.held_long Scenario.short_X Hocc) Hfunds).
Defined.

(** ** Backtester *)

(** The exit half of the loop body never fails, and the entry half leaves
    the object alone: a step that returns has recorded what [check_exit]
    recorded. *)
Lemma step_records_check_exit (cfg : Backtester.config)
    (st st' : Backtester.t * Backtester.locals) (r : Backtester.row) :
  Backtester.step cfg st r = Ok st' ->
  st'.1 = (Backtester.check_exit cfg st.1 st.2 r).1.
Proof.
  unfold Backtester.step.
  destruct (Backtester.handle_signals _ _ _ _); simpl; [|discriminate].
  intros [= <-]. reflexivity.
Qed.

(** C4 fails as stated: in the scenario of the claim the trade is filled at
    97, but its recorded P&L is not -3: the price difference is multiplied
    by the contract size of 100000. *)
Lemma scenario_pnl_is_scaled :
  Scenario.bt_trades
    (Backtester.run_backtest Scenario.bt_config (Backtester.init 10000)
       [Scenario.bt_entry_bar; Scenario.bt_wide_bar])
  = Ok [(Backtester.Long, 100, 97, -300000)] /\
  ~ -300000 == -3.
Proof.
  split; [vm_compute; reflexivity|].
  intros H. vm_compute in H. discriminate.
Qed.

(** C4, amended: in [run_backtest], for an open position of either side and
    a bar that reaches its stop-loss level (low <= stop for a long, high >=
    stop for a short), the position is closed on that bar at the stop-loss
    price, whatever the high, the low and the close of the bar and whether
    or not the take-profit level is reached too; the recorded P&L is the
    directional price difference times the volume times 100000, and a loop
    body that completes leaves the object as this exit left it.  In the
    scenario (entry 100, fixed volume 1, ATR 2, multipliers 1.5 and 2) the
    levels are 97 and 104 and the bar with low 96 and high 105 closes the
    trade at 97 with a P&L of -300000 before commission. *)
Theorem stop_loss_has_priority :
  (forall (cfg : Backtester.config) (self : Backtester.t)
          (l : Backtester.locals) (r : Backtester.row) (s : Backtester.side),
      Backtester.position l = Some s ->
      match s with
      | Backtester.Long => Backtester.low r <= Backtester.stop_loss l
      | Backtester.Short => Backtester.stop_loss l <= Backtester.high r
      end ->
      let pnl :=
        match s with
        | Backtester.Long =>
            (Backtester.stop_loss l - Backtester.entry_price l)
            * Backtester.volume l * 100000
        | Backtester.Short =>
            (Backtester.entry_price l - Backtester.stop_loss l)
            * Backtester.volume l * 100000
        end in
      let commission := Backtester.volume l * Backtester.commission_per_lot cfg in
      let out := Backtester.check_exit cfg self l r in
      Backtester.trades out.1
      = Backtester.trades self ++
        [Backtester.mk_trade s (Backtester.entry_price l) (Backtester.stop_loss l)
           (Backtester.volume l) pnl commission (Backtester.index r)] /\
      Backtester.balance out.1 = Backtester.balance self + (pnl - commission) /\
      Backtester.last_trade_type out.1 = Some s /\
      Backtester.position out.2 = None /\
      (forall st', Backtester.step cfg (self, l) r = Ok st' -> st'.1 = out.1)) /\
  (fun levels : Q * Q => (Qred levels.1, Qred levels.2))
    <$> Backtester.calculate_exit_prices Scenario.bt_config 100 2 Backtester.Long
  = Ok (97, 104) /\
  Scenario.bt_trades
    (Backtester.run_backtest Scenario.bt_config (Backtester.init 10000)
       [Scenario.bt_entry_bar; Scenario.bt_wide_bar])
  = Ok [(Backtester.Long, 100, 97, -300000)].
Proof.
  split; [|split; vm_compute; reflexivity].
  intros cfg self l r s Hpos Hhit pnl commission out.
  subst out pnl commission.
  assert (Hstep : forall st',
             Backtester.step cfg (self, l) r = Ok st' ->
             st'.1 = (Backtester.check_exit cfg self l r).1).
  { intros st' Hst. exact (step_records_check_exit cfg (self, l) st' r Hst). }
  unfold Backtester.check_exit in Hstep |- *. rewrite Hpos in Hstep |- *.
  destruct s.
  - apply Qle_bool_iff in Hhit. rewrite Hhit in Hstep |- *.
    cbn in Hstep |- *. repeat split. exact Hstep.
  - apply Qgeb_ge in Hhit. rewrite Hhit in Hstep |- *.
    cbn in Hstep |- *. repeat split. exact Hstep.
Qed.

Lemma stop_loss_has_priority_witness :
  Backtester.position Scenario.bt_entered_locals = Some Backtester.Long /\
  Backtester.low Scenario.bt_wide_bar
  <= Backtester.stop_loss Scenario.bt_entered_locals /\
  Backtester.take_profit Scenario.bt_entered_locals
  <= Backtester.high Scenario.bt_wide_bar /\
  Backtester.trades
    (Backtester.check_exit Scenario.bt_config Scenario.bt_entered
       Scenario.bt_entered_locals Scenario.bt_wide_bar).1
  = [Backtester.mk_trade Backtester.Long 100 97 1
       ((97 - 100) * 1 * 100000) (1 * 0) 1].
Proof.
  assert (Hpos : Backtester.position Scenario.bt_entered_locals
                 = Some Backtester.Long) by reflexivity.
  assert (Hhit : Backtester.low Scenario.bt_wide_bar
                 <= Backtester.stop_loss Scenario.bt_entered_locals).
  { vm_compute. discriminate. }
  split; [exact Hpos|]. split; [exact Hhit|].
  split; [vm_compute; discriminate|].
  exact (proj1 (proj1 stop_loss_has_priority Scenario.bt_config
                  Scenario.bt_entered Scenario.bt_entered_locals
                  Scenario.bt_wide_bar Backtester.Long Hpos Hhit)).
Defined.

(** ** PerformanceAnalyzer: profit factor *)

Lemma pnl_where_pos_all (trades : list Performance.record) :
  Forall (fun x => 0 < x) (Performance.pnl_where Performance.pnl_pos trades).
Proof.
  unfold Performance.pnl_where.
  induction trades as [|r trades IH]; cbn; [constructor|].
  unfold Performance.pnl_pos at 1.
  destruct (Performance.pnl r) as [v|] eqn:Ev; [|exact IH].
  destruct (Qltb 0 v) eqn:E; [|exact IH].
  constructor; [|exact IH]. by apply Qltb_lt.
Qed.

Lemma pnl_where_neg_all (trades : list Performance.record) :
  Forall (fun x => x < 0) (Performance.pnl_where Performance.pnl_neg trades).
Proof.
  unfold Performance.pnl_where.
  induction trades as [|r trades IH]; cbn; [constructor|].
  unfold Performance.pnl_neg at 1.
  destruct (Performance.pnl r) as [v|] eqn:Ev; [|exact IH].
  destruct (Qltb v 0) eqn:E; [|exact IH].
  constructor; [|exact IH]. by apply Qltb_lt.
Qed.

(** For losses, all negative, the sum of the magnitudes is the magnitude of
    the sum, and it is positive as soon as there is a loss. *)
Lemma sum_abs_of_losses (l : list Q) :
  Forall (fun x => x < 0) l ->
  py_sum (map Qabs l) == - py_sum l /\ py_sum l <= 0 /\
  (l <> [] -> py_sum l < 0).
Proof.
  induction 1 as [|x l Hx _ (IH1 & IH2 & _)]; simpl map.
  - rewrite !py_sum_nil. split; [ring|]. split; [lra|congruence].
  - rewrite !py_sum_cons, IH1.
    assert (Qabs x == - x) as -> by (apply Qabs_neg; lra).
    split; [ring|]. split; [lra|]. intros _. lra.
Qed.

Lemma np_div_pos_den (a b : Q) : 0 < b -> np_div a b = Fin (a / b).
Proof.
  intros Hb. unfold np_div.
  destruct (Qeq_bool b 0) eqn:E; [|reflexivity].
  apply Qeq_bool_iff in E. lra.
Qed.

Lemma np_div_pos_by_zero (a : Q) : 0 < a -> np_div a 0 = PInf.
Proof.
  intros Ha. unfold np_div. cbn [Qeq_bool].
  assert (Qeq_bool 0 0 = true) as -> by reflexivity.
  destruct (Qeq_bool a 0) eqn:E.
  - apply Qeq_bool_iff in E. lra.
  - apply Qltb_lt in Ha. by rewrite Ha.
Qed.

Lemma trade_durations_ok (opens rows : list Performance.record) :
  (Exists (fun r => Performance.is_close r = true) rows -> opens <> []) ->
  exists durations, Performance.trade_durations opens rows = Ok durations.
Proof.
  induction rows as [|trade rest IH]; intros Hopen; [by exists []|].
  cbn [Performance.trade_durations].
  destruct IH as [durations Hd].
  { intros H. apply Hopen. by apply Exists_cons_tl. }
  destruct (Performance.is_close trade) eqn:E; [|by exists durations].
  destruct opens as [|first opens]; [exfalso; apply Hopen; [by left|reflexivity]|].
  rewrite Hd. by eexists.
Qed.

Lemma avg_trade_duration_ok (trades : list Performance.record) :
  (Exists (fun r => Performance.is_close r = true) trades ->
   Exists (fun r => Performance.is_open r = true) trades) ->
  exists d, Performance._calculate_avg_trade_duration trades = Ok d.
Proof.
  intros Hopen. unfold Performance._calculate_avg_trade_duration.
  destruct (trade_durations_ok
              (filter (fun r => Performance.is_open r = true) trades) trades)
    as [durations ->]; [|by eexists].
  intros Hclose Hnil. apply Hopen in Hclose.
  apply Exists_exists in Hclose as (r & Hr & Hro).
  assert (Hin : r ∈ filter (fun r => Performance.is_open r = true) trades).
  { apply list_elem_of_filter. split; [exact Hro|exact Hr]. }
  rewrite Hnil in Hin. by apply not_elem_of_nil in Hin.
Qed.

Lemma pnl_where_all_missing (mask : Performance.record -> bool)
    (trades : list Performance.record) :
  forallb Performance.pnl_missing trades = true ->
  Performance.pnl_where mask trades = [].
Proof.
  unfold Performance.pnl_where, Performance.pnl_missing.
  induction trades as [|r trades IH]; [reflexivity|].
  cbn. intros [Hr Hall]%andb_true_iff.
  destruct (Performance.pnl r); [discriminate|].
  specialize (IH Hall). cbn in IH. by destruct (mask r).
Qed.

(** When the history is not empty, every 'close' row comes with an 'open'
    row somewhere and some row records a P&L, the analyzer reports, and the
    profit factor of the report is the numpy quotient. *)
Lemma calculate_reports_profit_factor (trades : list Performance.record) (fe : Q) :
  (Exists (fun r => Performance.is_close r = true) trades ->
   Exists (fun r => Performance.is_open r = true) trades) ->
  forallb Performance.pnl_missing trades = false ->
  exists m,
    Performance.calculate trades fe = Ok (Some m) /\
    Performance.profit_factor m
    = np_div (py_sum (Performance.pnl_where Performance.pnl_pos trades))
             (py_sum (map Qabs (Performance.pnl_where Performance.pnl_neg trades))) /\
    Performance.total_trades m = Performance.count Performance.is_close trades /\
    Performance.winning_trades m
    = Performance.count (fun r => Performance.is_close r && Performance.pnl_pos r)
        trades /\
    Performance.losing_trades m
    = Performance.count (fun r => Performance.is_close r && Performance.pnl_neg r)
        trades /\
    Performance.win_rate m
    = (if (0 <? Performance.count Performance.is_close trades)%nat
       then inject_Z (Z.of_nat (Performance.count
                                  (fun r => Performance.is_close r
                                            && Performance.pnl_pos r) trades))
            / inject_Z (Z.of_nat (Performance.count Performance.is_close trades))
       else 0) /\
    Performance.gross_profit m
    = py_sum (Performance.pnl_where Performance.pnl_pos trades) /\
    Performance.gross_loss m
    = Qabs (py_sum (Performance.pnl_where Performance.pnl_neg trades)) /\
    Performance.net_profit m
    = py_sum (Performance.pnl_where Performance.pnl_pos trades)
      - Qabs (py_sum (Performance.pnl_where Performance.pnl_neg trades)).
Proof.
  intros Hopen Hpnl.
  destruct (avg_trade_duration_ok trades Hopen) as [d Hd].
  destruct trades as [|r trades]; [discriminate|].
  unfold Performance.calculate. rewrite Hd. cbn [mbind result_bind].
  unfold Performance._calculate_profit_factor. rewrite Hpnl. cbn [mbind result_bind].
  eexists. split; [reflexivity|]. cbn. by repeat split.
Qed.

Lemma pnl_where_nil (mask : Performance.record -> bool) :
  Performance.pnl_where mask [] = [].
Proof. reflexivity. Qed.

Lemma pnl_where_some_recorded (mask : Performance.record -> bool)
    (trades : list Performance.record) :
  Performance.pnl_where mask trades <> [] ->
  forallb Performance.pnl_missing trades = false.
Proof.
  intros Hne. destruct (forallb Performance.pnl_missing trades) eqn:E; [|reflexivity].
  exfalso. apply Hne. by apply pnl_where_all_missing.
Qed.

(** C5 fails as stated: with neither profits nor losses the reported profit
    factor is NaN, the quotient 0/0, and not 0. *)
Lemma profit_factor_flat_is_nan :
  Performance.pnl_where Performance.pnl_pos Scenario.flat_history = [] /\
  Performance.pnl_where Performance.pnl_neg Scenario.flat_history = [] /\
  fmap (M := option) Performance.profit_factor
    <$> Performance.calculate Scenario.flat_history 1000
  = Ok (Some NaN).
Proof. repeat split. Qed.

(** C5, amended: take a history in which the 'close' rows, if there are
    any, come with an 'open' row.  When it has a losing trade the reported
    profit factor is the finite, non-negative quotient of the sum of the
    winning P&L by the magnitude of the sum of the losing P&L; when it has a
    winning trade and no losing trade it is +infinity.  (Nothing is said of
    a history with neither.) *)
Theorem profit_factor_reported :
  forall (trades : list Performance.record) (final_equity : Q),
    let profits := Performance.pnl_where Performance.pnl_pos trades in
    let losses := Performance.pnl_where Performance.pnl_neg trades in
    (Exists (fun r => Performance.is_close r = true) trades ->
     Exists (fun r => Performance.is_open r = true) trades) ->
    (losses <> [] ->
     exists m q,
       Performance.calculate trades final_equity = Ok (Some m) /\
       Performance.profit_factor m = Fin q /\
       q == py_sum profits / Qabs (py_sum losses) /\
       0 <= q) /\
    (profits <> [] -> losses = [] ->
     exists m,
       Performance.calculate trades final_equity = Ok (Some m) /\
       Performance.profit_factor m = PInf).
Proof.
  intros trades fe profits losses Hopen. split.
  - intros Hloss.
    destruct (calculate_reports_profit_factor trades fe Hopen
                (pnl_where_some_recorded _ _ Hloss)) as (m & Hm & Hpf & _).
    destruct (sum_abs_of_losses losses (pnl_where_neg_all trades))
      as (Habs & Hle & Hlt).
    specialize (Hlt Hloss).
    assert (Hden : 0 < py_sum (map Qabs losses)) by (rewrite Habs; lra).
    assert (Hnum : 0 <= py_sum profits).
    { apply py_sum_nonneg. eapply Forall_impl; [apply pnl_where_pos_all|].
      simpl. intros. lra. }
    exists m, (py_sum profits / py_sum (map Qabs losses)).
    split; [exact Hm|]. split.
    + rewrite Hpf. fold profits losses. by apply np_div_pos_den.
    + assert (Heq : Qabs (py_sum losses) == py_sum (map Qabs losses)).
      { rewrite Habs. apply Qabs_neg. exact Hle. }
      split.
      * rewrite Heq. reflexivity.
      * apply Qle_shift_div_l; [exact Hden|]. lra.
  - intros Hwin Hnoloss.
    destruct (calculate_reports_profit_factor trades fe Hopen
                (pnl_where_some_recorded _ _ Hwin)) as (m & Hm & Hpf & _).
    exists m. split; [exact Hm|].
    rewrite Hpf. fold profits losses. rewrite Hnoloss. simpl map.
    apply np_div_pos_by_zero.
    apply py_sum_pos; [exact Hwin|apply pnl_where_pos_all].
Qed.

Lemma profit_factor_reported_witness :
  (Performance.pnl_where Performance.pnl_neg Scenario.mixed_history <> [] /\
   exists m q,
     Performance.calculate Scenario.mixed_history 1005 = Ok (Some m) /\
     Performance.profit_factor m = Fin q /\
     q == py_sum (Performance.pnl_where Performance.pnl_pos Scenario.mixed_history)
          / Qabs (py_sum (Performance.pnl_where Performance.pnl_neg
                            Scenario.mixed_history)) /\
     0 <= q) /\
  (Performance.pnl_where Performance.pnl_pos Scenario.winning_history <> [] /\
   Performance.pnl_where Performance.pnl_neg Scenario.winning_history = [] /\
   exists m,
     Performance.calculate Scenario.winning_history 1010 = Ok (Some m) /\
     Performance.profit_factor m = PInf).
Proof.
  assert (H1 : Performance.pnl_where Performance.pnl_neg Scenario.mixed_history
               <> []) by (vm_compute; discriminate).
  assert (H2 : Performance.pnl_where Performance.pnl_pos Scenario.winning_history
               <> []) by (vm_compute; discriminate).
  assert (H3 : Performance.pnl_where Performance.pnl_neg Scenario.winning_history
               = []) by reflexivity.
  assert (O1 : Exists (fun r => Performance.is_close r = true) Scenario.mixed_history ->
               Exists (fun r => Performance.is_open r = true) Scenario.mixed_history)
    by (intros _; left; reflexivity).
  assert (O2 : Exists (fun r => Performance.is_close r = true) Scenario.winning_history ->
               Exists (fun r => Performance.is_open r = true) Scenario.winning_history)
    by (intros _; left; reflexivity).
  split.
  - split; [exact H1|].
    exact (proj1 (profit_factor_reported Scenario.mixed_history 1005 O1) H1).
  - split; [exact H2|]. split; [exact H3|].
    exact (proj2 (profit_factor_reported Scenario.winning_history 1010 O2) H2 H3).
Defined.

(** ** PerformanceAnalyzer: maximum drawdown *)

Section Drawdown.

Let dd (xm : Q * Q) : npfloat := np_div (xm.1 - xm.2) xm.2.

Lemma peak_step_pos (m x : Q) : 0 < m -> 0 < (if Qltb m x then x else m).
Proof.
  intros Hm. destruct (Qltb m x) eqn:E; [|exact Hm].
  apply Qltb_lt in E. lra.
Qed.

Lemma peak_step_ge (m x : Q) : x <= (if Qltb m x then x else m).
Proof.
  destruct (Qltb m x) eqn:E; [lra|]. by apply Qltb_ge in E.
Qed.

(** After a positive peak every quotient is finite. *)
Lemma drawdown_series_from (s : list Q) :
  forall m, 0 < m ->
    map dd (combine s (cummax_from m s))
    = map Fin (Performance.drawdowns_from m s).
Proof.
  induction s as [|x s IH]; intros m Hm; [reflexivity|].
  cbn [cummax_from combine map Performance.drawdowns_from].
  pose proof (peak_step_pos m x Hm) as Hm'.
  f_equal.
  - unfold dd. cbn [fst snd]. by apply np_div_pos_den.
  - by apply IH.
Qed.

Lemma drawdowns_from_bounds (s : list Q) :
  forall m, 0 < m -> Forall (fun x => 0 <= x) s ->
    Forall (fun d => -1 <= d /\ d <= 0) (Performance.drawdowns_from m s).
Proof.
  induction s as [|x s IH]; intros m Hm Hs; [constructor|].
  apply Forall_cons in Hs as [Hx Hs].
  cbn [Performance.drawdowns_from].
  pose proof (peak_step_pos m x Hm) as Hm'.
  pose proof (peak_step_ge m x) as Hge.
  constructor; [|by apply IH].
  split.
  - apply Qle_shift_div_l; [exact Hm'|]. lra.
  - apply Qle_shift_div_r; [exact Hm'|]. lra.
Qed.

(** The smallest element is one of the elements. *)
Lemma smallest_elim (P : Q -> Prop) (ds : list Q) :
  forall d, P d -> Forall P ds -> P (Performance.smallest d ds).
Proof.
  unfold Performance.smallest.
  induction ds as [|y ds IH]; intros d Hd Hds; [exact Hd|].
  apply Forall_cons in Hds as [Hy Hds]. cbn [fold_left].
  apply IH; [|exact Hds]. destruct (Qltb y d); assumption.
Qed.

Lemma filter_not_nan_fin (l : list Q) :
  filter (fun x => np_is_nan x = false) (map Fin l) = map Fin l.
Proof.
  induction l as [|x l IH]; [reflexivity|].
  cbn [map]. rewrite filter_cons_True by reflexivity. by rewrite IH.
Qed.

Lemma fold_min_fin (ds : list Q) :
  forall d,
    fold_left (fun m y => if np_lt y m then y else m) (map Fin ds) (Fin d)
    = Fin (Performance.smallest d ds).
Proof.
  unfold Performance.smallest.
  induction ds as [|y ds IH]; intros d; [reflexivity|].
  cbn [map fold_left np_lt]. destruct (Qltb y d); apply IH.
Qed.

Lemma series_min_fin (d : Q) (ds : list Q) :
  series_min (map Fin (d :: ds)) = Fin (Performance.smallest d ds).
Proof.
  unfold series_min. rewrite filter_not_nan_fin. cbn [map].
  apply fold_min_fin.
Qed.

(** What the analyzer computes on a series that starts positive. *)
Lemma max_drawdown_from_positive (x : Q) (s : list Q) :
  0 < x ->
  Performance._calculate_max_drawdown (x :: s)
  = Fin (Qabs (Performance.smallest ((x - x) / x)
                 (Performance.drawdowns_from x s))).
Proof.
  intros Hx. unfold Performance._calculate_max_drawdown, drawdown_series.
  cbn [cummax combine map fst snd].
  change (map _ (combine s (cummax_from x s)))
    with (map dd (combine s (cummax_from x s))).
  rewrite (drawdown_series_from s x Hx).
  rewrite (np_div_pos_den _ _ Hx).
  change (Fin ((x - x) / x) :: map Fin (Performance.drawdowns_from x s))
    with (map Fin ((x - x) / x :: Performance.drawdowns_from x s)).
  by rewrite series_min_fin.
Qed.

(** The running peaks of the specification are the prefix maxima that
    [cummax] computes. *)
Lemma spec_drawdowns_from_peak (s : list Q) :
  forall m,
    map (fun i =>
           (Performance.largest m (firstn (S i) s) - nth i s 0)
           / Performance.largest m (firstn (S i) s))
        (seq 0 (length s))
    = map (fun xm : Q * Q => (xm.2 - xm.1) / xm.2)
        (combine s (cummax_from m s)).
Proof.
  induction s as [|y s IH]; intros m; [reflexivity|].
  cbn [length seq map cummax_from combine fst snd].
  f_equal.
  rewrite <- seq_shift, List.map_map.
  exact (IH (if Qltb m y then y else m)).
Qed.

Lemma spec_drawdowns_cummax (s : list Q) :
  Performance.spec_drawdowns s
  = map (fun xm : Q * Q => (xm.2 - xm.1) / xm.2) (combine s (cummax s)).
Proof.
  destruct s as [|x s]; [reflexivity|].
  unfold Performance.spec_drawdowns.
  cbn [length seq map cummax combine fst snd].
  f_equal.
  rewrite <- seq_shift, List.map_map.
  exact (spec_drawdowns_from_peak s x).
Qed.

(** The drawdowns of the specification are the opposites of the ones the
    code computes, and its largest the opposite of the code's smallest. *)
Lemma opposite_drawdowns_from (s : list Q) :
  forall m,
    Forall2 (fun d d' => d' == - d)
      (Performance.drawdowns_from m s)
      (map (fun xm : Q * Q => (xm.2 - xm.1) / xm.2)
         (combine s (cummax_from m s))).
Proof.
  induction s as [|x s IH]; intros m; [constructor|].
  cbn [cummax_from combine map Performance.drawdowns_from fst snd].
  constructor; [|apply IH].
  unfold Qdiv. ring.
Qed.

Lemma largest_is_opposite_of_smallest (ds ds' : list Q) :
  Forall2 (fun d d' => d' == - d) ds ds' ->
  forall a a', a' == - a ->
    Performance.largest a' ds' == - Performance.smallest a ds.
Proof.
  unfold Performance.smallest, Performance.largest.
  induction 1 as [|y y' ds ds' Hy _ IH]; intros a a' Ha; [exact Ha|].
  cbn [fold_left]. apply IH.
  destruct (Qltb a' y') eqn:E1, (Qltb y a) eqn:E2; try assumption.
  - apply Qltb_lt in E1. apply Qltb_ge in E2. lra.
  - apply Qltb_ge in E1. apply Qltb_lt in E2. lra.
Qed.

Lemma spec_max_drawdown_cons (x : Q) (s : list Q) :
  Performance.spec_max_drawdown (x :: s)
  == - Performance.smallest ((x - x) / x) (Performance.drawdowns_from x s).
Proof.
  unfold Performance.spec_max_drawdown. rewrite spec_drawdowns_cummax.
  cbn [cummax combine map fst snd].
  apply largest_is_opposite_of_smallest.
  - apply opposite_drawdowns_from.
  - unfold Qdiv. ring.
Qed.

(** Along a non-decreasing series every sample is its own peak. *)
Lemma drawdowns_from_nondecreasing (s : list Q) :
  forall m,
    match s with x :: _ => m <= x | [] => True end ->
    Performance.nondecreasing s ->
    Forall (fun d => d == 0) (Performance.drawdowns_from m s).
Proof.
  induction s as [|x s IH]; intros m Hm Hs; [constructor|].
  cbn [Performance.drawdowns_from].
  destruct Hs as [Hxy Hs].
  constructor.
  - destruct (Qltb m x) eqn:E.
    + unfold Qdiv. ring.
    + apply Qltb_ge in E.
      assert (x - m == 0) as -> by lra. unfold Qdiv. ring.
  - apply IH; [|exact Hs].
    destruct s as [|y s]; [exact I|].
    destruct (Qltb m x) eqn:E; [exact Hxy|].
    apply Qltb_ge in E. lra.
Qed.

End Drawdown.

(** C6 fails as stated: an equity series that falls below zero gives a
    drawdown above 1. *)
Lemma max_drawdown_above_one :
  np_lt (Fin 1) (Performance._calculate_max_drawdown [100; -50]) = true.
Proof. reflexivity. Qed.

(** [Backtester.calculate_max_drawdown] returns the minimum with its sign:
    on the series of the scenario, a negative number. *)
Lemma backtester_max_drawdown_is_signed :
  (forall self : Backtester.t,
      Performance._calculate_max_drawdown (Backtester.equity_curve self)
      = np_abs (Backtester.calculate_max_drawdown self)) /\
  np_lt (Backtester.calculate_max_drawdown
           (Backtester.mk 0 [100; 110; 90; 120] [] None)) (Fin 0) = true.
Proof. split; reflexivity. Qed.

(** C6, amended: on an equity series that starts with a positive sample and
    has no negative sample, the maximum drawdown reported by the analyzer is
    a finite magnitude between 0 and 1; it is the largest over time of
    [(running_peak - equity) / running_peak]; it is 0 when the series never
    decreases.  On [100, 110, 90, 120] it is 2/11. *)
Theorem max_drawdown_magnitude :
  (forall (x : Q) (s : list Q),
      0 < x ->
      Forall (fun y => 0 <= y) s ->
      exists q,
        Performance._calculate_max_drawdown (x :: s) = Fin q /\
        0 <= q /\ q <= 1 /\
        q == Performance.spec_max_drawdown (x :: s) /\
        (Performance.nondecreasing (x :: s) -> q == 0)) /\
  (exists q,
      Performance._calculate_max_drawdown [100; 110; 90; 120] = Fin q /\
      q == 2 # 11).
Proof.
  split.
  - intros x s Hx Hs.
    set (least := Performance.smallest ((x - x) / x)
                    (Performance.drawdowns_from x s)).
    assert (Hfirst : (x - x) / x == 0) by (unfold Qdiv; ring).
    assert (Hbounds : -1 <= least /\ least <= 0).
    { apply (smallest_elim (fun d => -1 <= d /\ d <= 0)).
      - rewrite Hfirst. lra.
      - by apply drawdowns_from_bounds. }
    assert (Habs : Qabs least == - least) by (apply Qabs_neg; lra).
    exists (Qabs least).
    split; [by apply max_drawdown_from_positive|].
    split; [rewrite Habs; lra|]. split; [rewrite Habs; lra|]. split.
    + rewrite Habs. symmetry. apply spec_max_drawdown_cons.
    + intros [Hxy Hnd].
      assert (Hzero : least == 0).
      { apply (smallest_elim (fun d => d == 0)); [exact Hfirst|].
        apply drawdowns_from_nondecreasing; [|exact Hnd].
        destruct s; [exact I|exact Hxy]. }
      rewrite Habs, Hzero. reflexivity.
  - eexists. split; [vm_compute; reflexivity|]. reflexivity.
Qed.

Lemma max_drawdown_magnitude_witness :
  0 < 100 /\
  Forall (fun y => 0 <= y) [110; 0; 120] /\
  exists q,
    Performance._calculate_max_drawdown [100; 110; 0; 120] = Fin q /\
    0 <= q /\ q <= 1 /\
    q == Performance.spec_max_drawdown [100; 110; 0; 120] /\
    (Performance.nondecreasing [100; 110; 0; 120] -> q == 0).
Proof.
  assert (Hx : 0 < 100) by reflexivity.
  assert (Hs : Forall (fun y => 0 <= y) [110; 0; 120]).
  { repeat constructor; discriminate. }
  split; [exact Hx|]. split; [exact Hs|].
  exact (proj1 max_drawdown_magnitude 100 [110; 0; 120] Hx Hs).
Defined.

(** ** Optimizer *)

Section Propagation.
Variable wall_clock : nat -> Z.
Variable strategy_class : Engine.strategy_class.
Variable data : list Engine.row.
Variable objective_func : option Performance.metrics -> result npfloat.

(** [evaluate_params] has no handler: what the run raises, it raises. *)
Lemma evaluate_params_propagates (self : Optimizer.t) (params : gmap string Q)
    (e : exn) :
  Engine.run wall_clock strategy_class
    (Engine.set_cfg (Optimizer.engine self)
       (Engine.mk_config
          (Engine.risk_management (Engine.cfg (Optimizer.engine self)))
          (dict_update (Engine.indicators (Engine.cfg (Optimizer.engine self)))
             params)
          (Engine.trading_costs (Engine.cfg (Optimizer.engine self)))))
    data = Raise e ->
  Optimizer.evaluate_params wall_clock strategy_class data objective_func
    self params = Raise e.
Proof.
  intros Hrun. unfold Optimizer.evaluate_params. by rewrite Hrun.
Qed.

(** Nor has the loop of the grid search: the first evaluation that raises
    ends it, and the combinations after it are not evaluated. *)
Lemma evaluate_all_stops_at_first_error (before after : list (gmap string Q))
    (params : gmap string Q) (e : exn) :
  forall self self1,
    Optimizer.evaluate_all wall_clock strategy_class data objective_func
      self before = Ok self1 ->
    Optimizer.evaluate_params wall_clock strategy_class data objective_func
      self1 params = Raise e ->
    Optimizer.evaluate_all wall_clock strategy_class data objective_func
      self (before ++ params :: after) = Raise e.
Proof.
  induction before as [|p before IH]; intros self self1 Hbefore Hfail.
  - injection Hbefore as <-. cbn. by rewrite Hfail.
  - cbn in Hbefore |- *.
    destruct (Optimizer.evaluate_params _ _ _ _ self p) as [ev|e'];
      cbn in Hbefore |- *; [|discriminate].
    by eapply IH.
Qed.

End Propagation.

(** The sibling in [optimizer.py] does turn a failure into a score of
    negative infinity. *)
Lemma strategy_optimizer_scores_failure
    (try_block : gmap string Q -> result npfloat) (params : gmap string Q) (e : exn) :
  try_block params = Raise e ->
  StrategyOptimizer._evaluate_parameters try_block params = (params, NInf).
Proof.
  intros H. unfold StrategyOptimizer._evaluate_parameters. by rewrite H.
Qed.

(** C8 on a grid over the volumes 0, 1 and 2, with a configuration that has
    no take-profit multiplier: the evaluation of volume 0 opens no position
    and is recorded; the evaluation of volume 1 opens one and raises
    KeyError on the next bar; the search raises that KeyError, so that
    nothing is recorded for volume 1 and volume 2 is never evaluated. *)
Theorem grid_search_stops_on_error :
  snd <$> Scenario.first_evaluation Scenario.engine_config_no_tp 0 = Ok NInf /\
  Scenario.first_evaluation Scenario.engine_config_no_tp 1
  = Raise (Exn "KeyError" "take_profit_multiplier") /\
  Scenario.grid_search Scenario.engine_config_no_tp [0; 1; 2]
  = Raise (Exn "KeyError" "take_profit_multiplier").
Proof. repeat split; vm_compute; reflexivity. Qed.

(** C9 on the grids [1, 2] and [2, 1] of volumes, each searched by a new
    optimizer on a new engine: the parameter set of volume 1 scores 9900
    when it is evaluated first and 9795 when it is evaluated second, and
    volume 2 scores 9800 first and 9605 second.  One evaluation leaves
    three history records, an open position and the reduced cash in the
    engine that the next evaluation runs on. *)
Theorem score_depends_on_order :
  Scenario.recorded_score 1 (Scenario.grid_search Scenario.engine_config [1; 2])
  = Some 9900 /\
  Scenario.recorded_score 1 (Scenario.grid_search Scenario.engine_config [2; 1])
  = Some 9795 /\
  Scenario.recorded_score 2 (Scenario.grid_search Scenario.engine_config [2; 1])
  = Some 9800 /\
  Scenario.recorded_score 2 (Scenario.grid_search Scenario.engine_config [1; 2])
  = Some 9605 /\
  Scenario.carried_over (Scenario.first_evaluation Scenario.engine_config 2)
  = Ok (3%nat, 1%nat, 9800).
Proof. repeat split; vm_compute; reflexivity. Qed.

(** * Further properties *)

(** ** Portfolio: what the operations do to cash, map and logs *)

Lemma py_sum_app (l : list Q) (x : Q) : py_sum (l ++ [x]) == py_sum l + x.
Proof.
  unfold py_sum. rewrite fold_left_app. reflexivity.
Qed.

Lemma marked_at_entry_twice (pos : Position.t) :
  Position.marked_at_entry (Position.marked_at_entry pos)
  = Position.marked_at_entry pos.
Proof. reflexivity. Qed.

Lemma update_equity_positions (self : Portfolio.t) :
  Portfolio.positions (Portfolio.update_equity self)
  = Position.marked_at_entry <$> Portfolio.positions self.
Proof. reflexivity. Qed.

(** What a successful [add_position] returns. *)
Lemma add_position_ok (self : Portfolio.t) (position : Position.t) :
  Position.get_value position (Position.entry_price position) <= Portfolio.cash self ->
  Portfolio.add_position self position
  = Ok (Portfolio._record_trade
          (Portfolio.update_equity
             (Portfolio.mk (Portfolio.initial_capital self)
                (Portfolio.cash self
                 - Position.get_value position (Position.entry_price position))
                (Portfolio.equity self)
                (<[Position.symbol position := position]> (Portfolio.positions self))
                (Portfolio.closed_positions self) (Portfolio.trade_history self)))
          (Position.marked_at_entry position) "open",
        Position.marked_at_entry position).
Proof.
  intros Hfunds. unfold Portfolio.add_position, Portfolio.has_sufficient_funds.
  apply Qgeb_ge in Hfunds. rewrite Hfunds. cbn [negb].
  unfold Portfolio.stored. rewrite update_equity_positions.
  cbn [Portfolio.positions].
  rewrite lookup_fmap, lookup_insert_eq. reflexivity.
Qed.

Lemma add_position_short_of_funds (self : Portfolio.t) (position : Position.t) :
  Portfolio.cash self < Position.get_value position (Position.entry_price position) ->
  Portfolio.add_position self position
  = Raise (Exn "ValueError" "Insufficient funds to open position").
Proof.
  intros Hshort. unfold Portfolio.add_position, Portfolio.has_sufficient_funds.
  destruct (Qgeb _ _) eqn:E; [|reflexivity].
  apply Qgeb_ge in E. lra.
Qed.

(** What [remove_position] returns for a symbol that is open. *)
Lemma remove_position_open (self : Portfolio.t) (position : Position.t)
    (exit_price : Q) (now : Z) :
  is_Some (Portfolio.positions self !! Position.symbol position) ->
  let closed :=
    Position.mk (Position.symbol position) (Position.direction position)
      (Position.entry_price position) (Position.size position)
      (Position.timestamp position) (Some exit_price) (Some now)
      (Some (Position.pnl_value position exit_price)) in
  Portfolio.remove_position self position exit_price now
  = Ok (Portfolio._record_trade
          (Portfolio.update_equity
             (Portfolio.mk (Portfolio.initial_capital self)
                (Portfolio.cash self + Position.size position * exit_price)
                (Portfolio.equity self)
                (delete (Position.symbol position) (Portfolio.positions self))
                (Portfolio.closed_positions self ++ [closed])
                (Portfolio.trade_history self)))
          closed "close",
        closed).
Proof.
  intros [held Hheld] closed. unfold Portfolio.remove_position.
  rewrite Hheld. reflexivity.
Qed.

Lemma remove_position_absent (self : Portfolio.t) (position : Position.t)
    (exit_price : Q) (now : Z) :
  Portfolio.positions self !! Position.symbol position = None ->
  Portfolio.remove_position self position exit_price now = Ok (self, position).
Proof.
  intros Habs. unfold Portfolio.remove_position. by rewrite Habs.
Qed.

(** X1: opening a position in a free symbol and removing it again.  Both
    calls succeed; cash has moved by [size * (exit - entry)] whatever the
    direction, so for a short it has moved against the recorded P&L; the
    map of open positions is the one before (each position marked at its
    entry price); [closed_positions] has one entry more, the closed
    position, at its end, and [trade_history] two events more. *)
Theorem add_then_remove :
  forall (self : Portfolio.t) (position : Position.t) (exit_price : Q) (now : Z),
    Portfolio.positions self !! Position.symbol position = None ->
    Position.get_value position (Position.entry_price position)
    <= Portfolio.cash self ->
    exists self1 held self2 closed,
      Portfolio.add_position self position = Ok (self1, held) /\
      Portfolio.remove_position self1 held exit_price now = Ok (self2, closed) /\
      Portfolio.cash self2
      == Portfolio.cash self
         + Position.size position * (exit_price - Position.entry_price position) /\
      Portfolio.positions self2
      = Position.marked_at_entry <$> Portfolio.positions self /\
      (exists earlier,
          Portfolio.closed_positions self2 = earlier ++ [closed] /\
          length earlier = length (Portfolio.closed_positions self)) /\
      Position.pnl closed = Some (Position.pnl_value position exit_price) /\
      length (Portfolio.trade_history self2)
      = (length (Portfolio.trade_history self) + 2)%nat /\
      Position.pnl_value position exit_price
      == (if String.eqb (Position.direction position) "long" then 1 else -1)
         * (Portfolio.cash self2 - Portfolio.cash self).
Proof.
  intros self position exit_price now Hfree Hfunds.
  pose proof (add_position_ok self position Hfunds) as Hadd.
  eexists _, _. eexists _, _.
  split; [exact Hadd|].
  split.
  { apply remove_position_open.
    cbn [Portfolio._record_trade Portfolio.positions].
    rewrite update_equity_positions. cbn [Portfolio.positions].
    rewrite lookup_fmap, lookup_insert_eq. by eexists. }
  cbn [Portfolio._record_trade Portfolio.update_equity Portfolio.cash
       Portfolio.positions Portfolio.closed_positions Portfolio.trade_history
       Position.marked_at_entry Position.get_unrealized_pnl Position.calculate_pnl
       Position.set_pnl Position.symbol Position.size Position.entry_price
       Position.direction Position.pnl fst snd].
  split; [unfold Position.get_value; ring|].
  split.
  { rewrite <- fmap_delete, delete_insert_id by exact Hfree.
    rewrite <- map_fmap_compose. apply map_fmap_ext. intros k pos _.
    reflexivity. }
  split; [by eexists|]. split; [reflexivity|].
  split; [rewrite !length_app; cbn; lia|].
  unfold Position.pnl_value, Position.get_value.
  cbn [Position.direction Position.entry_price Position.size].
  destruct (String.eqb _ _); ring.
Qed.

Lemma add_then_remove_witness :
  Portfolio.positions (Portfolio.init 1000) !! Position.symbol Scenario.short_X = None /\
  Position.get_value Scenario.short_X (Position.entry_price Scenario.short_X)
  <= Portfolio.cash (Portfolio.init 1000) /\
  exists self1 held self2 closed,
    Portfolio.add_position (Portfolio.init 1000) Scenario.short_X = Ok (self1, held) /\
    Portfolio.remove_position self1 held 40 7 = Ok (self2, closed) /\
    Portfolio.cash self2
    == Portfolio.cash (Portfolio.init 1000)
       + Position.size Scenario.short_X
         * (40 - Position.entry_price Scenario.short_X) /\
    Portfolio.positions self2
    = Position.marked_at_entry <$> Portfolio.positions (Portfolio.init 1000) /\
    (exists earlier,
        Portfolio.closed_positions self2 = earlier ++ [closed] /\
        length earlier = length (Portfolio.closed_positions (Portfolio.init 1000))) /\
    Position.pnl closed = Some (Position.pnl_value Scenario.short_X 40) /\
    length (Portfolio.trade_history self2)
    = (length (Portfolio.trade_history (Portfolio.init 1000)) + 2)%nat /\
    Position.pnl_value Scenario.short_X 40
    == (if String.eqb (Position.direction Scenario.short_X) "long" then 1 else -1)
       * (Portfolio.cash self2 - Portfolio.cash (Portfolio.init 1000)).
Proof.
  assert (Hfree : Portfolio.positions (Portfolio.init 1000)
                    !! Position.symbol Scenario.short_X = None) by reflexivity.
  assert (Hfunds :
    Position.get_value Scenario.short_X (Position.entry_price Scenario.short_X)
    <= Portfolio.cash (Portfolio.init 1000)) by (vm_compute; discriminate).
  split; [exact Hfree|]. split; [exact Hfunds|].
  exact (add_then_remove (Portfolio.init 1000) Scenario.short_X 40 7 Hfree Hfunds).
Defined.

Lemma after_cash_nonneg (self : Portfolio.t) (o : Portfolio.op) :
  0 <= Portfolio.cash self ->
  match o with
  | Portfolio.RemovePosition p x _ => 0 <= Position.size p * x
  | _ => True
  end ->
  0 <= Portfolio.cash (Portfolio.after self o).
Proof.
  intros Hcash Hop. unfold Portfolio.after.
  destruct o as [position|position exit_price now|]; cbn [Portfolio.call].
  - destruct (Qlt_le_dec (Portfolio.cash self)
                (Position.get_value position (Position.entry_price position)))
      as [Hshort|Hfunds].
    + by rewrite (add_position_short_of_funds _ _ Hshort).
    + rewrite (add_position_ok _ _ Hfunds). cbn. lra.
  - destruct (Portfolio.positions self !! Position.symbol position) eqn:E.
    + rewrite remove_position_open by (by eexists). cbn. lra.
    + by rewrite remove_position_absent.
  - exact Hcash.
Qed.

(** X2: cash never goes negative.  From a non-negative initial capital, and
    as long as every removal is at a non-negative exit notional, cash is
    non-negative after each call of a sequence: an [add_position] that
    would overdraw raises and leaves the portfolio as it was. *)
Theorem cash_never_negative :
  forall (initial_capital : Q) (ops : list Portfolio.op),
    0 <= initial_capital ->
    Forall (fun o => match o with
                     | Portfolio.RemovePosition p x _ => 0 <= Position.size p * x
                     | _ => True
                     end) ops ->
    Forall (fun p => 0 <= Portfolio.cash p)
           (Portfolio.states (Portfolio.init initial_capital) ops).
Proof.
  intros initial_capital ops Hic.
  assert (Hstart : 0 <= Portfolio.cash (Portfolio.init initial_capital)) by exact Hic.
  revert Hstart. generalize (Portfolio.init initial_capital) as self.
  induction ops as [|o ops IH]; intros self Hcash Hops; cbn; constructor.
  - apply after_cash_nonneg; [exact Hcash|]. by apply Forall_cons in Hops as [? _].
  - apply Forall_cons in Hops as [Ho Hops].
    apply IH; [|exact Hops]. by apply after_cash_nonneg.
Qed.

Lemma cash_never_negative_witness :
  0 <= 150 /\
  Forall (fun o => match o with
                   | Portfolio.RemovePosition p x _ => 0 <= Position.size p * x
                   | _ => True
                   end)
    [Portfolio.AddPosition Scenario.long_X; Portfolio.AddPosition Scenario.short_X;
     Portfolio.RemovePosition Scenario.long_X 90 5] /\
  Forall (fun p => 0 <= Portfolio.cash p)
    (Portfolio.states (Portfolio.init 150)
       [Portfolio.AddPosition Scenario.long_X; Portfolio.AddPosition Scenario.short_X;
        Portfolio.RemovePosition Scenario.long_X 90 5]).
Proof.
  assert (Hic : 0 <= 150) by discriminate.
  assert (Hops :
    Forall (fun o => match o with
                     | Portfolio.RemovePosition p x _ => 0 <= Position.size p * x
                     | _ => True
                     end)
      [Portfolio.AddPosition Scenario.long_X; Portfolio.AddPosition Scenario.short_X;
       Portfolio.RemovePosition Scenario.long_X 90 5]).
  { repeat constructor. vm_compute. discriminate. }
  split; [exact Hic|]. split; [exact Hops|].
  exact (cash_never_negative 150 _ Hic Hops).
Defined.

(** X3: removing a position twice.  Once [remove_position] has closed the
    position of a symbol, a second call for the same position, at whatever
    price and time, changes neither the portfolio nor the position: the
    cash, the logs and the recorded exit stay those of the first call. *)
Theorem remove_twice_is_remove_once :
  forall (self : Portfolio.t) (position : Position.t)
         (exit_price exit_price' : Q) (now now' : Z),
    is_Some (Portfolio.positions self !! Position.symbol position) ->
    exists self1 closed,
      Portfolio.remove_position self position exit_price now = Ok (self1, closed) /\
      Position.exit_price closed = Some exit_price /\
      Portfolio.remove_position self1 closed exit_price' now' = Ok (self1, closed).
Proof.
  intros self position exit_price exit_price' now now' Hopen.
  eexists _, _. split; [by apply remove_position_open|].
  split; [reflexivity|].
  apply remove_position_absent.
  cbn [Portfolio._record_trade Portfolio.positions Position.symbol].
  rewrite update_equity_positions. cbn [Portfolio.positions].
  by rewrite lookup_fmap, lookup_delete_eq.
Qed.

Lemma remove_twice_is_remove_once_witness :
  is_Some (Portfolio.positions Scenario.held_long !! Position.symbol Scenario.long_X) /\
  exists self1 closed,
    Portfolio.remove_position Scenario.held_long Scenario.long_X 110 5
    = Ok (self1, closed) /\
    Position.exit_price closed = Some 110 /\
    Portfolio.remove_position self1 closed 90 6 = Ok (self1, closed).
Proof.
  assert (Hopen : is_Some (Portfolio.positions Scenario.held_long
                             !! Position.symbol Scenario.long_X)).
  { eexists. vm_compute. reflexivity. }
  split; [exact Hopen|].
  exact (remove_twice_is_remove_once Scenario.held_long Scenario.long_X
           110 90 5 6 Hopen).
Defined.

(** X4: the logs only grow.  A call adds at most one event at the end of
    [trade_history], whose earlier events are unchanged, and at most one
    position at the end of [closed_positions], a closed position only
    together with an event; the event carries the cash and the equity that
    the portfolio has after the call.  (Of the earlier entries of
    [closed_positions] only the number is stated: they are objects, and one
    that is added again is rewritten in place by [update_equity].) *)
Theorem logs_are_append_only :
  forall (self : Portfolio.t) (o : Portfolio.op),
    exists events earlier closed,
      Portfolio.trade_history (Portfolio.after self o)
      = Portfolio.trade_history self ++ events /\
      Portfolio.closed_positions (Portfolio.after self o) = earlier ++ closed /\
      length earlier = length (Portfolio.closed_positions self) /\
      (length closed <= length events <= 1)%nat /\
      (forall position exit_price now,
          o = Portfolio.RemovePosition position exit_price now ->
          Forall (fun c => Position.exit_price c = Some exit_price) closed) /\
      Forall (fun tr =>
                Portfolio.tr_cash tr = Portfolio.cash (Portfolio.after self o) /\
                Portfolio.tr_equity tr = Portfolio.equity (Portfolio.after self o))
             events.
Proof.
  intros self o. unfold Portfolio.after.
  assert (Hsame : exists (events : list Portfolio.trade)
                         (earlier closed : list Position.t),
             Portfolio.trade_history self = Portfolio.trade_history self ++ events /\
             Portfolio.closed_positions self = earlier ++ closed /\
             length earlier = length (Portfolio.closed_positions self) /\
             (length closed <= length events <= 1)%nat /\
             (forall position exit_price now,
                 o = Portfolio.RemovePosition position exit_price now ->
                 Forall (fun c => Position.exit_price c = Some exit_price) closed) /\
             Forall (fun tr => Portfolio.tr_cash tr = Portfolio.cash self /\
                               Portfolio.tr_equity tr = Portfolio.equity self) events).
  { exists [], (Portfolio.closed_positions self), []. rewrite !app_nil_r.
    repeat split; cbn; try lia; repeat constructor. }
  destruct o as [position|position exit_price now|]; cbn [Portfolio.call].
  - destruct (Qlt_le_dec (Portfolio.cash self)
                (Position.get_value position (Position.entry_price position)))
      as [Hshort|Hfunds].
    + by rewrite (add_position_short_of_funds _ _ Hshort).
    + rewrite (add_position_ok _ _ Hfunds). cbn.
      eexists [_], (Portfolio.closed_positions self), []. rewrite app_nil_r.
      repeat split; cbn; try lia; repeat constructor.
  - destruct (Portfolio.positions self !! Position.symbol position) eqn:E.
    + rewrite remove_position_open by (by eexists). cbn.
      eexists [_], (Portfolio.closed_positions self), [_].
      do 3 (split; [reflexivity|]). split; [cbn; lia|].
      split; [intros ? ? ? [= <- <- <-]; by repeat constructor|].
      by repeat constructor.
    + by rewrite remove_position_absent.
  - cbn. exists [], (Portfolio.closed_positions self), []. rewrite !app_nil_r.
    repeat split; cbn; try lia; repeat constructor.
Qed.

(** X5: looking a position up.  After a funded [add_position] the symbol
    maps to the new position (marked at its entry price) and its value is
    [size * entry_price]; after [remove_position], which never raises, the
    symbol maps to nothing and its value is 0; the value of any other symbol
    is unchanged by either. *)
Theorem get_position_after_add_and_remove :
  forall (self : Portfolio.t) (position : Position.t) (exit_price : Q) (now : Z),
    let added := Portfolio.after self (Portfolio.AddPosition position) in
    let removed :=
      Portfolio.after self (Portfolio.RemovePosition position exit_price now) in
    (Position.get_value position (Position.entry_price position)
     <= Portfolio.cash self ->
     Portfolio.get_position added (Position.symbol position)
     = Some (Position.marked_at_entry position) /\
     Portfolio.get_position_value added (Position.symbol position)
     = Position.size position * Position.entry_price position) /\
    Portfolio.get_position removed (Position.symbol position) = None /\
    Portfolio.get_position_value removed (Position.symbol position) = 0 /\
    (forall symbol, symbol <> Position.symbol position ->
       Portfolio.get_position_value added symbol
       = Portfolio.get_position_value self symbol /\
       Portfolio.get_position_value removed symbol
       = Portfolio.get_position_value self symbol).
Proof.
  intros self position exit_price now added removed.
  assert (Hvalue : forall (m : gmap string Position.t) k,
    match (Position.marked_at_entry <$> m) !! k with
    | Some p => Position.get_value p (Position.entry_price p)
    | None => 0
    end
    = match m !! k with
      | Some p => Position.get_value p (Position.entry_price p)
      | None => 0
      end).
  { intros m k. rewrite lookup_fmap. by destruct (m !! k). }
  assert (Hremoved : Portfolio.positions removed !! Position.symbol position = None).
  { subst removed. unfold Portfolio.after. cbn [Portfolio.call].
    destruct (Portfolio.positions self !! Position.symbol position) eqn:E.
    - rewrite remove_position_open by (by eexists). cbn.
      by rewrite lookup_fmap, lookup_delete_eq.
    - by rewrite remove_position_absent. }
  split; [|split; [|split]].
  - intros Hfunds. subst added. unfold Portfolio.after. cbn [Portfolio.call].
    rewrite (add_position_ok _ _ Hfunds). cbn [fmap result_fmap fst].
    unfold Portfolio.get_position_value, Portfolio.get_position.
    cbn [Portfolio._record_trade Portfolio.positions].
    rewrite update_equity_positions. cbn [Portfolio.positions].
    rewrite lookup_fmap, lookup_insert_eq. split; reflexivity.
  - exact Hremoved.
  - unfold Portfolio.get_position_value, Portfolio.get_position. by rewrite Hremoved.
  - intros symbol Hne. split.
    + subst added. unfold Portfolio.after. cbn [Portfolio.call].
      destruct (Qlt_le_dec (Portfolio.cash self)
                  (Position.get_value position (Position.entry_price position)))
        as [Hshort|Hfunds].
      * by rewrite (add_position_short_of_funds _ _ Hshort).
      * rewrite (add_position_ok _ _ Hfunds). cbn [fmap result_fmap fst].
        unfold Portfolio.get_position_value, Portfolio.get_position.
        cbn [Portfolio._record_trade Portfolio.positions].
        rewrite update_equity_positions. cbn [Portfolio.positions].
        rewrite Hvalue. by rewrite lookup_insert_ne.
    + subst removed. unfold Portfolio.after. cbn [Portfolio.call].
      destruct (Portfolio.positions self !! Position.symbol position) eqn:E.
      * rewrite remove_position_open by (by eexists). cbn [fmap result_fmap fst].
        unfold Portfolio.get_position_value, Portfolio.get_position.
        cbn [Portfolio._record_trade Portfolio.positions].
        rewrite update_equity_positions. cbn [Portfolio.positions].
        rewrite Hvalue. by rewrite lookup_delete_ne.
      * by rewrite remove_position_absent.
Qed.

Lemma get_position_after_add_and_remove_witness :
  Position.get_value Scenario.short_X (Position.entry_price Scenario.short_X)
  <= Portfolio.cash Scenario.held_long /\
  Portfolio.get_position
    (Portfolio.after Scenario.held_long (Portfolio.AddPosition Scenario.short_X))
    (Position.symbol Scenario.short_X)
  = Some (Position.marked_at_entry Scenario.short_X) /\
  Portfolio.get_position_value
    (Portfolio.after Scenario.held_long (Portfolio.AddPosition Scenario.short_X))
    (Position.symbol Scenario.short_X)
  = Position.size Scenario.short_X * Position.entry_price Scenario.short_X.
Proof.
  assert (Hfunds :
    Position.get_value Scenario.short_X (Position.entry_price Scenario.short_X)
    <= Portfolio.cash Scenario.held_long) by (vm_compute; discriminate).
  split; [exact Hfunds|].
  exact (proj1 (get_position_after_add_and_remove Scenario.held_long
                  Scenario.short_X 0 0) Hfunds).
Defined.

(** ** Backtester: one bar, and a whole run *)

(** The three ways the exit half of the loop body can go. *)
Lemma check_exit_cases (cfg : Backtester.config) (self : Backtester.t)
    (l : Backtester.locals) (r : Backtester.row) :
  (Backtester.position l = None /\ Backtester.check_exit cfg self l r = (self, l)) \/
  (exists s e,
      Backtester.position l = Some s /\
      (Backtester.check_exit cfg self l r
       = (Backtester.mk (Backtester.balance self)
            (Backtester.equity_curve self ++ [e]) (Backtester.trades self)
            (Backtester.last_trade_type self), l) \/
       exists x,
         Backtester.check_exit cfg self l r
         = Backtester.exit_at cfg
             (Backtester.mk (Backtester.balance self)
                (Backtester.equity_curve self ++ [e]) (Backtester.trades self)
                (Backtester.last_trade_type self)) l s x r)).
Proof.
  unfold Backtester.check_exit.
  destruct (Backtester.position l) as [s|] eqn:Hpos; [right|left; by split].
  exists s. destruct s.
  - eexists. split; [reflexivity|].
    destruct (_ || _); [right; eexists; reflexivity|left; reflexivity].
  - eexists. split; [reflexivity|].
    destruct (_ || _); [right; eexists; reflexivity|left; reflexivity].
Qed.

(** The ways the entry half can return. *)
Lemma handle_signals_cases (cfg : Backtester.config) (self : Backtester.t)
    (l l' : Backtester.locals) (r : Backtester.row) :
  Backtester.handle_signals cfg self l r = Ok l' ->
  l' = l \/
  (Backtester.position l = None /\
   exists s,
     Backtester.position l' = Some s /\
     (Backtester.allow_consecutive_trades cfg = false ->
      Backtester.last_trade_type self <> Some s)).
Proof.
  unfold Backtester.handle_signals.
  destruct (Backtester.position l) eqn:Hpos; [intros [= <-]; by left|].
  assert (Hopen : forall s,
    (Backtester.allow_consecutive_trades cfg
     || negb (Backtester.last_is self s) = true) ->
    Backtester.open_position cfg self r s = Ok l' ->
    Backtester.position l' = Some s /\
    (Backtester.allow_consecutive_trades cfg = false ->
     Backtester.last_trade_type self <> Some s)).
  { intros s Hallowed Hop. unfold Backtester.open_position in Hop.
    destruct (Backtester.calculate_position_size _ _ _ _); [|discriminate].
    cbn in Hop.
    destruct (Backtester.calculate_exit_prices _ _ _ _); [|discriminate].
    cbn in Hop. injection Hop as <-. split; [reflexivity|].
    intros Hno Hlast. rewrite Hno in Hallowed. cbn in Hallowed.
    unfold Backtester.last_is in Hallowed. rewrite Hlast in Hallowed.
    by destruct s. }
  destruct (Backtester.long_signal r && _) eqn:Hlong.
  - intros Hop. right. split; [reflexivity|]. exists Backtester.Long.
    apply andb_true_iff in Hlong as [_ Hallowed]. by apply Hopen.
  - destruct (Backtester.short_signal r && _) eqn:Hshort.
    + intros Hop. right. split; [reflexivity|]. exists Backtester.Short.
      apply andb_true_iff in Hshort as [_ Hallowed]. by apply Hopen.
    + intros [= <-]. by left.
Qed.

(** A property kept by every loop body that returns is kept by the run. *)
Lemma run_rows_invariant (cfg : Backtester.config)
    (P : Backtester.t * Backtester.locals -> Prop) :
  (forall st r st', P st -> Backtester.step cfg st r = Ok st' -> P st') ->
  forall data st st',
    P st -> Backtester.run_rows cfg st data = Ok st' -> P st'.
Proof.
  intros Hstep. induction data as [|r data IH]; intros st st' HP Hrun.
  - injection Hrun as <-. exact HP.
  - cbn in Hrun. destruct (Backtester.step cfg st r) as [st1|] eqn:E; [|discriminate].
    cbn in Hrun. eapply IH; [|exact Hrun]. eapply Hstep; eauto.
Qed.

Lemma step_inv (cfg : Backtester.config)
    (st st' : Backtester.t * Backtester.locals) (r : Backtester.row) :
  Backtester.step cfg st r = Ok st' ->
  st'.1 = (Backtester.check_exit cfg st.1 st.2 r).1 /\
  Backtester.handle_signals cfg (Backtester.check_exit cfg st.1 st.2 r).1
    (Backtester.check_exit cfg st.1 st.2 r).2 r = Ok st'.2.
Proof.
  unfold Backtester.step.
  destruct (Backtester.handle_signals _ _ _ _) eqn:E; cbn; [|discriminate].
  intros [= <-]. by split.
Qed.

Lemma py_sum_map_sub {A} (f g : A -> Q) (l : list A) :
  py_sum (map (fun x => f x - g x) l) == py_sum (map f l) - py_sum (map g l).
Proof.
  induction l as [|x l IH]; cbn [map].
  - rewrite !py_sum_nil. ring.
  - rewrite !py_sum_cons, IH. ring.
Qed.

Lemma run_balance (cfg : Backtester.config) (initial_balance : Q)
    (data : list Backtester.row) (self' : Backtester.t) :
  Backtester.run_backtest cfg (Backtester.init initial_balance) data = Ok self' ->
  Backtester.balance self'
  == initial_balance
     + py_sum (map (fun tr => Backtester.t_pnl tr - Backtester.t_commission tr)
                 (Backtester.trades self')).
Proof.
  unfold Backtester.run_backtest.
  destruct (Backtester.run_rows _ _ _) as [st'|] eqn:Hrun; [|discriminate].
  cbn. intros [= <-].
  revert Hrun.
  apply (run_rows_invariant cfg
    (fun st => Backtester.balance st.1
               == initial_balance
                  + py_sum (map (fun tr => Backtester.t_pnl tr - Backtester.t_commission tr)
                              (Backtester.trades st.1)))).
  - intros [self l] r st1 Hinv Hstep. apply step_inv in Hstep as [-> _].
    cbn [fst snd] in *.
    destruct (check_exit_cases cfg self l r)
      as [[_ ->]|(s & e & _ & [->|[x ->]])]; cbn [fst]; try exact Hinv.
    unfold Backtester.exit_at.
    cbn [fst Backtester.balance Backtester.trades].
    rewrite map_app. cbn [map]. rewrite py_sum_app.
    cbn [Backtester.t_pnl Backtester.t_commission]. rewrite Hinv. ring.
  - cbn [fst Backtester.init Backtester.balance Backtester.trades map].
    rewrite py_sum_nil. ring.
Qed.

(** X6: the balance is the initial balance plus the P&L of the recorded
    trades minus their commissions, after every run that returns; and in
    the report of such a run 'Net Profit' is 'Final Balance' minus 'Initial
    Balance'. *)
Theorem balance_accounts_for_trades :
  forall (cfg : Backtester.config) (initial_balance : Q)
         (data : list Backtester.row) (self' : Backtester.t),
    Backtester.run_backtest cfg (Backtester.init initial_balance) data = Ok self' ->
    Backtester.balance self'
    == initial_balance
       + py_sum (map Backtester.t_pnl (Backtester.trades self'))
       - py_sum (map Backtester.t_commission (Backtester.trades self')) /\
    (forall rep,
        Backtester.generate_report initial_balance self' = Some rep ->
        Backtester.rp_net_profit rep
        == Backtester.rp_final_balance rep - Backtester.rp_initial_balance rep).
Proof.
  intros cfg initial_balance data self' Hrun.
  pose proof (run_balance cfg initial_balance data self' Hrun) as Hbal.
  rewrite py_sum_map_sub in Hbal.
  split; [rewrite Hbal; ring|].
  intros rep. unfold Backtester.generate_report.
  destruct (Backtester.trades self') eqn:E; [discriminate|].
  intros [= <-]. cbn [Backtester.rp_net_profit Backtester.rp_final_balance
                      Backtester.rp_initial_balance].
  rewrite Hbal. cbn [map]. ring.
Qed.

Lemma balance_accounts_for_trades_witness :
  exists self',
    Backtester.run_backtest Scenario.bt_config (Backtester.init 10000)
      [Scenario.bt_entry_bar; Scenario.bt_wide_bar] = Ok self' /\
    Backtester.balance self'
    == 10000
       + py_sum (map Backtester.t_pnl (Backtester.trades self'))
       - py_sum (map Backtester.t_commission (Backtester.trades self')).
Proof.
  eexists. 
  assert (Hrun :
    Backtester.run_backtest Scenario.bt_config (Backtester.init 10000)
      [Scenario.bt_entry_bar; Scenario.bt_wide_bar]
    = Ok (Backtester.mk (10000 + ((100 - 2 * (3 # 2) - 100) * 1 * 100000 - 1 * 0))
            [10000 + (101 - 100) * 1 * 100000]
            [Backtester.mk_trade Backtester.Long 100 (100 - 2 * (3 # 2)) 1
               ((100 - 2 * (3 # 2) - 100) * 1 * 100000) (1 * 0) 1]
            (Some Backtester.Long))) by reflexivity.
  split; [exact Hrun|].
  exact (proj1 (balance_accounts_for_trades Scenario.bt_config 10000 _ _ Hrun)).
Defined.

Lemma alternating_snoc (ts : list Backtester.trade) (x : Backtester.trade) :
  Backtester.alternating ts ->
  (forall a, last ts = Some a -> Backtester.t_type a <> Backtester.t_type x) ->
  Backtester.alternating (ts ++ [x]).
Proof.
  induction ts as [|a ts IH]; intros Halt Hlast; [cbn; auto|].
  destruct Halt as [Hab Halt]. destruct ts as [|b ts].
  - cbn. split; [|auto]. by apply Hlast.
  - split; [exact Hab|]. apply IH; [exact Halt|].
    intros c Hc. apply Hlast. exact Hc.
Qed.

(** The facts that a run keeps when consecutive trades are not allowed. *)
Lemma no_consecutive_step (cfg : Backtester.config)
    (st st' : Backtester.t * Backtester.locals) (r : Backtester.row) :
  Backtester.allow_consecutive_trades cfg = false ->
  (Backtester.last_trade_type st.1
   = Backtester.t_type <$> last (Backtester.trades st.1) /\
   Backtester.alternating (Backtester.trades st.1) /\
   (forall s, Backtester.position st.2 = Some s ->
              Backtester.last_trade_type st.1 <> Some s)) ->
  Backtester.step cfg st r = Ok st' ->
  Backtester.last_trade_type st'.1
  = Backtester.t_type <$> last (Backtester.trades st'.1) /\
  Backtester.alternating (Backtester.trades st'.1) /\
  (forall s, Backtester.position st'.2 = Some s ->
             Backtester.last_trade_type st'.1 <> Some s).
Proof.
  intros Hno (Hlast & Halt & Hheld) Hstep.
  destruct st as [self l]. cbn [fst snd] in *.
  apply step_inv in Hstep as [-> Hsig]. cbn [fst snd] in Hsig.
  destruct st' as [self' l']. cbn [fst snd] in *.
  assert (Hmid :
    let out := Backtester.check_exit cfg self l r in
    Backtester.last_trade_type out.1
    = Backtester.t_type <$> last (Backtester.trades out.1) /\
    Backtester.alternating (Backtester.trades out.1) /\
    (forall s, Backtester.position out.2 = Some s ->
               Backtester.last_trade_type out.1 <> Some s)).
  { destruct (check_exit_cases cfg self l r)
      as [[_ ->]|(s & e & Hpos & [->|[x ->]])]; cbn [fst snd].
    - by repeat split.
    - by repeat split.
    - unfold Backtester.exit_at.
      cbn [fst snd Backtester.last_trade_type Backtester.trades Backtester.position].
      rewrite last_snoc. split; [reflexivity|]. split; [|discriminate].
      apply alternating_snoc; [exact Halt|].
      intros a Ha Heq. cbn [Backtester.t_type] in Heq.
      apply (Hheld s Hpos). rewrite Hlast, Ha. cbn. by rewrite Heq. }
  cbn zeta in Hmid. destruct Hmid as (Hlast' & Halt' & Hheld').
  split; [exact Hlast'|]. split; [exact Halt'|].
  apply handle_signals_cases in Hsig as [->|(_ & s & Hs & Hallowed)].
  - exact Hheld'.
  - intros s' Hs'. rewrite Hs in Hs'. injection Hs' as <-. by apply Hallowed.
Qed.

(** X7: with [allow_consecutive_trades] off, the trades of a run alternate:
    no trade is of the same side as the trade recorded just before it. *)
Theorem trades_alternate :
  forall (cfg : Backtester.config) (initial_balance : Q)
         (data : list Backtester.row) (self' : Backtester.t),
    Backtester.allow_consecutive_trades cfg = false ->
    Backtester.run_backtest cfg (Backtester.init initial_balance) data = Ok self' ->
    Backtester.alternating (Backtester.trades self').
Proof.
  intros cfg initial_balance data self' Hno.
  unfold Backtester.run_backtest.
  destruct (Backtester.run_rows _ _ _) as [st'|] eqn:Hrun; [|discriminate].
  cbn. intros [= <-].
  enough (Hinv :
    Backtester.last_trade_type st'.1
    = Backtester.t_type <$> last (Backtester.trades st'.1) /\
    Backtester.alternating (Backtester.trades st'.1) /\
    (forall s, Backtester.position st'.2 = Some s ->
               Backtester.last_trade_type st'.1 <> Some s))
    by (by destruct Hinv as (_ & ? & _)).
  revert Hrun.
  apply (run_rows_invariant cfg
    (fun st =>
       Backtester.last_trade_type st.1
       = Backtester.t_type <$> last (Backtester.trades st.1) /\
       Backtester.alternating (Backtester.trades st.1) /\
       (forall s, Backtester.position st.2 = Some s ->
                  Backtester.last_trade_type st.1 <> Some s))).
  - intros st r st1 Hinv Hstep. by eapply no_consecutive_step.
  - cbn. repeat split; discriminate.
Qed.

Lemma trades_alternate_witness :
  Backtester.allow_consecutive_trades Scenario.bt_config = false /\
  exists self',
    Backtester.run_backtest Scenario.bt_config (Backtester.init 10000)
      Examples.bt_three_trades = Ok self' /\
    map Backtester.t_type (Backtester.trades self')
    = [Backtester.Long; Backtester.Short; Backtester.Long] /\
    Backtester.alternating (Backtester.trades self').
Proof.
  assert (Hno : Backtester.allow_consecutive_trades Scenario.bt_config = false)
    by reflexivity.
  split; [exact Hno|].
  assert (Hsides :
    (map Backtester.t_type ∘ Backtester.trades)
      <$> Backtester.run_backtest Scenario.bt_config (Backtester.init 10000)
            Examples.bt_three_trades
    = Ok [Backtester.Long; Backtester.Short; Backtester.Long]) by reflexivity.
  destruct (Backtester.run_backtest Scenario.bt_config (Backtester.init 10000)
              Examples.bt_three_trades) as [self'|e] eqn:Hrun; [|discriminate].
  exists self'. split; [reflexivity|].
  split; [by injection Hsides|].
  exact (trades_alternate Scenario.bt_config 10000 _ _ Hno Hrun).
Defined.

(** X8: a bar that does not reach the stop-loss level.  If it reaches the
    take-profit level the position is closed at the take-profit price; if
    it reaches neither level the position stays open, no trade is recorded,
    the balance is unchanged and the only effect is the equity sample:
    balance plus the directional P&L at the close of the bar, times
    100000. *)
Theorem take_profit_or_hold :
  forall (cfg : Backtester.config) (self : Backtester.t)
         (l : Backtester.locals) (r : Backtester.row) (s : Backtester.side),
    Backtester.position l = Some s ->
    match s with
    | Backtester.Long => Backtester.stop_loss l < Backtester.low r
    | Backtester.Short => Backtester.high r < Backtester.stop_loss l
    end ->
    let reached :=
      match s with
      | Backtester.Long => Backtester.take_profit l <= Backtester.high r
      | Backtester.Short => Backtester.low r <= Backtester.take_profit l
      end in
    let sample :=
      Backtester.balance self
      + match s with
        | Backtester.Long =>
            (Backtester.close r - Backtester.entry_price l)
            * Backtester.volume l * 100000
        | Backtester.Short =>
            (Backtester.entry_price l - Backtester.close r)
            * Backtester.volume l * 100000
        end in
    let out := Backtester.check_exit cfg self l r in
    Backtester.equity_curve out.1 = Backtester.equity_curve self ++ [sample] /\
    (reached ->
     exists tr,
       Backtester.trades out.1 = Backtester.trades self ++ [tr] /\
       Backtester.t_exit tr = Backtester.take_profit l /\
       Backtester.t_type tr = s /\
       Backtester.position out.2 = None) /\
    (~ reached ->
     Backtester.trades out.1 = Backtester.trades self /\
     Backtester.balance out.1 = Backtester.balance self /\
     out.2 = l).
Proof.
  intros cfg self l r s Hpos Hstop reached sample out.
  subst out reached sample. unfold Backtester.check_exit. rewrite Hpos.
  destruct s.
  - assert (Qle_bool (Backtester.low r) (Backtester.stop_loss l) = false) as ->.
    { destruct (Qle_bool _ _) eqn:E; [|reflexivity]. apply Qle_bool_iff in E. lra. }
    cbn [orb]. destruct (Qgeb _ _) eqn:E.
    + cbn. split; [reflexivity|]. split; [|intros Hn; apply Qgeb_ge in E; tauto].
      intros _. eexists. repeat split.
    + cbn. split; [reflexivity|]. split; [|by intros _].
      intros Hr. apply Qgeb_ge in Hr. congruence.
  - assert (Qgeb (Backtester.high r) (Backtester.stop_loss l) = false) as ->.
    { destruct (Qgeb _ _) eqn:E; [|reflexivity]. apply Qgeb_ge in E. lra. }
    cbn [orb]. destruct (Qle_bool _ _) eqn:E.
    + cbn. split; [reflexivity|]. split; [|intros Hn; apply Qle_bool_iff in E; tauto].
      intros _. eexists. repeat split.
    + cbn. split; [reflexivity|]. split; [|by intros _].
      intros Hr. apply Qle_bool_iff in Hr. congruence.
Qed.

Lemma take_profit_or_hold_witness :
  Backtester.position Scenario.bt_entered_locals = Some Backtester.Long /\
  Backtester.stop_loss Scenario.bt_entered_locals
  < Backtester.low (Backtester.mk_row 1 101 105 98 2 false false) /\
  Backtester.take_profit Scenario.bt_entered_locals
  <= Backtester.high (Backtester.mk_row 1 101 105 98 2 false false) /\
  exists tr,
    Backtester.trades
      (Backtester.check_exit Scenario.bt_config Scenario.bt_entered
         Scenario.bt_entered_locals
         (Backtester.mk_row 1 101 105 98 2 false false)).1
    = Backtester.trades Scenario.bt_entered ++ [tr] /\
    Backtester.t_exit tr = Backtester.take_profit Scenario.bt_entered_locals /\
    Backtester.t_type tr = Backtester.Long /\
    Backtester.position
      (Backtester.check_exit Scenario.bt_config Scenario.bt_entered
         Scenario.bt_entered_locals
         (Backtester.mk_row 1 101 105 98 2 false false)).2 = None.
Proof.
  assert (Hpos : Backtester.position Scenario.bt_entered_locals
                 = Some Backtester.Long) by reflexivity.
  assert (Hstop : Backtester.stop_loss Scenario.bt_entered_locals
                  < Backtester.low (Backtester.mk_row 1 101 105 98 2 false false))
    by reflexivity.
  assert (Hreach : Backtester.take_profit Scenario.bt_entered_locals
                   <= Backtester.high (Backtester.mk_row 1 101 105 98 2 false false))
    by (vm_compute; discriminate).
  split; [exact Hpos|]. split; [exact Hstop|]. split; [exact Hreach|].
  exact (proj1 (proj2 (take_profit_or_hold Scenario.bt_config Scenario.bt_entered
                         Scenario.bt_entered_locals
                         (Backtester.mk_row 1 101 105 98 2 false false)
                         Backtester.Long Hpos Hstop)) Hreach).
Defined.

(** X9: the exit levels bracket the entry.  With both rules of type
    'fixed' and a non-negative ATR and multipliers, [calculate_exit_prices]
    returns a stop-loss at or below the entry and a take-profit at or above
    it for a long, and the reverse for a short; when the stop-loss rule is
    of another type it raises UnboundLocalError for both sides. *)
Theorem exit_levels_bracket_entry :
  forall (cfg : Backtester.config) (entry_price atr : Q) (s : Backtester.side),
    (Backtester.sl_type cfg = "fixed" ->
     Backtester.tp_type cfg = "fixed" ->
     0 <= atr -> 0 <= Backtester.sl_value cfg -> 0 <= Backtester.tp_value cfg ->
     exists stop_loss take_profit,
       Backtester.calculate_exit_prices cfg entry_price atr s
       = Ok (stop_loss, take_profit) /\
       match s with
       | Backtester.Long => stop_loss <= entry_price /\ entry_price <= take_profit
       | Backtester.Short => take_profit <= entry_price /\ entry_price <= stop_loss
       end) /\
    (Backtester.sl_type cfg <> "fixed" ->
     Backtester.calculate_exit_prices cfg entry_price atr s
     = Raise (Exn "UnboundLocalError" "stop_loss")).
Proof.
  intros cfg entry_price atr s. split.
  - intros Hsl Htp Hatr Hs Ht. unfold Backtester.calculate_exit_prices.
    rewrite Hsl, Htp. cbn [String.eqb Ascii.eqb Bool.eqb].
    eexists _, _. split; [reflexivity|].
    assert (0 <= atr * Backtester.sl_value cfg) by (apply Qmult_le_0_compat; lra).
    assert (0 <= atr * Backtester.tp_value cfg) by (apply Qmult_le_0_compat; lra).
    destruct s; split; lra.
  - intros Hsl. unfold Backtester.calculate_exit_prices.
    destruct (String.eqb (Backtester.sl_type cfg) "fixed") eqn:E.
    + apply String.eqb_eq in E. contradiction.
    + reflexivity.
Qed.

Lemma exit_levels_bracket_entry_witness :
  Backtester.sl_type Scenario.bt_config = "fixed" /\
  Backtester.tp_type Scenario.bt_config = "fixed" /\
  exists stop_loss take_profit,
    Backtester.calculate_exit_prices Scenario.bt_config 100 2 Backtester.Short
    = Ok (stop_loss, take_profit) /\
    take_profit <= 100 /\ 100 <= stop_loss.
Proof.
  assert (H1 : Backtester.sl_type Scenario.bt_config = "fixed") by reflexivity.
  assert (H2 : Backtester.tp_type Scenario.bt_config = "fixed") by reflexivity.
  assert (H3 : 0 <= 2) by discriminate.
  assert (H4 : 0 <= Backtester.sl_value Scenario.bt_config) by discriminate.
  assert (H5 : 0 <= Backtester.tp_value Scenario.bt_config) by discriminate.
  split; [exact H1|]. split; [exact H2|].
  exact (proj1 (exit_levels_bracket_entry Scenario.bt_config 100 2 Backtester.Short)
           H1 H2 H3 H4 H5).
Defined.



(** X11: with fixed position sizing and both exit rules of type 'fixed',
    [run_backtest] returns on every data frame that has the columns the loop
    reads (close, high, low, ATR, long_signal, short_signal), under a
    configuration that has the keys of [Backtester.config]: neither the
    division of the risk-based sizing nor the unbound exit levels of
    [calculate_exit_prices] can be reached. *)
Theorem run_backtest_fixed_never_raises :
  forall (cfg : Backtester.config) (self : Backtester.t)
         (data : list Backtester.row),
    Backtester.sizing_type cfg = "fixed" ->
    Backtester.sl_type cfg = "fixed" ->
    Backtester.tp_type cfg = "fixed" ->
    exists self', Backtester.run_backtest cfg self data = Ok self'.
Proof.
  intros cfg self data Hsz Hsl Htp.
  unfold Backtester.run_backtest.
  enough (Hgen : forall data st, exists st', Backtester.run_rows cfg st data = Ok st').
  { destruct (Hgen data (self, Backtester.locals0)) as [st' ->]. by eexists. }
  clear self data.
  assert (Hopen : forall self r s, exists l',
             Backtester.open_position cfg self r s = Ok l').
  { intros self r s. unfold Backtester.open_position,
      Backtester.calculate_position_size, Backtester.calculate_exit_prices.
    rewrite Hsz, Hsl, Htp. cbn. by eexists. }
  induction data as [|r data IH]; intros st; [by eexists|].
  cbn [Backtester.run_rows]. unfold Backtester.step.
  assert (Hsig : exists l2,
    Backtester.handle_signals cfg (Backtester.check_exit cfg st.1 st.2 r).1
      (Backtester.check_exit cfg st.1 st.2 r).2 r = Ok l2).
  { unfold Backtester.handle_signals.
    destruct (Backtester.position _); [by eexists|].
    destruct (_ && _); [apply Hopen|].
    destruct (_ && _); [apply Hopen|by eexists]. }
  destruct Hsig as [l2 ->]. cbn. apply IH.
Qed.

Lemma run_backtest_fixed_never_raises_witness :
  Backtester.sizing_type Scenario.bt_config = "fixed" /\
  Backtester.sl_type Scenario.bt_config = "fixed" /\
  Backtester.tp_type Scenario.bt_config = "fixed" /\
  exists self',
    Backtester.run_backtest Scenario.bt_config (Backtester.init 10000)
      [Scenario.bt_entry_bar; Scenario.bt_wide_bar] = Ok self'.
Proof.
  assert (H1 : Backtester.sizing_type Scenario.bt_config = "fixed") by reflexivity.
  assert (H2 : Backtester.sl_type Scenario.bt_config = "fixed") by reflexivity.
  assert (H3 : Backtester.tp_type Scenario.bt_config = "fixed") by reflexivity.
  split; [exact H1|]. split; [exact H2|]. split; [exact H3|].
  exact (run_backtest_fixed_never_raises Scenario.bt_config (Backtester.init 10000)
           [Scenario.bt_entry_bar; Scenario.bt_wide_bar] H1 H2 H3).
Defined.

Lemma np_div_nonzero_den (a b : Q) : ~ b == 0 -> np_div a b = Fin (a / b).
Proof.
  intros Hb. unfold np_div.
  destruct (Qeq_bool b 0) eqn:E; [|reflexivity].
  apply Qeq_bool_iff in E. contradiction.
Qed.

Lemma losers_all_negative (ts : list Backtester.trade) :
  Forall (fun x => x < 0) (map Backtester.t_pnl (Backtester.losers ts)).
Proof.
  unfold Backtester.losers.
  induction ts as [|tr ts IH]; [constructor|].
  rewrite filter_cons. destruct (decide _) as [Hneg|_]; [|exact IH].
  cbn [map]. constructor; [|exact IH]. by apply Qltb_lt.
Qed.

Lemma ratio_of_counts (w n : nat) :
  (w <= n)%nat -> (0 < n)%nat ->
  0 <= inject_Z (Z.of_nat w) / inject_Z (Z.of_nat n) * 100 <= 100.
Proof.
  intros Hw Hn.
  assert (H0 : 0 <= inject_Z (Z.of_nat w)).
  { change 0 with (inject_Z 0). rewrite <- Zle_Qle. lia. }
  assert (H1 : inject_Z (Z.of_nat w) <= inject_Z (Z.of_nat n)).
  { rewrite <- Zle_Qle. lia. }
  assert (H2 : 0 < inject_Z (Z.of_nat n)).
  { change 0 with (inject_Z 0). rewrite <- Zlt_Qlt. lia. }
  assert (H3 : 0 <= inject_Z (Z.of_nat w) / inject_Z (Z.of_nat n)).
  { apply Qle_shift_div_l; [exact H2|]. lra. }
  assert (H4 : inject_Z (Z.of_nat w) / inject_Z (Z.of_nat n) <= 1).
  { apply Qle_shift_div_r; [exact H2|]. lra. }
  split; lra.
Qed.

(** X12: the report of the backtester.  There is no report without a trade;
    otherwise the win rate is a percentage between 0 and 100, and the profit
    factor is +infinity when no trade lost and a finite non-negative number
    when one did, so it is never NaN, also when no trade won or lost. *)
Theorem report_win_rate_and_profit_factor :
  forall (initial_balance : Q) (self : Backtester.t),
    (Backtester.trades self = [] ->
     Backtester.generate_report initial_balance self = None) /\
    (Backtester.trades self <> [] ->
     exists rep,
       Backtester.generate_report initial_balance self = Some rep /\
       Backtester.rp_number_of_trades rep = length (Backtester.trades self) /\
       0 <= Backtester.rp_win_rate rep <= 100 /\
       (Backtester.losers (Backtester.trades self) = [] ->
        Backtester.rp_profit_factor rep = PInf) /\
       (Backtester.losers (Backtester.trades self) <> [] ->
        exists q, Backtester.rp_profit_factor rep = Fin q /\ 0 <= q)).
Proof.
  intros initial_balance self. unfold Backtester.generate_report. split.
  - by intros ->.
  - intros Hne. destruct (Backtester.trades self) as [|tr ts] eqn:E; [congruence|].
    eexists. split; [reflexivity|].
    cbn [Backtester.rp_number_of_trades Backtester.rp_win_rate
         Backtester.rp_profit_factor].
    split; [reflexivity|]. split.
    + apply ratio_of_counts; [|cbn; lia].
      unfold Backtester.winners. apply length_filter.
    + split.
      * by intros ->.
      * intros Hlose.
        destruct (Backtester.losers (tr :: ts)) as [|x xs] eqn:El; [congruence|].
        cbn [length Nat.ltb Nat.leb].
        pose proof (losers_all_negative (tr :: ts)) as Hneg. rewrite El in Hneg.
        destruct (sum_abs_of_losses _ Hneg) as (_ & _ & Hlt).
        assert (Hsum : py_sum (map Backtester.t_pnl (x :: xs)) < 0)
          by (apply Hlt; discriminate).
        rewrite np_div_nonzero_den by lra.
        eexists. split; [reflexivity|]. apply Qabs_nonneg.
Qed.

Lemma report_win_rate_and_profit_factor_witness :
  Backtester.trades
    (Backtester.mk 9000 [10000]
       [Backtester.mk_trade Backtester.Long 100 100 1 0 0 1] (Some Backtester.Long))
  <> [] /\
  exists rep,
    Backtester.generate_report 10000
      (Backtester.mk 9000 [10000]
         [Backtester.mk_trade Backtester.Long 100 100 1 0 0 1] (Some Backtester.Long))
    = Some rep /\
    Backtester.rp_profit_factor rep = PInf.
Proof.
  assert (Hne :
    Backtester.trades
      (Backtester.mk 9000 [10000]
         [Backtester.mk_trade Backtester.Long 100 100 1 0 0 1] (Some Backtester.Long))
    <> []) by discriminate.
  split; [exact Hne|].
  destruct (proj2 (report_win_rate_and_profit_factor 10000 _) Hne)
    as (rep & Hrep & _ & _ & Hinf & _).
  exists rep. split; [exact Hrep|]. apply Hinf. reflexivity.
Defined.

(** ** PerformanceAnalyzer: counts and sums of the report *)

Lemma count_winners_losers (trades : list Performance.record) :
  (Performance.count (fun r => Performance.is_close r && Performance.pnl_pos r) trades
   + Performance.count (fun r => Performance.is_close r && Performance.pnl_neg r) trades
   <= Performance.count Performance.is_close trades)%nat.
Proof.
  unfold Performance.count.
  induction trades as [|r trades IH]; [cbn; lia|].
  rewrite !filter_cons.
  assert (Hexcl : Performance.pnl_pos r = true -> Performance.pnl_neg r = true -> False).
  { unfold Performance.pnl_pos, Performance.pnl_neg.
    destruct (Performance.pnl r) as [v|]; [|discriminate].
    intros Hp Hn. apply Qltb_lt in Hp, Hn. lra. }
  destruct (Performance.is_close r), (Performance.pnl_pos r), (Performance.pnl_neg r);
    repeat (destruct (decide _); try discriminate; try congruence);
    cbn [length andb] in *; try lia; exfalso; auto.
Qed.

(** X13: the counts of the analyzer's report.  For a history in which the
    'close' rows, if any, come with an 'open' row and in which some row
    records a P&L, there is a report; winning and losing trades together
    are at most the closed trades, the win rate lies between 0 and 1, and
    it is 0 when no trade was closed. *)
Theorem win_rate_is_a_fraction :
  forall (trades : list Performance.record) (final_equity : Q),
    (Exists (fun r => Performance.is_close r = true) trades ->
     Exists (fun r => Performance.is_open r = true) trades) ->
    forallb Performance.pnl_missing trades = false ->
    exists m,
      Performance.calculate trades final_equity = Ok (Some m) /\
      (Performance.winning_trades m + Performance.losing_trades m
       <= Performance.total_trades m)%nat /\
      0 <= Performance.win_rate m <= 1 /\
      (Performance.total_trades m = 0%nat -> Performance.win_rate m = 0).
Proof.
  intros trades final_equity Hopen Hpnl.
  destruct (calculate_reports_profit_factor trades final_equity Hopen Hpnl)
    as (m & Hm & _ & Htot & Hwin & Hlose & Hrate & _).
  exists m. split; [exact Hm|].
  rewrite Htot, Hwin, Hlose, Hrate.
  pose proof (count_winners_losers trades) as Hcount.
  split; [exact Hcount|]. split.
  - destruct (0 <? _)%nat eqn:E; [|split; discriminate].
    apply Nat.ltb_lt in E.
    pose proof (ratio_of_counts _ _ (Nat.le_trans _ _ _ (Nat.le_add_r _ _) Hcount) E)
      as [Hlo Hhi].
    split; lra.
  - intros ->. reflexivity.
Qed.

Lemma win_rate_is_a_fraction_witness :
  exists m,
    Performance.calculate Scenario.mixed_history 1005 = Ok (Some m) /\
    (Performance.winning_trades m + Performance.losing_trades m
     <= Performance.total_trades m)%nat /\
    0 <= Performance.win_rate m <= 1 /\
    (Performance.total_trades m = 0%nat -> Performance.win_rate m = 0).
Proof.
  apply (win_rate_is_a_fraction Scenario.mixed_history 1005).
  - intros _. left. reflexivity.
  - reflexivity.
Defined.

Lemma profits_plus_losses (trades : list Performance.record) :
  py_sum (Performance.pnl_where Performance.pnl_pos trades)
  + py_sum (Performance.pnl_where Performance.pnl_neg trades)
  == py_sum (omap Performance.pnl trades).
Proof.
  unfold Performance.pnl_where.
  induction trades as [|r trades IH]; [cbn; rewrite !py_sum_nil; ring|].
  cbn [omap list_omap]. unfold Performance.pnl_pos at 1, Performance.pnl_neg at 1.
  destruct (Performance.pnl r) as [v|]; [|exact IH].
  destruct (Qltb 0 v) eqn:Ep, (Qltb v 0) eqn:En;
    rewrite ?py_sum_cons; rewrite <- IH.
  - apply Qltb_lt in Ep, En. lra.
  - ring.
  - ring.
  - apply Qltb_ge in Ep, En. assert (v == 0) as -> by lra. ring.
Qed.

(** X14: the sums of the analyzer's report.  For a history in which the
    'close' rows, if any, come with an 'open' row and in which some row
    records a P&L, there is a report; its gross profit and gross loss are
    non-negative, and its net profit is the sum of every P&L recorded in the
    history, whatever the action of the row that carries it. *)
Theorem net_profit_is_total_pnl :
  forall (trades : list Performance.record) (final_equity : Q),
    (Exists (fun r => Performance.is_close r = true) trades ->
     Exists (fun r => Performance.is_open r = true) trades) ->
    forallb Performance.pnl_missing trades = false ->
    exists m,
      Performance.calculate trades final_equity = Ok (Some m) /\
      0 <= Performance.gross_profit m /\
      0 <= Performance.gross_loss m /\
      Performance.net_profit m == py_sum (omap Performance.pnl trades).
Proof.
  intros trades final_equity Hopen Hpnl.
  destruct (calculate_reports_profit_factor trades final_equity Hopen Hpnl)
    as (m & Hm & _ & _ & _ & _ & _ & Hgp & Hgl & Hnet).
  exists m. split; [exact Hm|].
  rewrite Hgp, Hgl, Hnet.
  split.
  { apply py_sum_nonneg. eapply Forall_impl; [apply pnl_where_pos_all|].
    cbn. intros. lra. }
  split; [apply Qabs_nonneg|].
  destruct (sum_abs_of_losses _ (pnl_where_neg_all trades)) as (_ & Hle & _).
  rewrite (Qabs_neg _ Hle), <- profits_plus_losses. ring.
Qed.

Lemma net_profit_is_total_pnl_witness :
  exists m,
    Performance.calculate Scenario.mixed_history 1005 = Ok (Some m) /\
    0 <= Performance.gross_profit m /\
    0 <= Performance.gross_loss m /\
    Performance.net_profit m == py_sum (omap Performance.pnl Scenario.mixed_history).
Proof.
  apply (net_profit_is_total_pnl Scenario.mixed_history 1005).
  - intros _. left. reflexivity.
  - reflexivity.
Defined.

Lemma trade_durations_no_open (rows : list Performance.record) :
  Exists (fun r => Performance.is_close r = true) rows ->
  Performance.trade_durations [] rows
  = Raise (Exn "IndexError" "single positional indexer is out-of-bounds").
Proof.
  induction 1 as [r rows Hr|r rows _ IH]; cbn [Performance.trade_durations].
  - by rewrite Hr.
  - rewrite IH. by destruct (Performance.is_close r).
Qed.

(** X30: when the analyzer does not report.  An empty history gives the
    empty dict.  A history with a 'close' row and no 'open' row raises
    IndexError, from the average trade duration.  A history that passes
    this and in which no row records a P&L, as the history of a run that has
    only opened positions, raises ZeroDivisionError, from the profit
    factor. *)
Theorem analyzer_raises_without_open_row_or_pnl :
  forall (trades : list Performance.record) (final_equity : Q),
    (trades = [] -> Performance.calculate trades final_equity = Ok None) /\
    (Exists (fun r => Performance.is_close r = true) trades ->
     ~ Exists (fun r => Performance.is_open r = true) trades ->
     Performance.calculate trades final_equity
     = Raise (Exn "IndexError" "single positional indexer is out-of-bounds")) /\
    (trades <> [] ->
     (Exists (fun r => Performance.is_close r = true) trades ->
      Exists (fun r => Performance.is_open r = true) trades) ->
     forallb Performance.pnl_missing trades = true ->
     Performance.calculate trades final_equity
     = Raise (Exn "ZeroDivisionError" "division by zero")).
Proof.
  intros trades final_equity. split; [by intros ->|]. split.
  - intros Hclose Hopen.
    assert (Hnil : filter (fun r => Performance.is_open r = true) trades = []).
    { destruct (filter _ trades) as [|o l] eqn:E; [reflexivity|].
      exfalso. apply Hopen. apply Exists_exists. exists o.
      assert (Ho : o ∈ filter (fun r => Performance.is_open r = true) trades)
        by (rewrite E; left).
      apply list_elem_of_filter in Ho as [Ho Hin]. by split. }
    destruct trades as [|r trades]; [by apply Exists_nil in Hclose|].
    unfold Performance.calculate, Performance._calculate_avg_trade_duration.
    rewrite Hnil, (trade_durations_no_open _ Hclose). reflexivity.
  - intros Hne Hopen Hpnl.
    destruct (avg_trade_duration_ok trades Hopen) as [d Hd].
    destruct trades as [|r trades]; [congruence|].
    unfold Performance.calculate. rewrite Hd. cbn [mbind result_bind].
    unfold Performance._calculate_profit_factor. rewrite Hpnl. reflexivity.
Qed.

Lemma analyzer_raises_without_open_row_or_pnl_witness :
  Performance.calculate
    [Performance.mk_record 0 "X" "long" "close" (Some 110) 1 (Some 10) 1010] 1010
  = Raise (Exn "IndexError" "single positional indexer is out-of-bounds") /\
  Performance.calculate
    [Performance.mk_record 0 "X" "long" "open" (Some 100) 1 None 900] 900
  = Raise (Exn "ZeroDivisionError" "division by zero").
Proof.
  split.
  - apply (proj1 (proj2 (analyzer_raises_without_open_row_or_pnl
                           [Performance.mk_record 0 "X" "long" "close" (Some 110) 1
                              (Some 10) 1010] 1010))).
    + left. reflexivity.
    + intros H. apply Exists_cons in H as [H|H]; [discriminate|].
      by apply Exists_nil in H.
  - apply (proj2 (proj2 (analyzer_raises_without_open_row_or_pnl
                           [Performance.mk_record 0 "X" "long" "open" (Some 100) 1
                              None 900] 900))).
    + discriminate.
    + intros _. left. reflexivity.
    + reflexivity.
Defined.

(** ** Trading costs *)

(** X15: the total cost of a configuration.  Each configured component
    contributes its own term: the commission [value * rate], the spread
    [points * point value] (only when both keys are given, and whatever the
    trade value), the slippage [value * pips / 10000]; a key that is
    missing contributes nothing, so the empty configuration costs 0. *)
Theorem total_cost_of_configuration :
  forall (config : gmap string Q) (trade_value : Q),
    Costs.calculate_total_cost (Costs._initialize_costs config) trade_value
    == match config !! "commission_rate" with
       | Some rate => trade_value * rate
       | None => 0
       end
       + match config !! "spread_points", config !! "point_value" with
         | Some points, Some value => points * value
         | _, _ => 0
         end
       + match config !! "slippage_pips" with
         | Some pips => trade_value * (pips / 10000)
         | None => 0
         end.
Proof.
  intros config trade_value.
  unfold Costs.calculate_total_cost, Costs._initialize_costs.
  destruct (config !! "commission_rate"), (config !! "spread_points"),
    (config !! "point_value"), (config !! "slippage_pips");
    cbn [app map Costs.calculate]; rewrite ?py_sum_cons, ?py_sum_nil; ring.
Qed.

(** ** Engine: one signal, one bar, one run *)

Lemma py_min_le (a b : Q) : Engine.py_min a b <= a.
Proof.
  unfold Engine.py_min. destruct (Qltb b a) eqn:E; [|lra].
  apply Qltb_lt in E. lra.
Qed.

(** What a call of [process_signals] that returns has done. *)
Lemma process_signals_cases (self self' : Engine.t) (s : Engine.signals) (ts : Z) :
  Engine.process_signals self s ts = Ok self' ->
  self' = self \/
  exists price volume size symbol direction,
    Engine.s_price s = Some price /\ Engine.s_volume s = Some volume /\
    Engine.s_symbol s = Some symbol /\ Engine.s_direction s = Some direction /\
    0 < size /\ size <= volume /\
    inject_Z (Z.of_nat (length (Engine.positions self)))
    < get_default (Engine.risk_management (Engine.cfg self)) "max_open_trades" 5 /\
    price * size + Engine._calculate_trading_costs self (price * size)
    <= Portfolio.cash (Engine.portfolio self) /\
    Engine.cfg self' = Engine.cfg self /\
    Engine.cost_manager self' = Engine.cost_manager self /\
    Engine.positions self'
    = Engine.positions self
      ++ [(Engine.next_id self,
           Position.marked_at_entry (Position.init symbol direction price size ts))] /\
    Portfolio.cash (Engine.portfolio self')
    = Portfolio.cash (Engine.portfolio self) - size * price /\
    exists rec,
      Engine.history self' = Engine.history self ++ [rec] /\
      Performance.action rec = "open" /\
      Performance.price rec = Some price /\
      Performance.size rec = size /\
      Performance.pnl rec = None.
Proof.
  unfold Engine.process_signals.
  destruct (Engine.truthy s); cbn [negb]; [|intros [= <-]; by left].
  unfold Engine._can_open_position.
  destruct (Engine.s_price s) as [price|] eqn:Hp; cbn; [|discriminate].
  destruct (Engine.s_volume s) as [volume|] eqn:Hv; cbn; [|discriminate].
  destruct (Portfolio.has_sufficient_funds _ _); cbn; [|intros [= <-]; by left].
  destruct (Qgeb _ _) eqn:Hcap; cbn; [intros [= <-]; by left|].
  unfold Engine._calculate_position_size.
  destruct (getitem _ "risk_percentage") as [rp|]; cbn; [|discriminate].
  rewrite Hv, Hp. cbn.
  destruct (getitem _ "stop_loss_multiplier") as [slm|]; cbn; [|discriminate].
  destruct (Qeq_bool _ _); cbn; [discriminate|].
  set (size := Engine.py_min volume _).
  destruct (Qle_bool size 0) eqn:Hsize; [intros [= <-]; by left|].
  destruct (Portfolio.has_sufficient_funds _ _) eqn:Hfunds; cbn;
    [|intros [= <-]; by left].
  destruct (Engine.s_symbol s) as [symbol|] eqn:Hsym; cbn; [|discriminate].
  destruct (Engine.s_direction s) as [direction|] eqn:Hdir; cbn; [|discriminate].
  destruct (Portfolio.add_position _ _) as [added|] eqn:Hadd; cbn; [|discriminate].
  intros [= <-]. right.
  unfold Portfolio.add_position in Hadd.
  destruct (negb _); [discriminate|]. injection Hadd as <-.
  exists price, volume, size, symbol, direction.
  split; [reflexivity|]. split; [reflexivity|]. split; [reflexivity|].
  split; [reflexivity|].
  split. { apply Qnot_le_lt. intros Hle. apply Qle_bool_iff in Hle. congruence. }
  split; [apply py_min_le|].
  split. { apply Qnot_le_lt. intros Hle. apply Qgeb_ge in Hle. congruence. }
  split. { by apply Qgeb_ge in Hfunds. }
  cbn [Engine._record_trade Engine.cfg Engine.cost_manager Engine.positions
       Engine.portfolio Engine.history fst snd].
  split; [reflexivity|]. split; [reflexivity|].
  unfold Portfolio.stored. rewrite update_equity_positions.
  cbn [Portfolio.positions Position.symbol Position.init].
  rewrite lookup_fmap, lookup_insert_eq. cbn [fmap option_fmap option_map default from_option].
  split; [reflexivity|]. split; [reflexivity|].
  eexists. split; [reflexivity|]. repeat split.
Qed.

(** X16: what a signal does.  A call of [process_signals] that returns has
    either left the engine as it was, or opened exactly one position of a
    positive size no larger than the signalled volume: one object more in
    [positions], one 'open' record more in [history], and cash debited by
    [size * price] only.  The trading costs are covered by the cash that is
    left, but they are not deducted from it. *)
Theorem signal_opens_at_most_one_position :
  forall (self self' : Engine.t) (s : Engine.signals) (timestamp : Z),
    Engine.process_signals self s timestamp = Ok self' ->
    self' = self \/
    exists price volume size rec,
      Engine.s_price s = Some price /\ Engine.s_volume s = Some volume /\
      0 < size /\ size <= volume /\
      length (Engine.positions self') = S (length (Engine.positions self)) /\
      Engine.history self' = Engine.history self ++ [rec] /\
      Performance.action rec = "open" /\
      Performance.price rec = Some price /\
      Performance.size rec = size /\
      Portfolio.cash (Engine.portfolio self')
      = Portfolio.cash (Engine.portfolio self) - size * price /\
      Engine._calculate_trading_costs self (price * size)
      <= Portfolio.cash (Engine.portfolio self').
Proof.
  intros self self' s timestamp Hcall.
  apply process_signals_cases in Hcall
    as [->|(price & volume & size & symbol & direction & Hp & Hv & _ & _ & Hpos
            & Hle & _ & Hfunds & _ & _ & Hobjs & Hcash & rec & Hhist & Hact & Hprice
            & Hsize & _)]; [by left|right].
  exists price, volume, size, rec.
  repeat (split; [assumption|]).
  split. { rewrite Hobjs, length_app. cbn. lia. }
  repeat (split; [assumption|]).
  rewrite Hcash. rewrite (Qmult_comm size price). lra.
Qed.

Lemma signal_opens_at_most_one_position_witness :
  exists self',
    Engine.process_signals (Engine.init Scenario.engine_config)
      (Engine.mk_signals (Some "X") (Some "long") (Some 100) (Some 1)) 1
    = Ok self' /\
    (self' = Engine.init Scenario.engine_config \/
     exists price volume size rec,
       Some 100 = Some price /\ Some 1 = Some volume /\
       0 < size /\ size <= volume /\
       length (Engine.positions self')
       = S (length (Engine.positions (Engine.init Scenario.engine_config))) /\
       Engine.history self'
       = Engine.history (Engine.init Scenario.engine_config) ++ [rec] /\
       Performance.action rec = "open" /\
       Performance.price rec = Some price /\
       Performance.size rec = size /\
       Portfolio.cash (Engine.portfolio self')
       = Portfolio.cash (Engine.portfolio (Engine.init Scenario.engine_config))
         - size * price /\
       Engine._calculate_trading_costs (Engine.init Scenario.engine_config)
         (price * size)
       <= Portfolio.cash (Engine.portfolio self')).
Proof.
  destruct (Engine.process_signals (Engine.init Scenario.engine_config)
              (Engine.mk_signals (Some "X") (Some "long") (Some 100) (Some 1)) 1)
    as [self'|e] eqn:Hcall; [|vm_compute in Hcall; discriminate].
  exists self'. split; [reflexivity|].
  exact (signal_opens_at_most_one_position _ _ _ _ Hcall).
Defined.

Lemma total_cost_nonneg (costs : list Costs.cost) (trade_value : Q) :
  Forall (fun c => match c with
                   | Costs.CommissionCost rate => 0 <= rate
                   | Costs.SpreadCost spread_points point_value =>
                       0 <= spread_points * point_value
                   | Costs.SlippageCost slippage_pips => 0 <= slippage_pips
                   end) costs ->
  0 <= trade_value ->
  0 <= Costs.calculate_total_cost costs trade_value.
Proof.
  intros Hcosts Hvalue. unfold Costs.calculate_total_cost.
  apply py_sum_nonneg. induction Hcosts as [|c costs Hc _ IH]; [constructor|].
  cbn [map]. constructor; [|exact IH].
  destruct c as [rate|spread_points point_value|slippage_pips]; cbn [Costs.calculate].
  - by apply Qmult_le_0_compat.
  - exact Hc.
  - apply Qmult_le_0_compat; [exact Hvalue|].
    apply Qle_shift_div_l; lra.
Qed.

(** X17: a signal that cannot be afforded is dropped, not raised.  When no
    configured cost component is negative (commission rate, spread, slippage)
    and the signalled price is not negative, [process_signals] never raises
    the ValueError of [Portfolio.add_position]: the funds check of the
    engine, which adds the trading costs, comes first and is the stricter
    one. *)
Theorem unaffordable_signal_never_raises :
  forall (self : Engine.t) (s : Engine.signals) (timestamp : Z) (message : string),
    Forall (fun c => match c with
                     | Costs.CommissionCost rate => 0 <= rate
                     | Costs.SpreadCost spread_points point_value =>
                         0 <= spread_points * point_value
                     | Costs.SlippageCost slippage_pips => 0 <= slippage_pips
                     end) (Engine.cost_manager self) ->
    (forall price, Engine.s_price s = Some price -> 0 <= price) ->
    Engine.process_signals self s timestamp <> Raise (Exn "ValueError" message).
Proof.
  intros self s timestamp message Hcosts Hprice.
  unfold Engine.process_signals.
  destruct (Engine.truthy s); cbn [negb]; [|discriminate].
  unfold Engine._can_open_position.
  destruct (Engine.s_price s) as [price|] eqn:Hp; cbn; [|discriminate].
  destruct (Engine.s_volume s) as [volume|] eqn:Hv; cbn; [|discriminate].
  destruct (Portfolio.has_sufficient_funds _ _); cbn; [|discriminate].
  destruct (Qgeb _ _); cbn; [discriminate|].
  unfold Engine._calculate_position_size.
  destruct (getitem _ "risk_percentage") as [rp|] eqn:Hrp; cbn.
  2: { unfold getitem in Hrp. destruct (_ !! _); [discriminate|].
       injection Hrp as <-. discriminate. }
  rewrite Hv, Hp. cbn.
  destruct (getitem _ "stop_loss_multiplier") as [slm|] eqn:Hslm; cbn.
  2: { unfold getitem in Hslm. destruct (_ !! _); [discriminate|].
       injection Hslm as <-. discriminate. }
  destruct (Qeq_bool _ _); cbn; [discriminate|].
  set (size := Engine.py_min volume _).
  destruct (Qle_bool size 0) eqn:Hsize; [discriminate|].
  destruct (Portfolio.has_sufficient_funds _ _) eqn:Hfunds; cbn; [|discriminate].
  destruct (Engine.s_symbol s) as [symbol|]; cbn; [|discriminate].
  destruct (Engine.s_direction s) as [direction|]; cbn; [|discriminate].
  rewrite add_position_ok; [discriminate|].
  apply Qgeb_ge in Hfunds.
  assert (Hpos : 0 < size).
  { apply Qnot_le_lt. intros Hle. apply Qle_bool_iff in Hle. congruence. }
  assert (Hvalue : 0 <= price * size).
  { apply Qmult_le_0_compat; [by apply Hprice|lra]. }
  pose proof (total_cost_nonneg _ _ Hcosts Hvalue) as Hcost.
  unfold Engine._calculate_trading_costs in Hfunds.
  unfold Position.get_value. cbn [Position.init Position.size Position.entry_price].
  rewrite (Qmult_comm size price). lra.
Qed.

Lemma unaffordable_signal_never_raises_witness :
  Engine.process_signals Examples.engine_with_costs
    (Engine.mk_signals (Some "X") (Some "long") (Some 100) (Some 100)) 1
  <> Raise (Exn "ValueError" "Insufficient funds to open position") /\
  Engine.process_signals Examples.engine_with_costs
    (Engine.mk_signals (Some "X") (Some "long") (Some 100) (Some 100)) 1
  = Ok Examples.engine_with_costs.
Proof.
  split; [|reflexivity].
  apply (unaffordable_signal_never_raises Examples.engine_with_costs
           (Engine.mk_signals (Some "X") (Some "long") (Some 100) (Some 100)) 1
           "Insufficient funds to open position").
  - repeat constructor; vm_compute; discriminate.
  - intros price [= <-]. vm_compute. discriminate.
Defined.

(** X18: a signal that lacks a required field is not dropped.  A non-empty
    signal dict without 'price' makes [process_signals] raise KeyError for
    'price', and one with a price but without 'volume' KeyError for
    'volume'. *)
Theorem signal_without_price_or_volume_raises :
  forall (self : Engine.t) (s : Engine.signals) (timestamp : Z),
    Engine.truthy s = true ->
    (Engine.s_price s = None ->
     Engine.process_signals self s timestamp = Raise (Exn "KeyError" "price")) /\
    (is_Some (Engine.s_price s) -> Engine.s_volume s = None ->
     Engine.process_signals self s timestamp = Raise (Exn "KeyError" "volume")).
Proof.
  intros self s timestamp Htruthy.
  unfold Engine.process_signals, Engine._can_open_position. rewrite Htruthy.
  split.
  - by intros ->.
  - intros [price ->] ->. reflexivity.
Qed.

Lemma signal_without_price_or_volume_raises_witness :
  Engine.truthy (Engine.mk_signals (Some "X") (Some "long") None (Some 1)) = true /\
  Engine.process_signals (Engine.init Scenario.engine_config)
    (Engine.mk_signals (Some "X") (Some "long") None (Some 1)) 1
  = Raise (Exn "KeyError" "price").
Proof.
  assert (Htruthy :
    Engine.truthy (Engine.mk_signals (Some "X") (Some "long") None (Some 1)) = true)
    by reflexivity.
  split; [exact Htruthy|].
  exact (proj1 (signal_without_price_or_volume_raises
                  (Engine.init Scenario.engine_config)
                  (Engine.mk_signals (Some "X") (Some "long") None (Some 1)) 1
                  Htruthy) eq_refl).
Defined.

Lemma remove_object_in (id : nat) (l : list (nat * Position.t)) :
  In id (map fst l) ->
  exists l', Engine.remove_object id l = Ok l' /\ S (length l') = length l.
Proof.
  induction l as [|x l IH]; [intros []|].
  intros Hin. cbn [Engine.remove_object].
  destruct (Nat.eqb x.1 id) eqn:E; [by exists l|].
  destruct Hin as [Heq|Hin]; [cbn in Heq; subst; by rewrite Nat.eqb_refl in E|].
  destruct (IH Hin) as (l' & -> & Hlen). cbn [mbind result_bind].
  exists (x :: l'). split; [reflexivity|]. cbn [length]. by rewrite Hlen.
Qed.

Lemma remove_object_absent (id : nat) (l : list (nat * Position.t)) :
  ~ In id (map fst l) ->
  Engine.remove_object id l = Raise (Exn "ValueError" "list.remove(x): x not in list").
Proof.
  induction l as [|x l IH]; [reflexivity|].
  intros Hout. cbn [Engine.remove_object].
  destruct (Nat.eqb x.1 id) eqn:E.
  - exfalso. apply Hout. left. by apply Nat.eqb_eq in E.
  - rewrite IH; [reflexivity|]. intros Hin. apply Hout. by right.
Qed.

Lemma remove_object_length (id : nat) (l l' : list (nat * Position.t)) :
  Engine.remove_object id l = Ok l' -> S (length l') = length l.
Proof.
  intros Hrem. destruct (in_dec Nat.eq_dec id (map fst l)) as [Hin|Hout].
  - destruct (remove_object_in id l Hin) as (l0 & Hl0 & Hlen). congruence.
  - rewrite (remove_object_absent id l Hout) in Hrem. discriminate.
Qed.

(** What [_close_position] does before and after [list.remove]: it raises
    what [list.remove] raises, and otherwise returns. *)
Lemma close_position_cases (wall_clock : nat -> Z) (self : Engine.t)
    (obj : nat * Position.t) (r : Engine.row) :
  (forall e,
      Engine.remove_object obj.1 (Engine.positions self) = Raise e ->
      Engine._close_position wall_clock self obj r = Raise e) /\
  (forall positions',
      Engine.remove_object obj.1 (Engine.positions self) = Ok positions' ->
      exists self' rec,
        Engine._close_position wall_clock self obj r = Ok self' /\
        Engine.cfg self' = Engine.cfg self /\
        Engine.cost_manager self' = Engine.cost_manager self /\
        Engine.positions self' = positions' /\
        Engine.history self' = Engine.history self ++ [rec] /\
        Performance.action rec = "close" /\
        Performance.price rec = Some (Engine.close r) /\
        Performance.pnl rec = Some (Position.pnl_value obj.2 (Engine.close r)) /\
        (is_Some (Portfolio.positions (Engine.portfolio self)
                    !! Position.symbol obj.2) ->
         Portfolio.cash (Engine.portfolio self')
         = Portfolio.cash (Engine.portfolio self)
           + Position.size obj.2 * Engine.close r) /\
        (Portfolio.positions (Engine.portfolio self) !! Position.symbol obj.2 = None ->
         Engine.portfolio self' = Engine.portfolio self)).
Proof.
  unfold Engine._close_position.
  cbn [Position.calculate_pnl fst snd].
  change (Position.symbol (Position.set_pnl obj.2 _)) with (Position.symbol obj.2).
  destruct (Portfolio.positions (Engine.portfolio self) !! Position.symbol obj.2)
    as [held|] eqn:Hheld.
  - rewrite remove_position_open
      by (cbn [Position.set_pnl Position.symbol]; rewrite Hheld; by eexists).
    cbn [mbind result_bind]. split; [by intros e ->|].
    intros positions' ->. cbn [mbind result_bind].
    eexists _, _. split; [reflexivity|].
    cbn [Engine._record_trade Engine.cfg Engine.cost_manager Engine.positions
         Engine.history Engine.portfolio fst snd].
    do 7 (split; [reflexivity|]).
    split; [intros _; reflexivity|discriminate].
  - rewrite remove_position_absent
      by (cbn [Position.set_pnl Position.symbol]; exact Hheld).
    cbn [mbind result_bind]. split; [by intros e ->|].
    intros positions' ->. cbn [mbind result_bind].
    eexists _, _. split; [reflexivity|].
    cbn [Engine._record_trade Engine.cfg Engine.cost_manager Engine.positions
         Engine.history Engine.portfolio fst snd].
    do 7 (split; [reflexivity|]).
    split; [intros [? [=]]|reflexivity].
Qed.

(** X20: the engine exits at the close of the bar.  For a position object
    that is in [positions], [_close_position] returns; it takes the object
    out of the list and appends a 'close' record whose price is the close of
    the bar and whose P&L is the directional P&L at that close, wherever
    the stop-loss and take-profit levels are.  If the portfolio holds the
    symbol, cash is credited with [size * close]; if it does not, the record
    is appended all the same and the portfolio is left untouched.  For an
    object that is not in [positions] it raises the ValueError of
    [list.remove]. *)
Theorem engine_exits_at_bar_close :
  forall (wall_clock : nat -> Z) (self : Engine.t)
         (obj : nat * Position.t) (r : Engine.row),
    (In obj.1 (map fst (Engine.positions self)) ->
     exists self' rec,
       Engine._close_position wall_clock self obj r = Ok self' /\
       Engine.remove_object obj.1 (Engine.positions self)
       = Ok (Engine.positions self') /\
       S (length (Engine.positions self')) = length (Engine.positions self) /\
       Engine.history self' = Engine.history self ++ [rec] /\
       Performance.action rec = "close" /\
       Performance.price rec = Some (Engine.close r) /\
       Performance.pnl rec = Some (Position.pnl_value obj.2 (Engine.close r)) /\
       (is_Some (Portfolio.positions (Engine.portfolio self)
                   !! Position.symbol obj.2) ->
        Portfolio.cash (Engine.portfolio self')
        = Portfolio.cash (Engine.portfolio self)
          + Position.size obj.2 * Engine.close r) /\
       (Portfolio.positions (Engine.portfolio self) !! Position.symbol obj.2 = None ->
        Engine.portfolio self' = Engine.portfolio self)) /\
    (~ In obj.1 (map fst (Engine.positions self)) ->
     Engine._close_position wall_clock self obj r
     = Raise (Exn "ValueError" "list.remove(x): x not in list")).
Proof.
  intros wall_clock self obj r.
  destruct (close_position_cases wall_clock self obj r) as [Hraise Hok].
  split.
  - intros Hin.
    destruct (remove_object_in _ _ Hin) as (positions' & Hrem & Hlen).
    destruct (Hok positions' Hrem)
      as (self' & rec & Hcall & _ & _ & Hobjs & Hrest).
    exists self', rec. rewrite Hobjs.
    split; [exact Hcall|]. split; [exact Hrem|]. split; [exact Hlen|exact Hrest].
  - intros Hout. apply Hraise. by apply remove_object_absent.
Qed.

Lemma engine_exits_at_bar_close_witness :
  (exists self' rec,
     Engine._close_position Scenario.wall_clock Examples.engine_holding_X
       (0%nat, Scenario.long_X) (Engine.mk_row 2 100 100 90 95) = Ok self' /\
     Engine.positions self' = [] /\
     Engine.history self' = Engine.history Examples.engine_holding_X ++ [rec] /\
     Performance.price rec = Some 95) /\
  Engine._close_position Scenario.wall_clock Examples.engine_holding_X
    (1%nat, Scenario.long_X) (Engine.mk_row 2 100 100 90 95)
  = Raise (Exn "ValueError" "list.remove(x): x not in list").
Proof.
  split.
  - destruct (proj1 (engine_exits_at_bar_close Scenario.wall_clock
                       Examples.engine_holding_X (0%nat, Scenario.long_X)
                       (Engine.mk_row 2 100 100 90 95)))
      as (self' & rec & Hcall & Hrem & _ & Hhist & _ & Hprice & _).
    { vm_compute. by left. }
    exists self', rec. split; [exact Hcall|].
    assert (Hempty : Engine.remove_object 0
                       (Engine.positions Examples.engine_holding_X) = Ok [])
      by reflexivity.
    cbn [fst] in Hrem. rewrite Hempty in Hrem. injection Hrem as <-.
    split; [reflexivity|]. split; [exact Hhist|exact Hprice].
  - apply (proj2 (engine_exits_at_bar_close Scenario.wall_clock
                    Examples.engine_holding_X (1%nat, Scenario.long_X)
                    (Engine.mk_row 2 100 100 90 95))).
    vm_compute. intros [H|[]]. discriminate.
Defined.

Lemma update_loop_keeps (wall_clock : nat -> Z) (r : Engine.row)
    (snapshot : list (nat * Position.t)) :
  forall self self',
    Engine.update_loop wall_clock self snapshot r = Ok self' ->
    Engine.cfg self' = Engine.cfg self /\
    Engine.cost_manager self' = Engine.cost_manager self /\
    (length (Engine.positions self') <= length (Engine.positions self))%nat.
Proof.
  induction snapshot as [|obj rest IH]; intros self self' Hloop.
  - injection Hloop as <-. repeat split. lia.
  - cbn [Engine.update_loop] in Hloop.
    destruct (Engine._should_close_position self obj.2 r) as [should|];
      cbn [mbind result_bind] in Hloop; [|discriminate].
    destruct should.
    + destruct (close_position_cases wall_clock self obj r) as [Hraise Hok].
      destruct (Engine.remove_object obj.1 (Engine.positions self))
        as [positions'|e] eqn:Hrem.
      * destruct (Hok positions' eq_refl)
          as (self1 & rec & Hclose & Hcfg & Hcost & Hobjs & _).
        rewrite Hclose in Hloop. cbn [mbind result_bind] in Hloop.
        apply IH in Hloop as (Hcfg' & Hcost' & Hlen).
        rewrite Hcfg', Hcost', Hcfg, Hcost. repeat split.
        rewrite Hobjs in Hlen. apply remove_object_length in Hrem. lia.
      * rewrite (Hraise e eq_refl) in Hloop. discriminate.
    + cbn [mbind result_bind] in Hloop. by apply IH in Hloop.
Qed.




(** ** The grid: combinations and their dicts *)

Lemma product_cons_length (l : list Q) (rest : list (list Q)) :
  length (flat_map (fun x => map (cons x) rest) l) = (length l * length rest)%nat.
Proof.
  induction l as [|x l IH]; [reflexivity|].
  cbn [flat_map]. rewrite length_app, length_map, IH. cbn. lia.
Qed.

Lemma product_length (lists : list (list Q)) :
  length (product lists) = foldr (fun l n => (length l * n)%nat) 1%nat lists.
Proof.
  induction lists as [|l lists IH]; [reflexivity|].
  cbn [product foldr]. by rewrite product_cons_length, IH.
Qed.

(** X21: the size of the grid.  The grid search and [define_parameters]
    build the same list of parameter dicts, one per element of the Cartesian
    product: their number is the product of the numbers of candidates, so
    an empty candidate list leaves nothing to evaluate and an empty
    parameter space leaves one empty parameter set. *)
Theorem grid_size_is_product_of_candidates :
  forall param_space : list (string * list Q),
    length (Optimizer.combinations param_space)
    = foldr (fun item n => (length item.2 * n)%nat) 1%nat param_space /\
    StrategyOptimizer.define_parameters param_space
    = Optimizer.combinations param_space /\
    (In [] (map snd param_space) -> Optimizer.combinations param_space = []) /\
    Optimizer.combinations [] = [∅].
Proof.
  intros param_space.
  assert (Hlen : length (Optimizer.combinations param_space)
                 = foldr (fun item n => (length item.2 * n)%nat) 1%nat param_space).
  { unfold Optimizer.combinations. rewrite length_map, product_length.
    induction param_space as [|item space IH]; [reflexivity|].
    cbn [map foldr]. by rewrite IH. }
  split; [exact Hlen|]. split; [reflexivity|]. split; [|reflexivity].
  intros Hempty. apply length_zero_iff_nil. rewrite Hlen. clear Hlen.
  induction param_space as [|item space IH]; [destruct Hempty|].
  cbn [foldr]. destruct Hempty as [Hitem|Hrest].
  - cbn in Hitem. rewrite Hitem. reflexivity.
  - rewrite (IH Hrest). lia.
Qed.

Lemma in_product (lists : list (list Q)) :
  forall combo,
    In combo (product lists) <-> Forall2 (fun v l => In v l) combo lists.
Proof.
  induction lists as [|l lists IH]; intros combo; cbn [product].
  - split.
    + intros [<-|[]]. constructor.
    + intros H. inversion H. by left.
  - rewrite in_flat_map. split.
    + intros (x & Hx & Hin). apply in_map_iff in Hin as (rest & <- & Hrest).
      constructor; [exact Hx|]. by apply IH.
    + intros H. inversion H as [|x l' rest lists' Hx Hrest]; subst.
      exists x. split; [exact Hx|]. apply in_map_iff.
      exists rest. split; [reflexivity|]. by apply IH.
Qed.

Lemma product_NoDup (lists : list (list Q)) :
  Forall (fun l => List.NoDup l) lists -> List.NoDup (product lists).
Proof.
  induction 1 as [|l lists Hl _ IH]; cbn [product].
  - constructor; [intros []|constructor].
  - induction Hl as [|x l Hx _ IHl]; cbn [flat_map]; [constructor|].
    apply List.NoDup_app.
    + apply List.NoDup_map_inv with (f := fun c => tl c).
      rewrite List.map_map. cbn [tl]. by rewrite List.map_id.
    + exact IHl.
    + intros c Hc Hc'. apply in_map_iff in Hc as (rest & <- & _).
      apply in_flat_map in Hc' as (y & Hy & Hc').
      apply in_map_iff in Hc' as (rest' & [= -> _] & _). contradiction.
Qed.

(** X22: what the grid contains.  The combinations are exactly the tuples
    that take, for each parameter in order, one of its candidate values; and
    when no candidate list repeats a value, no combination occurs twice. *)
Theorem grid_combinations_are_the_tuples :
  forall lists : list (list Q),
    (forall combo,
        In combo (product lists) <-> Forall2 (fun v l => In v l) combo lists) /\
    (Forall (fun l => List.NoDup l) lists -> List.NoDup (product lists)).
Proof.
  intros lists. split; [apply in_product|apply product_NoDup].
Qed.

Lemma grid_combinations_are_the_tuples_witness :
  Forall (fun l => List.NoDup l) [[1; 2]; [3]] /\
  List.NoDup (product [[1; 2]; [3]]).
Proof.
  assert (H : Forall (fun l => List.NoDup l) [[1; 2]; [3]]).
  { repeat constructor; cbn; intros Hin;
      repeat (destruct Hin as [Hin|Hin]; try discriminate); exact Hin. }
  split; [exact H|].
  exact (proj2 (grid_combinations_are_the_tuples [[1; 2]; [3]]) H).
Defined.

Lemma dict_zip_from (names : list string) :
  forall (values : list Q) (d : gmap string Q) (k : string),
    ~ In k names ->
    fold_left (fun d kv => <[kv.1 := kv.2]> d) (combine names values) d !! k = d !! k.
Proof.
  induction names as [|n names IH]; intros values d k Hk; [reflexivity|].
  destruct values as [|v values]; [reflexivity|].
  cbn [combine fold_left fst snd]. rewrite IH by (intros Hin; apply Hk; by right).
  apply lookup_insert_ne. intros ->. apply Hk. by left.
Qed.

(** X23: the dict of a combination.  When the parameter names are distinct
    and as many as the values, [dict(zip(names, values))] maps the [i]-th
    name to the [i]-th value, and a key that is not a name to nothing. *)
Theorem dict_zip_lookup :
  forall (names : list string) (values : list Q),
    List.NoDup names ->
    length names = length values ->
    (forall i name v,
        nth_error names i = Some name -> nth_error values i = Some v ->
        dict_zip names values !! name = Some v) /\
    (forall k, ~ In k names -> dict_zip names values !! k = None).
Proof.
  intros names values Hnodup Hlen. split.
  - unfold dict_zip. generalize (∅ : gmap string Q) as d.
    revert values Hlen. induction Hnodup as [|n names Hn _ IH];
      intros values Hlen d i name v Hname Hv.
    + by destruct i.
    + destruct values as [|w values]; [discriminate|].
      cbn [combine fold_left fst snd].
      destruct i as [|i]; cbn in Hname, Hv.
      * injection Hname as <-. injection Hv as <-.
        rewrite dict_zip_from by exact Hn. apply lookup_insert_eq.
      * eapply IH; eauto.
  - intros k Hk. unfold dict_zip. rewrite dict_zip_from by exact Hk. reflexivity.
Qed.

Lemma dict_zip_lookup_witness :
  List.NoDup ["fast"; "slow"] /\
  length ["fast"; "slow"] = length [5; 20] /\
  dict_zip ["fast"; "slow"] [5; 20] !! "slow" = Some 20.
Proof.
  assert (Hnodup : List.NoDup ["fast"; "slow"]).
  { repeat constructor; cbn; intros Hin;
      repeat (destruct Hin as [Hin|Hin]; try discriminate); exact Hin. }
  assert (Hlen : length ["fast"; "slow"] = length [5; 20]) by reflexivity.
  split; [exact Hnodup|]. split; [exact Hlen|].
  exact (proj1 (dict_zip_lookup ["fast"; "slow"] [5; 20] Hnodup Hlen)
           1%nat "slow" 20 eq_refl eq_refl).
Defined.

(** ** The optimizer: evaluations, results and the best entry *)

Section Evaluations.
Variable wall_clock : nat -> Z.
Variable strategy_class : Engine.strategy_class.
Variable data : list Engine.row.
Variable objective_func : option Performance.metrics -> result npfloat.

(** The part of a run that does not touch the configuration. *)
Lemma run_bars_cfg (rest : list Engine.row) :
  forall seen st st',
    Engine.run_bars wall_clock strategy_class st seen rest = Ok st' ->
    Engine.cfg st'.1 = Engine.cfg st.1.
Proof.
  induction rest as [|r rest IH]; intros seen st st' Hrun.
  - by injection Hrun as <-.
  - cbn [Engine.run_bars] in Hrun.
    destruct (Engine.run_bar wall_clock strategy_class st (seen ++ [r]) r)
      as [st1|] eqn:Hbar; cbn [mbind result_bind] in Hrun; [|discriminate].
    apply IH in Hrun. rewrite Hrun. clear Hrun IH.
    unfold Engine.run_bar in Hbar.
    destruct (Engine.on_data strategy_class st.2 (seen ++ [r])) as [sd|];
      cbn [mbind result_bind] in Hbar; [|discriminate].
    destruct (Engine.update_positions wall_clock st.1 r) as [self1|] eqn:Hupd;
      cbn [mbind result_bind] in Hbar; [|discriminate].
    unfold Engine.update_positions in Hupd.
    apply update_loop_keeps in Hupd as (Hcfg1 & _ & _).
    destruct (Engine.generate_signals strategy_class sd) as [gs|];
      cbn [mbind result_bind] in Hbar; [|discriminate].
    destruct (Engine.truthy gs.2).
    + destruct (Engine.process_signals self1 gs.2 (Engine.index r))
        as [self2|] eqn:Hsig; cbn [mbind result_bind] in Hbar; [|discriminate].
      injection Hbar as <-. cbn [fst].
      apply process_signals_cases in Hsig
        as [->|(price & volume & size & symbol & direction & _ & _ & _ & _ & _
                & _ & _ & _ & Hcfg2 & _)]; [exact Hcfg1|].
      by rewrite Hcfg2.
    + cbn [mbind result_bind] in Hbar. injection Hbar as <-. exact Hcfg1.
Qed.

(** What an evaluation that returns has done to the optimizer. *)
Lemma evaluate_params_ok (self self1 : Optimizer.t) (params : gmap string Q)
    (sc : npfloat) :
  Optimizer.evaluate_params wall_clock strategy_class data objective_func
    self params = Ok (self1, sc) ->
  (exists m, Optimizer.results self1
             = Optimizer.results self ++ [Optimizer.mk_entry params m sc]) /\
  Engine.cfg (Optimizer.engine self1)
  = Engine.mk_config
      (Engine.risk_management (Engine.cfg (Optimizer.engine self)))
      (dict_update (Engine.indicators (Engine.cfg (Optimizer.engine self))) params)
      (Engine.trading_costs (Engine.cfg (Optimizer.engine self))).
Proof.
  unfold Optimizer.evaluate_params, Engine.run.
  destruct (Engine.initialize strategy_class _ _) as [s0|];
    cbn [mbind result_bind]; [|discriminate].
  destruct (Engine.run_bars _ _ _ _ _) as [st|] eqn:Hbars;
    cbn [mbind result_bind fst snd]; [|discriminate].
  destruct (Performance.calculate _ _) as [results|];
    cbn [mbind result_bind fst snd]; [|discriminate].
  destruct (objective_func _) as [score|]; cbn [mbind result_bind]; [|discriminate].
  intros [= <- <-]. cbn [Optimizer.results Optimizer.engine].
  split; [by eexists|].
  apply run_bars_cfg in Hbars. exact Hbars.
Qed.

Lemma evaluate_all_results (combos : list (gmap string Q)) :
  forall self self',
    Optimizer.evaluate_all wall_clock strategy_class data objective_func
      self combos = Ok self' ->
    map Optimizer.params (Optimizer.results self')
    = map Optimizer.params (Optimizer.results self) ++ combos.
Proof.
  induction combos as [|params combos IH]; intros self self' Hall.
  - injection Hall as <-. by rewrite app_nil_r.
  - cbn [Optimizer.evaluate_all] in Hall.
    destruct (Optimizer.evaluate_params _ _ _ _ self params) as [[self1 sc]|] eqn:Hev;
      cbn [mbind result_bind fst] in Hall; [|discriminate].
    apply evaluate_params_ok in Hev as [[m Hres] _].
    apply IH in Hall. rewrite Hall, Hres, map_app. cbn [map Optimizer.params].
    by rewrite <- app_assoc.
Qed.

(** X24: one result per combination.  A grid search that returns has
    appended to [results] exactly one entry per combination of the grid, in
    the order of the grid, and returns the parameters that
    [get_best_params] picks among all the results. *)
Theorem grid_search_records_every_combination :
  forall (param_space : list (string * list Q)) (self self' : Optimizer.t)
         (best : gmap string Q),
    Optimizer.optimize wall_clock strategy_class param_space data objective_func
      self = Ok (self', best) ->
    map Optimizer.params (Optimizer.results self')
    = map Optimizer.params (Optimizer.results self)
      ++ Optimizer.combinations param_space /\
    best = Optimizer.get_best_params self'.
Proof.
  intros param_space self self' best. unfold Optimizer.optimize.
  destruct (Optimizer.evaluate_all _ _ _ _ _ _) as [self1|] eqn:Hall;
    cbn [mbind result_bind]; [|discriminate].
  intros [= <- <-]. split; [|reflexivity].
  by apply evaluate_all_results.
Qed.

(** X26: the parameters stay in the engine.  After an evaluation that
    returns, the engine's own [config['indicators']] holds the evaluated
    parameters, and every key that the parameter set does not carry keeps
    the value it had, be it from the configuration or from an earlier
    parameter set; the other sections of the configuration are unchanged. *)
Theorem evaluated_parameters_stay_in_the_engine :
  forall (self self1 : Optimizer.t) (params : gmap string Q) (sc : npfloat),
    Optimizer.evaluate_params wall_clock strategy_class data objective_func
      self params = Ok (self1, sc) ->
    (forall k,
        Engine.indicators (Engine.cfg (Optimizer.engine self1)) !! k
        = match params !! k with
          | Some v => Some v
          | None => Engine.indicators (Engine.cfg (Optimizer.engine self)) !! k
          end) /\
    Engine.risk_management (Engine.cfg (Optimizer.engine self1))
    = Engine.risk_management (Engine.cfg (Optimizer.engine self)) /\
    Engine.trading_costs (Engine.cfg (Optimizer.engine self1))
    = Engine.trading_costs (Engine.cfg (Optimizer.engine self)).
Proof.
  intros self self1 params sc Hev.
  apply evaluate_params_ok in Hev as [_ ->].
  cbn [Engine.indicators Engine.risk_management Engine.trading_costs].
  split; [|by split].
  intros k. unfold dict_update. rewrite lookup_union.
  destruct (params !! k), (Engine.indicators _ !! k); reflexivity.
Qed.

End Evaluations.

Lemma grid_search_records_every_combination_witness :
  exists self' best,
    Scenario.grid_search Scenario.engine_config [1; 2] = Ok (self', best) /\
    map Optimizer.params (Optimizer.results self')
    = map Optimizer.params
        (Optimizer.results (Optimizer.init (Engine.init Scenario.engine_config)))
      ++ Optimizer.combinations [("volume", [1; 2])] /\
    best = Optimizer.get_best_params self'.
Proof.
  destruct (Scenario.grid_search Scenario.engine_config [1; 2])
    as [[self' best]|e] eqn:Hrun; [|vm_compute in Hrun; discriminate].
  exists self', best. split; [reflexivity|].
  exact (grid_search_records_every_combination Scenario.wall_clock
           Scenario.always_long Scenario.bars Scenario.final_equity_objective
           [("volume", [1; 2])] _ self' best Hrun).
Defined.

Lemma evaluated_parameters_stay_in_the_engine_witness :
  exists self1 sc,
    Scenario.first_evaluation Scenario.engine_config 2 = Ok (self1, sc) /\
    Engine.indicators (Engine.cfg (Optimizer.engine self1)) !! "volume"
    = match dict_zip ["volume"] [2] !! "volume" with
      | Some v => Some v
      | None =>
          Engine.indicators
            (Engine.cfg (Optimizer.engine
                           (Optimizer.init (Engine.init Scenario.engine_config))))
            !! "volume"
      end.
Proof.
  destruct (Scenario.first_evaluation Scenario.engine_config 2)
    as [[self1 sc]|e] eqn:Hev; [|vm_compute in Hev; discriminate].
  exists self1, sc. split; [reflexivity|].
  exact (proj1 (evaluated_parameters_stay_in_the_engine Scenario.wall_clock
                  Scenario.always_long Scenario.bars Scenario.final_equity_objective
                  _ self1 (dict_zip ["volume"] [2]) sc Hev) "volume").
Defined.

Lemma np_lt_trans (a b c : npfloat) :
  np_lt a b = true -> np_lt b c = true -> np_lt a c = true.
Proof.
  destruct a as [x| | |], b as [y| | |], c as [z| | |]; cbn; try discriminate; auto.
  intros H1 H2. apply Qltb_lt in H1, H2. apply Qltb_lt. lra.
Qed.

Lemma np_lt_irrefl (a : npfloat) : np_lt a a = false.
Proof.
  destruct a as [x| | |]; cbn; try reflexivity. apply Qltb_ge. lra.
Qed.

Lemma best_entry_spec (es : list Optimizer.entry) :
  forall e,
    In (Optimizer.best_entry e es) (e :: es) /\
    (forall x, In x (e :: es) ->
               np_lt (Optimizer.score (Optimizer.best_entry e es)) (Optimizer.score x)
               = false) /\
    ((forall x, In x es -> np_lt (Optimizer.score e) (Optimizer.score x) = false) ->
     Optimizer.best_entry e es = e).
Proof.
  induction es as [|y es IH]; intros e.
  - cbn. split; [by left|]. split; [|reflexivity].
    intros x [<-|[]]. apply np_lt_irrefl.
  - change (Optimizer.best_entry e (y :: es))
      with (Optimizer.best_entry
              (if np_lt (Optimizer.score e) (Optimizer.score y) then y else e) es).
    destruct (np_lt (Optimizer.score e) (Optimizer.score y)) eqn:E.
    + destruct (IH y) as (Hin & Hmax & _).
      set (r := Optimizer.best_entry y es) in *.
      split; [by right|]. split.
      * intros x [<-|Hx]; [|by apply Hmax].
        destruct (np_lt (Optimizer.score r) (Optimizer.score e)) eqn:E'; [|reflexivity].
        pose proof (np_lt_trans _ _ _ E' E) as Hlt.
        rewrite (Hmax y) in Hlt by (by left). discriminate.
      * intros Hfirst. rewrite (Hfirst y) in E by (by left). discriminate.
    + destruct (IH e) as (Hin & Hmax & Hfirst).
      set (r := Optimizer.best_entry e es) in *.
      assert (Hy : np_lt (Optimizer.score r) (Optimizer.score y) = false).
      { destruct (np_lt (Optimizer.score r) (Optimizer.score y)) eqn:E'; [|reflexivity].
        exfalso.
        pose proof (Hmax e (or_introl eq_refl)) as Hb.
        destruct (Optimizer.score e) as [q| | |] eqn:Hse.
        - destruct (Optimizer.score y), (Optimizer.score r);
            cbn in E, E', Hb; try discriminate.
          apply Qltb_ge in E, Hb. apply Qltb_lt in E'. lra.
        - destruct (Optimizer.score y), (Optimizer.score r);
            cbn in E, E', Hb; discriminate.
        - destruct (Optimizer.score y), (Optimizer.score r);
            cbn in E, E', Hb; discriminate.
        - assert (Hre : r = e) by (apply Hfirst; intros; reflexivity).
          rewrite Hre, Hse in E'. discriminate. }
      split; [destruct Hin as [Heq|Hin]; [by left|by right; right]|]. split.
      * intros x [<-|[<-|Hx]]; [apply Hmax; by left|exact Hy|apply Hmax; by right].
      * intros Hall. apply Hfirst. intros x Hx. apply Hall. by right.
Qed.

(** X25: the best entry.  [get_best_params] returns the parameters of an
    entry of [results] than which no entry has a strictly larger score; the
    first entry wins unless a later one is strictly larger, so when all the
    scores are negative infinity, or equal, it is the first entry that is
    returned; without results it returns the empty dict. *)
Theorem best_params_have_a_largest_score :
  forall self : Optimizer.t,
    (Optimizer.results self = [] -> Optimizer.get_best_params self = ∅) /\
    (forall e es,
        Optimizer.results self = e :: es ->
        exists best,
          In best (e :: es) /\
          Optimizer.get_best_params self = Optimizer.params best /\
          (forall x, In x (e :: es) ->
                     np_lt (Optimizer.score best) (Optimizer.score x) = false) /\
          ((forall x, In x es ->
                      np_lt (Optimizer.score e) (Optimizer.score x) = false) ->
           best = e)).
Proof.
  intros self. unfold Optimizer.get_best_params. split.
  - by intros ->.
  - intros e es ->. destruct (best_entry_spec es e) as (Hin & Hmax & Hfirst).
    exists (Optimizer.best_entry e es). by repeat split.
Qed.

Lemma best_params_have_a_largest_score_witness :
  exists best,
    In best [Optimizer.mk_entry (dict_zip ["volume"] [1]) None NInf;
             Optimizer.mk_entry (dict_zip ["volume"] [2]) None NInf] /\
    Optimizer.get_best_params
      (Optimizer.mk (Engine.init Scenario.engine_config)
         [Optimizer.mk_entry (dict_zip ["volume"] [1]) None NInf;
          Optimizer.mk_entry (dict_zip ["volume"] [2]) None NInf])
    = Optimizer.params best /\
    best = Optimizer.mk_entry (dict_zip ["volume"] [1]) None NInf.
Proof.
  destruct (proj2 (best_params_have_a_largest_score
                     (Optimizer.mk (Engine.init Scenario.engine_config)
                        [Optimizer.mk_entry (dict_zip ["volume"] [1]) None NInf;
                         Optimizer.mk_entry (dict_zip ["volume"] [2]) None NInf]))
              _ _ eq_refl) as (best & Hin & Hbest & _ & Hfirst).
  exists best. split; [exact Hin|]. split; [exact Hbest|].
  apply Hfirst. intros x [<-|[]]. reflexivity.
Defined.

(** ** The genetic optimizer's operators *)

Lemma choice_ok {A} (seq : list A) (g : Genetic.rng) (used : nat) :
  seq <> [] ->
  exists x, In x seq /\ Genetic.choice seq g used = Ok (x, S used).
Proof.
  intros Hne. unfold Genetic.choice.
  destruct (lookup_lt_is_Some_2 seq (g used mod length seq)%nat) as [x Hx].
  { apply Nat.mod_upper_bound. destruct seq; [done|cbn; lia]. }
  exists x. rewrite Hx. split; [|reflexivity].
  apply list_elem_of_In. by eapply list_elem_of_lookup_2.
Qed.

Lemma choice_empty {A} (g : Genetic.rng) (used : nat) :
  Genetic.choice (@nil A) g used
  = Raise (Exn "IndexError" "Cannot choose from an empty sequence").
Proof. reflexivity. Qed.

Lemma candidates_in (param_space : list (string * list Q)) (name : string) :
  In name (map fst param_space) ->
  exists values,
    In (name, values) param_space /\ Genetic.candidates param_space name = Ok values.
Proof.
  induction param_space as [|[n vs] rest IH]; [intros []|].
  intros Hin. cbn [Genetic.candidates fst snd].
  destruct (String.eqb n name) eqn:E.
  - apply String.eqb_eq in E as ->. exists vs. split; [by left|reflexivity].
  - destruct Hin as [Heq|Hin]; [cbn in Heq; subst; by rewrite String.eqb_refl in E|].
    destruct (IH Hin) as (values & Hv & Hc). exists values. split; [by right|exact Hc].
Qed.

Lemma crossover_loop_ok (names : list string) (parent1 parent2 : gmap string Q)
    (g : Genetic.rng) :
  (forall n, In n names -> is_Some (parent1 !! n) /\ is_Some (parent2 !! n)) ->
  forall child used,
  exists child',
    Genetic.crossover_loop names parent1 parent2 child g used
    = Ok (child', (used + length names)%nat) /\
    (forall n, In n names ->
               child' !! n = parent1 !! n \/ child' !! n = parent2 !! n) /\
    (forall n, ~ In n names -> child' !! n = child !! n).
Proof.
  induction names as [|name names IH]; intros Hhas child used.
  - exists child. cbn. rewrite Nat.add_0_r. by repeat split.
  - destruct (Hhas name (or_introl eq_refl)) as [[v1 H1] [v2 H2]].
    cbn [Genetic.crossover_loop]. unfold getitem. rewrite H1, H2. cbn [mbind result_bind].
    destruct (choice_ok [v1; v2] g used) as (c & Hc & ->); [done|].
    cbn [mbind result_bind fst snd].
    destruct (IH (fun n Hn => Hhas n (or_intror Hn)) (<[name := c]> child) (S used))
      as (child' & Hrun & Hgenes & Hrest).
    exists child'. split; [|split].
    + rewrite Hrun. cbn [length]. do 2 f_equal. lia.
    + intros n Hn. destruct (in_dec String.string_dec n names) as [Hin|Hout]; [by apply Hgenes|].
      destruct Hn as [<-|Hn]; [|done].
      rewrite (Hrest _ Hout), lookup_insert_eq, H1, H2.
      destruct Hc as [<-|[<-|[]]]; [by left|by right].
    + intros n Hn. rewrite Hrest by (intros Hin; apply Hn; by right).
      apply lookup_insert_ne. intros <-. apply Hn. by left.
Qed.

Lemma random_params_ok (g : Genetic.rng) (items : list (string * list Q)) :
  (forall name values, In (name, values) items -> values <> []) ->
  forall params used,
  exists p,
    Genetic.random_params items params g used = Ok (p, (used + length items)%nat) /\
    (forall name, is_Some (p !! name) <->
                  In name (map fst items) \/ is_Some (params !! name)) /\
    (forall name v, p !! name = Some v ->
                    (exists values, In (name, values) items /\ In v values) \/
                    params !! name = Some v).
Proof.
  induction items as [|[n vs] items IH]; intros Hne params used.
  - exists params. cbn. rewrite Nat.add_0_r. split; [reflexivity|].
    split; [intros name; tauto|intros name v Hv; by right].
  - cbn [Genetic.random_params fst snd].
    destruct (choice_ok vs g used) as (c & Hc & ->); [by apply (Hne n); left|].
    cbn [mbind result_bind fst snd].
    destruct (IH (fun name values H => Hne name values (or_intror H))
                (<[n := c]> params) (S used)) as (p & Hrun & Hdom & Hval).
    exists p. split; [|split].
    + rewrite Hrun. cbn [length]. do 2 f_equal. lia.
    + intros name. rewrite Hdom. cbn [map fst].
      destruct (String.string_dec n name) as [->|Hneq].
      * rewrite lookup_insert_eq. split; [intros _; left; by left|intros _; by right].
      * rewrite lookup_insert_ne by done. split.
        -- intros [H|H]; [left; by right|by right].
        -- intros [[H|H]|H]; [done|by left|by right].
    + intros name v Hv. destruct (Hval name v Hv) as [(values & Hin & Hv')|Hp].
      * left. exists values. split; [by right|exact Hv'].
      * destruct (String.string_dec n name) as [->|Hneq].
        -- rewrite lookup_insert_eq in Hp. injection Hp as <-.
           left. exists vs. split; [by left|exact Hc].
        -- rewrite lookup_insert_ne in Hp by done. by right.
Qed.

(** X27: crossover.  When both parents carry every parameter of the space,
    [_crossover] returns a child that has exactly the parameters of the
    space, each with the value of one of the two parents, and it draws once
    per parameter, whatever the generator gives. *)
Theorem crossover_takes_each_gene_from_a_parent
    (param_space : list (string * list Q)) (parent1 parent2 : gmap string Q)
    (g : Genetic.rng) (used : nat) :
  (forall n, In n (map fst param_space) ->
             is_Some (parent1 !! n) /\ is_Some (parent2 !! n)) ->
  exists child,
    Genetic._crossover param_space parent1 parent2 g used
    = Ok (child, (used + length param_space)%nat) /\
    (forall n, In n (map fst param_space) ->
               is_Some (child !! n) /\
               (child !! n = parent1 !! n \/ child !! n = parent2 !! n)) /\
    (forall n, ~ In n (map fst param_space) -> child !! n = None).
Proof.
  intros Hhas. unfold Genetic._crossover.
  destruct (crossover_loop_ok (map fst param_space) parent1 parent2 g Hhas ∅ used)
    as (child & Hrun & Hgenes & Hrest).
  exists child. rewrite length_map in Hrun. split; [exact Hrun|]. split.
  - intros n Hn. split; [|by apply Hgenes].
    destruct (Hhas n Hn) as [H1 H2].
    destruct (Hgenes n Hn) as [->| ->]; assumption.
  - intros n Hn. by rewrite (Hrest n Hn).
Qed.

Lemma crossover_takes_each_gene_from_a_parent_witness :
  exists child,
    Genetic._crossover [("volume", [1%Q; 2%Q])]
      (dict_zip ["volume"] [1%Q]) (dict_zip ["volume"] [2%Q]) (fun k => S k) 0
    = Ok (child, 1%nat) /\
    (child !! "volume" = Some 1%Q \/ child !! "volume" = Some 2%Q).
Proof.
  destruct (crossover_takes_each_gene_from_a_parent [("volume", [1%Q; 2%Q])]
              (dict_zip ["volume"] [1%Q]) (dict_zip ["volume"] [2%Q]) (fun k => S k) 0)
    as (child & Hrun & Hgenes & _).
  { intros n [<-|[]]. split; vm_compute; eauto. }
  exists child. split; [exact Hrun|].
  destruct (Hgenes "volume" (or_introl eq_refl)) as [_ [H|H]];
    [left|right]; rewrite H; reflexivity.
Defined.

(** X28: mutation.  On an empty parameter space [_mutate] raises the
    IndexError of [random.choice]; on a non-empty one whose candidate lists
    are non-empty it returns the given parameters with exactly one
    parameter of the space set to one of its candidates, after two draws. *)
Theorem mutate_resets_one_parameter
    (param_space : list (string * list Q)) (params : gmap string Q)
    (g : Genetic.rng) (used : nat) :
  (param_space = [] ->
   Genetic._mutate param_space params g used
   = Raise (Exn "IndexError" "Cannot choose from an empty sequence")) /\
  (param_space <> [] ->
   (forall name values, In (name, values) param_space -> values <> []) ->
   exists name values v,
     In (name, values) param_space /\ In v values /\
     Genetic._mutate param_space params g used
     = Ok (<[name := v]> params, (used + 2)%nat)).
Proof.
  split; [by intros ->|].
  intros Hne Hvals. unfold Genetic._mutate.
  destruct (choice_ok (map fst param_space) g used) as (name & Hname & ->).
  { by destruct param_space. }
  cbn [mbind result_bind fst snd].
  destruct (candidates_in param_space name Hname) as (values & Hin & ->).
  cbn [mbind result_bind].
  destruct (choice_ok values g (S used)) as (v & Hv & ->); [by apply (Hvals name)|].
  cbn [mbind result_bind fst snd].
  exists name, values, v. split; [exact Hin|]. split; [exact Hv|].
  do 2 f_equal. lia.
Qed.

Lemma mutate_resets_one_parameter_witness :
  exists name values v,
    In (name, values) [("volume", [1%Q; 2%Q])] /\ In v values /\
    Genetic._mutate [("volume", [1%Q; 2%Q])] (dict_zip ["volume"] [1%Q]) (fun k => k) 0
    = Ok (<[name := v]> (dict_zip ["volume"] [1%Q]), 2%nat).
Proof.
  apply (proj2 (mutate_resets_one_parameter [("volume", [1%Q; 2%Q])]
                  (dict_zip ["volume"] [1%Q]) (fun k => k) 0)).
  - discriminate.
  - intros name values [[= <- <-]|[]]. discriminate.
Defined.

(** X29: the initial population.  When every candidate list of the space is
    non-empty, [_initialize_population] returns [population_size]
    individuals; each has exactly the parameters of the space, each set to
    one of the candidates the space lists under that name; and it draws once
    per parameter and individual. *)
Theorem initial_population_is_drawn_from_the_space
    (param_space : list (string * list Q)) (g : Genetic.rng) :
  (forall name values, In (name, values) param_space -> values <> []) ->
  forall population_size used,
  exists population,
    Genetic._initialize_population param_space population_size g used
    = Ok (population, (used + population_size * length param_space)%nat) /\
    length population = population_size /\
    (forall p, In p population ->
               (forall name, is_Some (p !! name) <-> In name (map fst param_space)) /\
               (forall name v, p !! name = Some v ->
                               exists values,
                                 In (name, values) param_space /\ In v values)).
Proof.
  intros Hvals. induction population_size as [|n IH]; intros used.
  - exists []. cbn. rewrite Nat.add_0_r. by repeat split.
  - cbn [Genetic._initialize_population].
    destruct (random_params_ok g param_space Hvals ∅ used) as (p & -> & Hdom & Hval).
    cbn [mbind result_bind fst snd].
    destruct (IH (used + length param_space)%nat) as (rest & -> & Hlen & Hall).
    cbn [mbind result_bind fst snd].
    exists (p :: rest). split; [do 2 f_equal; lia|]. split; [cbn; by rewrite Hlen|].
    intros q [<-|Hq]; [|by apply Hall]. split.
    + intros name. rewrite Hdom, lookup_empty. split; [intros [H|[? [=]]]; exact H|by left].
    + intros name v Hv. destruct (Hval name v Hv) as [H|H]; [exact H|].
      by rewrite lookup_empty in H.
Qed.

Lemma initial_population_is_drawn_from_the_space_witness :
  exists population,
    Genetic._initialize_population [("volume", [1%Q; 2%Q])] 3 (fun k => k) 0
    = Ok (population, 3%nat) /\
    length population = 3%nat.
Proof.
  destruct (initial_population_is_drawn_from_the_space [("volume", [1%Q; 2%Q])]
              (fun k => k)) with (population_size := 3%nat) (used := 0%nat)
    as (population & Hrun & Hlen & _).
  { intros name values [[= <- <-]|[]]. discriminate. }
  exists population. split; [exact Hrun|exact Hlen].
Defined.
